(** * Personal Library Manager: the library store of [library_manager.py]

    A shallow embedding of the class [LibraryManager] (add, remove, search,
    statistics, save, load) together with the two services of the Python
    runtime it is built on: [json.dump] / [json.load] with their default
    settings, and the dynamic operations on the values a JSON file can
    hold ([len], iteration, subscription, truth value, [list.append],
    [list.pop], [str.lower], [in]).

    Conventions of the model.
    - A Python [str] is a sequence of Unicode code points; a code point is
      a number [N] below [0x110000].
    - The storage file [library.txt] is the text it decodes to, [None]
      when the file is absent.  Input/output failures of the operating
      system and the interpreter's resource limits are outside the model
      of the class; module [OnDisk] takes the file as the bytes on disk
      and adds what [load_library] does with bytes that do not decode and
      with nesting beyond the interpreter's limit.
    - What the runtime does with the floats of a JSON text, and Unicode
      case mapping, are operations of the class [Builtins].  The
      arithmetic of [get_statistics] is binary64, on the kernel's
      primitive floats. *)

From Stdlib Require Import List NArith ZArith Bool Lia Ascii String.
From Stdlib Require Decimal DecimalFacts DecimalPos DecimalN.
From Stdlib Require PrimFloat SpecFloat FloatOps.
Import ListNotations.

Local Open Scope N_scope.
Local Open Scope list_scope.

(** ** Text *)

(** A Python string: its code points, in order. *)
Definition str : Type := list N.

(** The code points of an ASCII literal. *)
Definition lit (s : string) : str := map N_of_ascii (list_ascii_of_string s).

Abbreviation QUOTE := 34%N (only parsing).
Abbreviation BACKSLASH := 92%N (only parsing).
Abbreviation SLASH := 47%N (only parsing).
Abbreviation COMMA := 44%N (only parsing).
Abbreviation COLON := 58%N (only parsing).
Abbreviation LBRACKET := 91%N (only parsing).
Abbreviation RBRACKET := 93%N (only parsing).
Abbreviation LBRACE := 123%N (only parsing).
Abbreviation RBRACE := 125%N (only parsing).
Abbreviation MINUS := 45%N (only parsing).
Abbreviation PLUS := 43%N (only parsing).
Abbreviation DOT := 46%N (only parsing).
Abbreviation ZERO := 48%N (only parsing).
Abbreviation SPACE := 32%N (only parsing).

Fixpoint str_eqb (a b : str) : bool :=
  match a, b with
  | [], [] => true
  | x :: a', y :: b' => (x =? y) && str_eqb a' b'
  | _, _ => false
  end.

(** [b.startswith(a)] *)
Fixpoint startswith (a b : str) : bool :=
  match a, b with
  | [], _ => true
  | x :: a', y :: b' => (x =? y) && startswith a' b'
  | _ :: _, [] => false
  end.

(** [a in b] on strings: [a] occurs in [b] as a contiguous run. *)
Fixpoint str_in (a b : str) : bool :=
  startswith a b ||
  match b with
  | [] => false
  | _ :: b' => str_in a b'
  end.

(** [b] with the prefix [a] taken off, when it starts with it. *)
Fixpoint strip_prefix (a b : str) : option str :=
  match a, b with
  | [], _ => Some b
  | x :: a', y :: b' => if x =? y then strip_prefix a' b' else None
  | _ :: _, [] => None
  end.

(** [sep.join(items)] *)
Fixpoint join (sep : str) (items : list str) : str :=
  match items with
  | [] => []
  | [x] => x
  | x :: rest => x ++ sep ++ join sep rest
  end.

(** ** Decimal and hexadecimal numerals *)

Definition is_digit (c : N) : bool := (48 <=? c) && (c <=? 57).

Fixpoint uint_chars (u : Decimal.uint) : str :=
  match u with
  | Decimal.Nil => []
  | Decimal.D0 u => 48 :: uint_chars u
  | Decimal.D1 u => 49 :: uint_chars u
  | Decimal.D2 u => 50 :: uint_chars u
  | Decimal.D3 u => 51 :: uint_chars u
  | Decimal.D4 u => 52 :: uint_chars u
  | Decimal.D5 u => 53 :: uint_chars u
  | Decimal.D6 u => 54 :: uint_chars u
  | Decimal.D7 u => 55 :: uint_chars u
  | Decimal.D8 u => 56 :: uint_chars u
  | Decimal.D9 u => 57 :: uint_chars u
  end.

Definition digit_cons (c : N) (u : Decimal.uint) : Decimal.uint :=
  if c =? 48 then Decimal.D0 u
  else if c =? 49 then Decimal.D1 u
  else if c =? 50 then Decimal.D2 u
  else if c =? 51 then Decimal.D3 u
  else if c =? 52 then Decimal.D4 u
  else if c =? 53 then Decimal.D5 u
  else if c =? 54 then Decimal.D6 u
  else if c =? 55 then Decimal.D7 u
  else if c =? 56 then Decimal.D8 u
  else Decimal.D9 u.

Fixpoint chars_uint (s : str) : Decimal.uint :=
  match s with
  | [] => Decimal.Nil
  | c :: r => digit_cons c (chars_uint r)
  end.

(** [str(z)] for an [int]. *)
Definition int_str (z : Z) : str :=
  match z with
  | Zneg p => MINUS :: uint_chars (Pos.to_uint p)
  | _ => uint_chars (N.to_uint (Z.to_N z))
  end.

(** [int(token)] for a token of the JSON integer grammar. *)
Definition int_of_token (t : str) : Z :=
  match t with
  | c :: ds => if c =? MINUS then (- Z.of_N (N.of_uint (chars_uint ds)))%Z
               else Z.of_N (N.of_uint (chars_uint t))
  | [] => 0%Z
  end.

(** The lower-case hexadecimal digit of a value below 16. *)
Definition hex_digit (d : N) : N := if d <? 10 then 48 + d else 87 + d.

Definition hex_val (c : N) : option N :=
  if (48 <=? c) && (c <=? 57) then Some (c - 48)
  else if (97 <=? c) && (c <=? 102) then Some (c - 87)
  else if (65 <=? c) && (c <=? 70) then Some (c - 55)
  else None.

(** ['\\u{0:04x}'.format(n)] *)
Definition escape_u (n : N) : str :=
  [BACKSLASH; 117; hex_digit (n / 4096); hex_digit ((n / 256) mod 16);
   hex_digit ((n / 16) mod 16); hex_digit (n mod 16)].

Definition hex4 (a b c d : N) : option N :=
  match hex_val a, hex_val b, hex_val c, hex_val d with
  | Some x, Some y, Some z, Some w => Some (((x * 16 + y) * 16 + z) * 16 + w)
  | _, _, _, _ => None
  end.

Definition is_high_surrogate (c : N) : bool := (55296 <=? c) && (c <=? 56319).
Definition is_low_surrogate (c : N) : bool := (56320 <=? c) && (c <=? 57343).

(** ** Binary64 arithmetic of the runtime *)

(** What an arithmetic expression gives: an [int] or a [float], a float
    being an IEEE 754 binary64 number. *)
Inductive number : Type :=
| Int (z : Z)
| Float (f : PrimFloat.float).

(** An integer as a significand with exponent [0], not yet rounded. *)
Definition exact_int (z : Z) : SpecFloat.spec_float :=
  match z with
  | Z0 => SpecFloat.S754_zero false
  | Zpos p => SpecFloat.S754_finite false p 0
  | Zneg p => SpecFloat.S754_finite true p 0
  end.

(** [float(z)]: the binary64 number nearest to [z], ties to even. *)
Definition float_of_int (z : Z) : PrimFloat.float :=
  FloatOps.SF2Prim
    (SpecFloat.binary_normalize FloatOps.prec FloatOps.emax z 0 false).

(** [a / b] on two [int]s, [b] not [0] and the quotient within the range
    of the format: the quotient of the integers, rounded once to the
    nearest binary64 number, ties to even. *)
Definition int_truediv (a b : Z) : PrimFloat.float :=
  FloatOps.SF2Prim
    (SpecFloat.SFdiv FloatOps.prec FloatOps.emax (exact_int a) (exact_int b)).

(** [x * n] for a [float] and an [int]: the [int] is converted first. *)
Definition float_mul_int (x : PrimFloat.float) (n : Z) : PrimFloat.float :=
  PrimFloat.mul x (float_of_int n).

(** The binary64 number [m * 2 ^ e]. *)
Definition binary64 (m e : Z) : PrimFloat.float :=
  FloatOps.SF2Prim
    (SpecFloat.binary_normalize FloatOps.prec FloatOps.emax m e false).

(** ** The runtime's builtins that the model leaves open *)

Class Builtins : Type := {
  (** the runtime's [float] *)
  pyfloat : Type;
  (** [float(token)] for a numeral of a JSON text, [NaN], [Infinity] and
      [-Infinity] included *)
  float_of_token : str -> pyfloat;
  (** what [json.dump] writes for a float *)
  float_json : pyfloat -> str;
  (** [bool(f)] *)
  float_bool : pyfloat -> bool;
  (** [s.lower()] *)
  str_lower : str -> str;
  (** the empty string is its own lower case *)
  str_lower_empty : str_lower [] = []
}.

(** An instance to run the model on ASCII texts: a float is kept as the
    numeral it was read from, and [lower] maps [A-Z] to [a-z]. *)
Definition ascii_lower (s : str) : str :=
  map (fun c => if (65 <=? c) && (c <=? 90) then c + 32 else c) s.

Definition ascii_builtins : Builtins := {|
  pyfloat := str;
  float_of_token := fun t => t;
  float_json := fun t => t;
  float_bool := fun _ => true;
  str_lower := ascii_lower;
  str_lower_empty := eq_refl
|}.

(** [lower] as the runtime has it on texts of ASCII characters and the
    Greek letters [U+0391] to [U+03C9].  A capital goes to its small
    letter; a capital sigma [U+03A3] goes to the final form [U+03C2] when
    a cased letter stands before it and none after it, the characters
    that case mapping ignores ([' . : ^ `]) skipped on both sides, and to
    [U+03C3] otherwise. *)
Definition is_ascii_upper (c : N) : bool := (65 <=? c) && (c <=? 90).
Definition is_ascii_lower (c : N) : bool := (97 <=? c) && (c <=? 122).
Definition is_greek_capital (c : N) : bool :=
  (913 <=? c) && (c <=? 937) && negb (c =? 930).
Definition is_greek_small (c : N) : bool := (945 <=? c) && (c <=? 969).

Definition is_cased (c : N) : bool :=
  is_ascii_upper c || is_ascii_lower c || is_greek_capital c || is_greek_small c.

Definition is_case_ignorable (c : N) : bool :=
  (c =? 39) || (c =? 46) || (c =? 58) || (c =? 94) || (c =? 96).

Definition lower_char (c : N) : N :=
  if is_ascii_upper c || is_greek_capital c then c + 32 else c.

(** A cased letter comes next, ignorable characters skipped. *)
Fixpoint cased_follows (s : str) : bool :=
  match s with
  | [] => false
  | c :: r => if is_case_ignorable c then cased_follows r else is_cased c
  end.

Fixpoint lower_from (after_cased : bool) (s : str) : str :=
  match s with
  | [] => []
  | c :: r =>
    (if c =? 931
     then if after_cased && negb (cased_follows r) then 962 else 963
     else lower_char c)
    :: lower_from (if is_case_ignorable c then after_cased else is_cased c) r
  end.

Definition greek_lower (s : str) : str := lower_from false s.

Definition greek_builtins : Builtins := {|
  pyfloat := str;
  float_of_token := fun t => t;
  float_json := fun t => t;
  float_bool := fun _ => true;
  str_lower := greek_lower;
  str_lower_empty := eq_refl
|}.

(** ** Values *)

Section Model.
Context {B : Builtins}.

Unset Elimination Schemes.
(** The Python values a JSON text decodes to.  A [dict] keeps its entries
    in insertion order; its keys are strings. *)
Inductive value : Type :=
| VNone
| VBool (b : bool)
| VInt (z : Z)
| VFloat (f : pyfloat)
| VStr (s : str)
| VList (l : list value)
| VDict (d : list (str * value)).
Set Elimination Schemes.

(** ** [json.dump] with its default settings *)

(** One character of a string, as [ensure_ascii] writes it. *)
Definition escape_char (c : N) : str :=
  if c =? QUOTE then [BACKSLASH; QUOTE]
  else if c =? BACKSLASH then [BACKSLASH; BACKSLASH]
  else if c =? 10 then [BACKSLASH; 110]
  else if c =? 13 then [BACKSLASH; 114]
  else if c =? 9 then [BACKSLASH; 116]
  else if c =? 8 then [BACKSLASH; 98]
  else if c =? 12 then [BACKSLASH; 102]
  else if (32 <=? c) && (c <=? 126) then [c]
  else if c <? 65536 then escape_u c
  else escape_u (55296 + ((c - 65536) / 1024))
       ++ escape_u (56320 + ((c - 65536) mod 1024)).

Definition encode_str (s : str) : str :=
  QUOTE :: flat_map escape_char s ++ [QUOTE].

Fixpoint json_dumps (v : value) : str :=
  match v with
  | VNone => lit "null"
  | VBool true => lit "true"
  | VBool false => lit "false"
  | VInt z => int_str z
  | VFloat f => float_json f
  | VStr s => encode_str s
  | VList l => LBRACKET :: join (lit ", ") (map json_dumps l) ++ [RBRACKET]
  | VDict d =>
      LBRACE ::
      join (lit ", ")
        (map (fun '(k, x) => encode_str k ++ lit ": " ++ json_dumps x) d)
      ++ [RBRACE]
  end.

(** ** [json.load] with its default settings *)

(** The result of a scanner: a value and the text after it, a malformed
    text ([json.JSONDecodeError]), or a walk cut short by its counter. *)
Inductive parsed (A : Type) : Type :=
| Parsed (a : A) (rest : str)
| Malformed
| OutOfFuel.
#[global] Arguments Parsed {A} a rest.
#[global] Arguments Malformed {A}.
#[global] Arguments OutOfFuel {A}.

Definition parsed_map {A C : Type} (f : A -> C) (p : parsed A) : parsed C :=
  match p with
  | Parsed a r => Parsed (f a) r
  | Malformed => Malformed
  | OutOfFuel => OutOfFuel
  end.

Definition is_ws (c : N) : bool :=
  (c =? SPACE) || (c =? 9) || (c =? 10) || (c =? 13).

Fixpoint skip_ws (s : str) : str :=
  match s with
  | c :: r => if is_ws c then skip_ws r else s
  | [] => []
  end.

(** The character an escape letter stands for. *)
Definition unescape (e : N) : option N :=
  if e =? QUOTE then Some QUOTE
  else if e =? BACKSLASH then Some BACKSLASH
  else if e =? SLASH then Some SLASH
  else if e =? 98 then Some 8
  else if e =? 102 then Some 12
  else if e =? 110 then Some 10
  else if e =? 114 then Some 13
  else if e =? 116 then Some 9
  else None.

Definition join_surrogates (hi lo : N) : N :=
  65536 + ((hi - 55296) * 1024 + (lo - 56320)).

(** [scanstring] in strict mode, from just after the opening quote. *)
Fixpoint scanstring (s : str) : parsed str :=
  match s with
  | [] => Malformed
  | c :: r =>
    if c =? QUOTE then Parsed [] r
    else if c =? BACKSLASH then
      match r with
      | [] => Malformed
      | e :: r1 =>
        if e =? 117 then
          match r1 with
          | h1 :: h2 :: h3 :: h4 :: r2 =>
            match hex4 h1 h2 h3 h4 with
            | None => Malformed
            | Some uni =>
              if is_high_surrogate uni then
                match r2 with
                | b :: u :: l1 :: l2 :: l3 :: l4 :: r3 =>
                  if (b =? BACKSLASH) && (u =? 117) then
                    match hex4 l1 l2 l3 l4 with
                    | None => Malformed
                    | Some uni2 =>
                      if is_low_surrogate uni2
                      then parsed_map (cons (join_surrogates uni uni2))
                                      (scanstring r3)
                      else parsed_map (cons uni) (scanstring r2)
                    end
                  else parsed_map (cons uni) (scanstring r2)
                | _ => parsed_map (cons uni) (scanstring r2)
                end
              else parsed_map (cons uni) (scanstring r2)
            end
          | _ => Malformed
          end
        else
          match unescape e with
          | Some c' => parsed_map (cons c') (scanstring r1)
          | None => Malformed
          end
      end
    else if c <? 32 then Malformed
    else parsed_map (cons c) (scanstring r)
  end.

(** The longest run of decimal digits at the head of a text. *)
Fixpoint span_digits (s : str) : str * str :=
  match s with
  | c :: r =>
    if is_digit c then let (d, r') := span_digits r in (c :: d, r')
    else ([], s)
  | [] => ([], [])
  end.

(** [0 | [1-9][0-9]*] *)
Definition match_int (s : str) : option (str * str) :=
  match s with
  | c :: r =>
    if c =? ZERO then Some ([c], r)
    else if is_digit c then let (d, r') := span_digits r in Some (c :: d, r')
    else None
  | [] => None
  end.

(** [(\.[0-9]+)?] *)
Definition match_frac (s : str) : str * str :=
  match s with
  | p :: c :: r =>
    if (p =? DOT) && is_digit c
    then let (d, r') := span_digits r in (p :: c :: d, r')
    else ([], s)
  | _ => ([], s)
  end.

(** [([eE][-+]?[0-9]+)?] *)
Definition match_exp (s : str) : str * str :=
  match s with
  | e :: r =>
    if (e =? 101) || (e =? 69) then
      match r with
      | g :: r1 =>
        if (g =? MINUS) || (g =? PLUS) then
          match span_digits r1 with
          | ([], _) => ([], s)
          | (d, r') => (e :: g :: d, r')
          end
        else
          match span_digits r with
          | ([], _) => ([], s)
          | (d, r') => (e :: d, r')
          end
      | [] => ([], s)
      end
    else ([], s)
  | [] => ([], s)
  end.

(** A number: an [int] when it has neither fraction nor exponent. *)
Definition match_number (s : str) : parsed value :=
  let (sign, s1) :=
    match s with
    | c :: r => if c =? MINUS then ([c], r) else ([], s)
    | [] => ([], s)
    end in
  match match_int s1 with
  | None => Malformed
  | Some (i, s2) =>
    let (f, s3) := match_frac s2 in
    let (x, s4) := match_exp s3 in
    match f, x with
    | [], [] => Parsed (VInt (int_of_token (sign ++ i))) s4
    | _, _ => Parsed (VFloat (float_of_token (sign ++ i ++ f ++ x))) s4
    end
  end.

(** [d[k] = x] on the entries of a dict. *)
Fixpoint dict_set (k : str) (x : value) (d : list (str * value))
  : list (str * value) :=
  match d with
  | [] => [(k, x)]
  | (k', x') :: d' =>
    if str_eqb k' k then (k', x) :: d' else (k', x') :: dict_set k x d'
  end.

Definition dict_of_pairs (ps : list (str * value)) : list (str * value) :=
  fold_left (fun d '(k, x) => dict_set k x d) ps [].

(** The elements of an array after [[] and the first element's leading
    whitespace, up to and including the closing bracket. *)
Fixpoint parse_items (elem : str -> parsed value) (k : nat) (s : str)
  : parsed (list value) :=
  match k with
  | O => OutOfFuel
  | S k =>
    match elem s with
    | Parsed x r =>
      match skip_ws r with
      | c :: r1 =>
        if c =? COMMA then
          parsed_map (cons x) (parse_items elem k (skip_ws r1))
        else if c =? RBRACKET then Parsed [x] r1
        else Malformed
      | [] => Malformed
      end
    | Malformed => Malformed
    | OutOfFuel => OutOfFuel
    end
  end.

(** The members of an object from the first key's opening quote, up to
    and including the closing brace. *)
Fixpoint parse_pairs (elem : str -> parsed value) (k : nat) (s : str)
  : parsed (list (str * value)) :=
  match k with
  | O => OutOfFuel
  | S k =>
    match s with
    | q :: r0 =>
      if q =? QUOTE then
        match scanstring r0 with
        | Parsed key r =>
          match skip_ws r with
          | c :: r1 =>
            if c =? COLON then
              match elem (skip_ws r1) with
              | Parsed x r2 =>
                match skip_ws r2 with
                | c2 :: r3 =>
                  if c2 =? COMMA then
                    parsed_map (cons (key, x))
                               (parse_pairs elem k (skip_ws r3))
                  else if c2 =? RBRACE then Parsed [(key, x)] r3
                  else Malformed
                | [] => Malformed
                end
              | Malformed => Malformed
              | OutOfFuel => OutOfFuel
              end
            else Malformed
          | [] => Malformed
          end
        | Malformed => Malformed
        | OutOfFuel => OutOfFuel
        end
      else Malformed
    | [] => Malformed
    end
  end.

Definition constant (name : str) (x : value) (s : str) (otherwise : parsed value)
  : parsed value :=
  match strip_prefix name s with
  | Some r => Parsed x r
  | None => otherwise
  end.

(** [scan_once]: one JSON value at the head of the text. *)
Fixpoint scan_once (fuel : nat) (s : str) : parsed value :=
  match fuel with
  | O => OutOfFuel
  | S fuel =>
    match s with
    | [] => Malformed
    | c :: r =>
      if c =? QUOTE then parsed_map VStr (scanstring r)
      else if c =? LBRACE then
        match skip_ws r with
        | c' :: r' =>
          if c' =? RBRACE then Parsed (VDict []) r'
          else parsed_map (fun ps => VDict (dict_of_pairs ps))
                 (parse_pairs (scan_once fuel) fuel (skip_ws r))
        | [] => Malformed
        end
      else if c =? LBRACKET then
        match skip_ws r with
        | c' :: r' =>
          if c' =? RBRACKET then Parsed (VList []) r'
          else parsed_map VList (parse_items (scan_once fuel) fuel (skip_ws r))
        | [] => Malformed
        end
      else
        constant (lit "null") VNone s
       (constant (lit "true") (VBool true) s
       (constant (lit "false") (VBool false) s
       (constant (lit "NaN") (VFloat (float_of_token (lit "NaN"))) s
       (constant (lit "Infinity") (VFloat (float_of_token (lit "Infinity"))) s
       (constant (lit "-Infinity")
                 (VFloat (float_of_token (lit "-Infinity"))) s
       (match_number s))))))
    end
  end.

(** [json.loads]: one value between optional whitespace and nothing else;
    [None] stands for [json.JSONDecodeError]. *)
Definition json_loads (s : str) : option value :=
  match scan_once (S (List.length s)) (skip_ws s) with
  | Parsed x r => match skip_ws r with [] => Some x | _ :: _ => None end
  | _ => None
  end.

(** [scan_once] with the number of containers it may still enter, one
    inside the other: [OutOfFuel] when the text opens one more, which is
    where the interpreter would reach its recursion limit. *)
Fixpoint scan_nested (depth : nat) (s : str) : parsed value :=
  match s with
  | [] => Malformed
  | c :: r =>
    if c =? QUOTE then parsed_map VStr (scanstring r)
    else if c =? LBRACE then
      match depth with
      | O => OutOfFuel
      | S depth =>
        match skip_ws r with
        | c' :: r' =>
          if c' =? RBRACE then Parsed (VDict []) r'
          else parsed_map (fun ps => VDict (dict_of_pairs ps))
                 (parse_pairs (scan_nested depth) (S (List.length r))
                              (skip_ws r))
        | [] => Malformed
        end
      end
    else if c =? LBRACKET then
      match depth with
      | O => OutOfFuel
      | S depth =>
        match skip_ws r with
        | c' :: r' =>
          if c' =? RBRACKET then Parsed (VList []) r'
          else parsed_map VList
                 (parse_items (scan_nested depth) (S (List.length r))
                              (skip_ws r))
        | [] => Malformed
        end
      end
    else
      constant (lit "null") VNone s
     (constant (lit "true") (VBool true) s
     (constant (lit "false") (VBool false) s
     (constant (lit "NaN") (VFloat (float_of_token (lit "NaN"))) s
     (constant (lit "Infinity") (VFloat (float_of_token (lit "Infinity"))) s
     (constant (lit "-Infinity")
               (VFloat (float_of_token (lit "-Infinity"))) s
     (match_number s))))))
  end.

(** The text opens more than [depth] containers one inside the other
    before anything else stops the scanner. *)
Definition nests_beyond (depth : nat) (s : str) : bool :=
  match scan_nested depth (skip_ws s) with
  | OutOfFuel => true
  | _ => false
  end.

End Model.

(** ** Dynamic operations of the runtime *)

Inductive exn : Type :=
| TypeError | AttributeError | KeyError | IndexError
| ValueError | UnicodeDecodeError | RecursionError | JSONDecodeError.

(** How a call ends: with a result, or with an exception that nothing in
    the class catches. *)
Inductive outcome (A : Type) : Type :=
| Return (a : A)
| Raise (e : exn).
#[global] Arguments Return {A} a.
#[global] Arguments Raise {A} e.

Definition obind {A C : Type} (o : outcome A) (k : A -> outcome C) : outcome C :=
  match o with
  | Return a => k a
  | Raise e => Raise e
  end.

(** [l] without its entry at position [i]. *)
Definition remove_at {A : Type} (i : nat) (l : list A) : list A :=
  firstn i l ++ skipn (S i) l.

Section Runtime.
Context {B : Builtins}.

(** [len(v)] *)
Definition py_len (v : value) : outcome Z :=
  match v with
  | VList l => Return (Z.of_nat (List.length l))
  | VStr s => Return (Z.of_nat (List.length s))
  | VDict d => Return (Z.of_nat (List.length d))
  | _ => Raise TypeError
  end.

(** What [for x in v] runs through: the elements of a list, the characters
    of a string, the keys of a dict. *)
Definition py_iter (v : value) : outcome (list value) :=
  match v with
  | VList l => Return l
  | VStr s => Return (map (fun c => VStr [c]) s)
  | VDict d => Return (map (fun kv => VStr (fst kv)) d)
  | _ => Raise TypeError
  end.

Fixpoint dict_get (k : str) (d : list (str * value)) : option value :=
  match d with
  | [] => None
  | (k', x) :: d' => if str_eqb k' k then Some x else dict_get k d'
  end.

(** [v[key]] for a string [key] *)
Definition py_getitem (v : value) (key : str) : outcome value :=
  match v with
  | VDict d =>
    match dict_get key d with
    | Some x => Return x
    | None => Raise KeyError
    end
  | _ => Raise TypeError
  end.

(** [v.lower()] *)
Definition py_lower (v : value) : outcome str :=
  match v with
  | VStr s => Return (str_lower s)
  | _ => Raise AttributeError
  end.

(** [bool(v)] *)
Definition py_bool (v : value) : bool :=
  match v with
  | VNone => false
  | VBool b => b
  | VInt z => negb (z =? 0)%Z
  | VFloat f => float_bool f
  | VStr s => match s with [] => false | _ => true end
  | VList l => match l with [] => false | _ => true end
  | VDict d => match d with [] => false | _ => true end
  end.

(** [v.append(x)]: the container afterwards *)
Definition py_append (v x : value) : outcome value :=
  match v with
  | VList l => Return (VList (l ++ [x]))
  | _ => Raise AttributeError
  end.

(** [v.pop(i)] for an integer [i]: the container afterwards *)
Definition py_pop (v : value) (i : Z) : outcome value :=
  match v with
  | VList l =>
    let n := Z.of_nat (List.length l) in
    let j := if (i <? 0)%Z then (i + n)%Z else i in
    if ((0 <=? j) && (j <? n))%Z
    then Return (VList (remove_at (Z.to_nat j) l))
    else Raise IndexError
  | VDict _ => Raise KeyError
  | _ => Raise AttributeError
  end.

(** ** The session and the store *)

(** What the page shows through [st.error] and [st.info]. *)
Inductive notice : Type :=
| StError (msg : string)
| StInfo (msg : string).

Record session : Type := {
  (** [st.session_state.library], [None] while the key is not set *)
  library : option value;
  (** the text of [library.txt], [None] while the file does not exist *)
  storage : option str;
  (** the notices shown so far, oldest first *)
  notices : list notice
}.

Definition M (A : Type) : Type := session -> outcome A * session.

Definition ret {A : Type} (a : A) : M A := fun s => (Return a, s).

Definition bind {A C : Type} (m : M A) (k : A -> M C) : M C :=
  fun s =>
    match m s with
    | (Return a, s') => k a s'
    | (Raise e, s') => (Raise e, s')
    end.

Definition lift {A : Type} (o : outcome A) : M A := fun s => (o, s).

(** reading [st.session_state.library] *)
Definition get_library : M value :=
  fun s =>
    match library s with
    | Some v => (Return v, s)
    | None => (Raise AttributeError, s)
    end.

(** assigning [st.session_state.library] *)
Definition set_library (v : value) : M unit :=
  fun s => (Return tt,
            {| library := Some v; storage := storage s; notices := notices s |}).

(** [open(self.filename, 'w')] and the writes of one [with] block *)
Definition write_file (text : str) : M unit :=
  fun s => (Return tt,
            {| library := library s; storage := Some text;
               notices := notices s |}).

Definition show (n : notice) : M unit :=
  fun s => (Return tt,
            {| library := library s; storage := storage s;
               notices := notices s ++ [n] |}).

End Runtime.

Declare Scope store_scope.
Delimit Scope store_scope with store.
Notation "x <- m ;; k" := (bind m (fun x => k))
  (at level 61, m at next level, right associativity) : store_scope.
Notation "m ;; k" := (bind m (fun _ => k))
  (at level 61, right associativity) : store_scope.

(** ** class [LibraryManager] *)

Module LibraryManager.
Section Methods.
Context {B : Builtins}.
Local Open Scope store_scope.

Record statistics : Type := {
  total_books : Z;
  read_books : Z;
  percentage_read : number
}.

(** [save_library]: opening the file for writing empties it before the
    library is read and dumped. *)
Definition save_library : M unit :=
  write_file [] ;;
  lib <- get_library ;;
  write_file (json_dumps lib).

(** [load_library] on a file that is read as the text in the storage and
    that brings the interpreter to none of its limits; what it does on
    any file is [OnDisk.load_library]. *)
Definition load_library : M unit :=
  fun s =>
    match storage s with
    | Some text =>
      match json_loads text with
      | Some v => set_library v s
      | None =>
        show (StError
          "Error loading library file. Starting with an empty library.") s
      end
    | None =>
      show (StInfo
        "No existing library file found. Starting with an empty library.") s
    end.

Definition __init__ : M unit :=
  fun s =>
    match library s with
    | None => (set_library (VList []) ;; load_library) s
    | Some _ => (Return tt, s)
    end.

Definition add_book (title author year genre read_status : value) : M bool :=
  let book := VDict [(lit "title", title); (lit "author", author);
                     (lit "year", year); (lit "genre", genre);
                     (lit "read", read_status)] in
  lib <- get_library ;;
  lib' <- lift (py_append lib book) ;;
  set_library lib' ;;
  save_library ;;
  ret true.

Definition remove_book (index : Z) : M bool :=
  if (0 <=? index)%Z then
    lib <- get_library ;;
    n <- lift (py_len lib) ;;
    if (index <? n)%Z then
      lib0 <- get_library ;;
      lib' <- lift (py_pop lib0 index) ;;
      set_library lib' ;;
      save_library ;;
      ret true
    else ret false
  else ret false.

(** [[book for book in books if search_term in book[field].lower()]] *)
Fixpoint select (term field : str) (books : list value) : outcome (list value) :=
  match books with
  | [] => Return []
  | book :: rest =>
    obind (py_getitem book field) (fun x =>
    obind (py_lower x) (fun low =>
    obind (select term field rest) (fun found =>
    Return (if str_in term low then book :: found else found))))
  end.

Definition search_book (search_term search_by : str) : M (list value) :=
  let search_term := str_lower search_term in
  if str_eqb search_by (lit "Title") then
    lib <- get_library ;;
    books <- lift (py_iter lib) ;;
    lift (select search_term (lit "title") books)
  else
    lib <- get_library ;;
    books <- lift (py_iter lib) ;;
    lift (select search_term (lit "author") books).

(** [sum(1 for book in books if book["read"])] *)
Fixpoint count_read (books : list value) : outcome Z :=
  match books with
  | [] => Return 0%Z
  | book :: rest =>
    obind (py_getitem book (lit "read")) (fun r =>
    obind (count_read rest) (fun n =>
    Return (if py_bool r then 1 + n else n)%Z))
  end.

(** [get_statistics]: [/] on two [int]s is true division, so the
    percentage is a [float] unless the library is empty, when it is the
    [int] [0]. *)
Definition get_statistics : M statistics :=
  lib <- get_library ;;
  total <- lift (py_len lib) ;;
  lib0 <- get_library ;;
  books <- lift (py_iter lib0) ;;
  read <- lift (count_read books) ;;
  let percentage :=
    if (total >? 0)%Z then Float (float_mul_int (int_truediv read total) 100)
    else Int 0 in
  ret {| total_books := total; read_books := read;
         percentage_read := percentage |}.

End Methods.
End LibraryManager.

(** ** [load_library] on the file as it is on disk *)

(** UTF-8, as the runtime decodes it: the shortest form only, no
    surrogate, nothing above [U+10FFFF]; [None] for bytes that do not
    decode. *)
Definition is_continuation (b : N) : bool := (128 <=? b) && (b <=? 191).

Fixpoint utf8_decode (bytes : list N) : option str :=
  match bytes with
  | [] => Some []
  | b0 :: r =>
    if b0 <? 128 then option_map (cons b0) (utf8_decode r)
    else if (194 <=? b0) && (b0 <=? 223) then
      match r with
      | b1 :: r1 =>
        if is_continuation b1
        then option_map (cons ((b0 - 192) * 64 + (b1 - 128))) (utf8_decode r1)
        else None
      | _ => None
      end
    else if (224 <=? b0) && (b0 <=? 239) then
      match r with
      | b1 :: b2 :: r2 =>
        if is_continuation b1 && is_continuation b2
           && (if b0 =? 224 then 160 <=? b1 else true)
           && (if b0 =? 237 then b1 <=? 159 else true)
        then option_map
               (cons (((b0 - 224) * 64 + (b1 - 128)) * 64 + (b2 - 128)))
               (utf8_decode r2)
        else None
      | _ => None
      end
    else if (240 <=? b0) && (b0 <=? 244) then
      match r with
      | b1 :: b2 :: b3 :: r3 =>
        if is_continuation b1 && is_continuation b2 && is_continuation b3
           && (if b0 =? 240 then 144 <=? b1 else true)
           && (if b0 =? 244 then b1 <=? 143 else true)
        then option_map
               (cons ((((b0 - 240) * 64 + (b1 - 128)) * 64 + (b2 - 128)) * 64
                      + (b3 - 128)))
               (utf8_decode r3)
        else None
      | _ => None
      end
    else None
  end.

(** What reading in text mode does to the ends of lines: a carriage
    return, with the line feed after it if there is one, is read as one
    line feed. *)
Fixpoint universal_newlines (s : str) : str :=
  match s with
  | [] => []
  | c :: r =>
    if c =? 13 then
      10 :: match r with
            | d :: r' =>
              if d =? 10 then universal_newlines r' else universal_newlines r
            | [] => []
            end
    else c :: universal_newlines r
  end.

(** What the class leaves to the platform when the file is read. *)
Record platform : Type := {
  (** [file.read()] on a file opened in text mode: the text that the
      bytes of the file are read as in the encoding of the locale, [None]
      when they do not decode ([UnicodeDecodeError]) *)
  read_text : list N -> option str;
  (** the exception that [json.load] raises on a text because the text
      brings the interpreter to one of its limits, if it does:
      [RecursionError] when it nests too deep, [ValueError] for a numeral
      of too many digits *)
  limit_reached : str -> option exn
}.

(** [load_library] and [__init__] with the storage of the session taken
    as the bytes of the file. *)
Module OnDisk.
Section Methods.
Context {B : Builtins} (P : platform).
Local Open Scope store_scope.

(** [json.load(file)] *)
Definition json_load (bytes : list N) : outcome value :=
  match read_text P bytes with
  | None => Raise UnicodeDecodeError
  | Some text =>
    match limit_reached P text with
    | Some e => Raise e
    | None =>
      match json_loads text with
      | Some v => Return v
      | None => Raise JSONDecodeError
      end
    end
  end.

(** [load_library]: of what [json.load] raises, [json.JSONDecodeError]
    alone is caught. *)
Definition load_library : M unit :=
  fun s =>
    match storage s with
    | Some bytes =>
      match json_load bytes with
      | Return v => set_library v s
      | Raise JSONDecodeError =>
        show (StError
          "Error loading library file. Starting with an empty library.") s
      | Raise e => (Raise e, s)
      end
    | None =>
      show (StInfo
        "No existing library file found. Starting with an empty library.") s
    end.

Definition __init__ : M unit :=
  fun s =>
    match library s with
    | None => (set_library (VList []) ;; load_library) s
    | Some _ => (Return tt, s)
    end.

End Methods.
End OnDisk.

(** ** The data model of the store *)

(** A book record: title, author, year, genre, read. *)
Record book : Type := {
  title : str;
  author : str;
  year : Z;
  genre : str;
  read : bool
}.

Section DataModel.
Context {B : Builtins}.

(** The dict [add_book] builds for a book. *)
Definition book_value (b : book) : value :=
  VDict [(lit "title", VStr (title b)); (lit "author", VStr (author b));
         (lit "year", VInt (year b)); (lit "genre", VStr (genre b));
         (lit "read", VBool (read b))].

(** The library that holds the books [bs], in this order. *)
Definition library_value (bs : list book) : value := VList (map book_value bs).

End DataModel.

(** ** Notions of the specification *)

(** The grammar of the standard for a JSON text: a value, which starts,
    after whitespace, with a brace, a bracket, a quote, a minus sign, a
    digit or the first letter of [true], [false] or [null].  A text that
    starts otherwise is not valid JSON. *)
Definition starts_json (text : str) : bool :=
  match skip_ws text with
  | c :: _ =>
    (c =? LBRACE) || (c =? LBRACKET) || (c =? QUOTE) || (c =? MINUS)
    || is_digit c || (c =? 116) || (c =? 102) || (c =? 110)
  | [] => false
  end.

(** A text of ASCII characters. *)
Definition ascii_text (s : str) : Prop := Forall (fun c => c < 128) s.

(** The letter a character stands for when case is ignored: a capital is
    its small letter, and the final sigma is a sigma. *)
Definition fold_case (c : N) : N := if c =? 962 then 963 else lower_char c.

(** [field] contains [term] when letter case is ignored: some run of
    [field] has the letters of [term], one by one. *)
Definition contains_ignoring_case (term field : str) : Prop :=
  exists before mid after,
    field = before ++ mid ++ after /\ map fold_case mid = map fold_case term.

Section Notions.
Context {B : Builtins}.

(** The match of [search_book]: the lower-cased term occurs in the
    lower-cased field. *)
Definition contains_ci (term field : str) : Prop :=
  exists before after, str_lower field = before ++ str_lower term ++ after.

(** [found] is exactly the subsequence of [l] of the entries that satisfy
    [P], in the order of [l]. *)
Inductive selects {A : Type} (P : A -> Prop) : list A -> list A -> Prop :=
| selects_nil : selects P [] []
| selects_keep x l found :
    P x -> selects P l found -> selects P (x :: l) (x :: found)
| selects_skip x l found :
    ~ P x -> selects P l found -> selects P (x :: l) found.

(** Every code point is one ([< 0x110000]) and no high surrogate stands
    directly before a low surrogate. *)
Fixpoint unpaired (s : str) : bool :=
  match s with
  | [] => true
  | c :: r =>
    (c <? 1114112)
    && negb (is_high_surrogate c
             && match r with d :: _ => is_low_surrogate d | [] => false end)
    && unpaired r
  end.

Definition unpaired_book (b : book) : bool :=
  unpaired (title b) && unpaired (author b) && unpaired (genre b).

(** The values [json.load] gives back as they were dumped: no float, the
    strings [unpaired], the keys of a dict pairwise different. *)
Fixpoint plain (v : value) : Prop :=
  match v with
  | VFloat _ => False
  | VStr s => unpaired s = true
  | VList l => fold_right (fun x P => plain x /\ P) True l
  | VDict d =>
    NoDup (map fst d)
    /\ fold_right
         (fun kv P => unpaired (fst kv) = true /\ plain (snd kv) /\ P) True d
  | _ => True
  end.

(** A library in the sense of the data model: a list of book records. *)
Definition is_library (v : value) : Prop := exists bs, v = library_value bs.

(** The number of values in a value, itself included. *)
Fixpoint size (v : value) : nat :=
  match v with
  | VList l => S (fold_right (fun x n => size x + n)%nat O l)
  | VDict d => S (fold_right (fun kv n => size (snd kv) + n)%nat O d)
  | _ => 1%nat
  end.

(** The text after a value inside an array or an object, or at the end:
    nothing, or a comma, a closing bracket or a closing brace first. *)
Definition closes (rest : str) : bool :=
  match rest with
  | [] => true
  | c :: _ => (c =? COMMA) || (c =? RBRACKET) || (c =? RBRACE)
  end.

(** The text starts with the escape of a low surrogate, or with a broken
    [\u] escape: what [scanstring] looks for after a high surrogate. *)
Definition lowpair (t : str) : bool :=
  match t with
  | b :: u :: l1 :: l2 :: l3 :: l4 :: _ =>
    (b =? BACKSLASH) && (u =? 117)
    && match hex4 l1 l2 l3 l4 with
       | Some x => is_low_surrogate x
       | None => true
       end
  | _ => false
  end.

(** The text starts with a character that opens a value: neither
    whitespace nor a closing bracket or brace. *)
Definition value_start (s : str) : bool :=
  match s with
  | c :: _ => negb (is_ws c) && negb (c =? RBRACKET) && negb (c =? RBRACE)
  | [] => false
  end.

(** A scanner that ran on [s] did not run out of its counter, and what
    it left unread is shorter than [s]. *)
Definition progress {A : Type} (p : parsed A) (s : str) : Prop :=
  match p with
  | Parsed _ r => (List.length r < List.length s)%nat
  | Malformed => True
  | OutOfFuel => False
  end.

(** The hypothesis of the induction: a dumped value is read back, whatever
    closes it, by any walk long enough. *)
Definition reads_back (x : value) : Prop :=
  forall fuel rest,
    (size x <= fuel)%nat -> closes rest = true ->
    scan_once fuel (json_dumps x ++ rest) = Parsed x rest.

(** A session whose library holds [bs]. *)
Definition holds (s : session) (bs : list book) : Prop :=
  library s = Some (library_value bs).

(** [add] of the specification: [add_book] called with the fields of a
    book record. *)
Definition add (b : book) : M bool :=
  LibraryManager.add_book (VStr (title b)) (VStr (author b)) (VInt (year b))
                          (VStr (genre b)) (VBool (read b)).

(** Persisting the library and reloading the file that results. *)
Definition persist_reload : M unit :=
  bind LibraryManager.save_library (fun _ => LibraryManager.load_library).

End Notions.

(** ** Sample data *)

(** The two books of the scenarios. *)
Definition dune : book :=
  {| title := lit "Dune"; author := lit "Frank Herbert"; year := 1965;
     genre := lit "Sci-Fi"; read := true |}.

Definition hobbit : book :=
  {| title := lit "Hobbit"; author := lit "J.R.R. Tolkien"; year := 1937;
     genre := lit "Fantasy"; read := false |}.

(** A session of the ASCII instance that holds [bs] and has no file. *)
Definition session_of (bs : list book) : @session ascii_builtins :=
  {| library := Some (library_value bs); storage := None; notices := [] |}.

(** A book whose title is a high surrogate followed by a low surrogate,
    and the book whose title is the one character the two encode. *)
Definition split_title : book :=
  {| title := [55357; 56832]; author := lit "A"; year := 2020;
     genre := []; read := true |}.

Definition joined_title : book :=
  {| title := [128512]; author := lit "A"; year := 2020;
     genre := []; read := true |}.

(** The Greek word for street in capitals, [U+039F U+0394 U+039F U+03A3],
    as a title, and a session of the Greek instance that holds [bs] and
    has no file. *)
Definition odos : book :=
  {| title := [927; 916; 927; 931]; author := lit "Anon"; year := 2001;
     genre := []; read := false |}.

Definition greek_session_of (bs : list book) : @session greek_builtins :=
  {| library := Some (library_value bs); storage := None; notices := [] |}.

(** A session of the ASCII instance that starts with the file [text]. *)
Definition starting_with (text : str) : @session ascii_builtins :=
  {| library := None; storage := Some text; notices := [] |}.

(** A sample platform: UTF-8 as the encoding of the locale, and a
    recursion limit that a text reaches when it nests more than [990]
    containers. *)
Definition utf8_platform : platform :=
  {| read_text := fun bytes => option_map universal_newlines (utf8_decode bytes);
     limit_reached := fun text =>
       if @nests_beyond ascii_builtins 990 text then Some RecursionError
       else None |}.

(** An ASCII literal between double quotes. *)
Definition quoted (s : string) : str := QUOTE :: lit s ++ [QUOTE].

(** ** What a reload gives back *)

(** A string with every high surrogate that stands directly before a low
    surrogate replaced, together with it, by the character the two
    encode. *)
Fixpoint join_pairs (s : str) : str :=
  match s with
  | [] => []
  | c :: r =>
    match r with
    | d :: r' =>
      if is_high_surrogate c && is_low_surrogate d
      then join_surrogates c d :: join_pairs r'
      else c :: join_pairs r
    | [] => [c]
    end
  end.

(** Every element is a code point. *)
Definition code_points (s : str) : bool := forallb (fun c => c <? 1114112) s.

Section Reloading.
Context {B : Builtins}.

(** The value [json.load] builds from the dump of a value: the surrogate
    pairs of its strings joined, the entries of a dict inserted one by
    one under their joined keys. *)
Fixpoint reloaded (v : value) : value :=
  match v with
  | VStr s => VStr (join_pairs s)
  | VList l => VList (map reloaded l)
  | VDict d =>
    VDict (dict_of_pairs (map (fun '(k, x) => (join_pairs k, reloaded x)) d))
  | _ => v
  end.

(** The values without a float whose strings are made of code points. *)
Fixpoint storable (v : value) : Prop :=
  match v with
  | VFloat _ => False
  | VStr s => code_points s = true
  | VList l => fold_right (fun x P => storable x /\ P) True l
  | VDict d =>
    fold_right
      (fun kv P => code_points (fst kv) = true /\ storable (snd kv) /\ P)
      True d
  | _ => True
  end.

(** [x] is dumped as a text that is read as [y], whatever closes it. *)
Definition reads_as (x y : value) : Prop :=
  forall fuel rest,
    (size x <= fuel)%nat -> closes rest = true ->
    scan_once fuel (json_dumps x ++ rest) = Parsed y rest.

(** A book with the surrogate pairs of its strings joined. *)
Definition reloaded_book (b : book) : book :=
  {| title := join_pairs (title b); author := join_pairs (author b);
     year := year b; genre := join_pairs (genre b); read := read b |}.

Definition code_point_book (b : book) : bool :=
  code_points (title b) && code_points (author b) && code_points (genre b).

(** A printable ASCII character. *)
Definition printable (c : N) : Prop := 32 <= c <= 126.

End Reloading.

(** ** The page: [main] *)

(** One run of the script [main], from the values its widgets return to
    what it does to the session and what it puts on the page.  The page
    is the list of the Streamlit calls made, in order; the text of an
    f-string is kept as its pieces, the values interpolated left
    unformatted. *)

(** A piece of a displayed text. *)
Inductive piece {B : Builtins} : Type :=
| Text (s : string)        (** literal text *)
| Shown (v : value)        (** [{v}] for a value of the library *)
| Chars (s : str)          (** [{s}] for a string *)
| Count (n : Z)            (** [{n}] for an [int] *)
| Percent (x : number).    (** [{x:.1f}] *)

(** The Streamlit calls of [main]. *)
Inductive shown {B : Builtins} : Type :=
| PageConfig                       (** [st.set_page_config] *)
| Title                            (** [st.title] *)
| SidebarTitle                     (** [st.sidebar.title] *)
| Radio (label : string)           (** [st.sidebar.radio], [st.radio] *)
| Header (text : string)           (** [st.header] *)
| Subheader (text : list piece)    (** [st.subheader] *)
| Info (text : list piece)         (** [st.info] *)
| Success (text : list piece)      (** [st.success] *)
| Error (text : list piece)        (** [st.error] *)
| Write (text : list piece)        (** [st.write] *)
| Columns                          (** [st.columns] *)
| Button (key : nat)               (** [st.button], key [remove_<key>] *)
| Divider                          (** [st.divider] *)
| Form                             (** [st.form] *)
| TextInput (label : list piece)   (** [st.text_input] *)
| NumberInput                      (** [st.number_input] *)
| Checkbox                         (** [st.checkbox] *)
| SubmitButton                     (** [st.form_submit_button] *)
| Metric (label : string) (value : list piece)   (** [st.metric] *)
| BarChart (read unread : Z).      (** the bar chart given to [st.pyplot] *)

(** How a run of the script ends when nothing is raised: at its end, or
    at [st.rerun()]. *)
Inductive run : Type := Finished | Rerun.

Module App.
Section Script.
Context {B : Builtins}.

(** What the widgets return in one run. *)
Record widgets : Type := {
  page : str;                 (** the sidebar radio *)
  remove_ : nat -> bool;      (** the Remove button with key [remove_<i>] *)
  title : str;
  author : str;
  year : Z;
  genre : str;
  read_status : bool;
  submitted : bool;
  search_by : str;
  search_term : str
}.

Definition UI (A : Type) : Type :=
  session -> list shown -> outcome A * session * list shown.

Definition ui_ret {A : Type} (a : A) : UI A := fun s p => (Return a, s, p).

Definition ui_bind {A C : Type} (m : UI A) (k : A -> UI C) : UI C :=
  fun s p =>
    match m s p with
    | (Return a, s', p') => k a s' p'
    | (Raise e, s', p') => (Raise e, s', p')
    end.

(** a call of the store *)
Definition call {A : Type} (m : M A) : UI A :=
  fun s p => let (o, s') := m s in (o, s', p).

(** an operation of the runtime *)
Definition eval {A : Type} (o : outcome A) : UI A := fun s p => (o, s, p).

(** a Streamlit call that draws *)
Definition draw (e : shown) : UI unit := fun s p => (Return tt, s, p ++ [e]).

Local Notation "x <- m ;; k" := (ui_bind m (fun x => k))
  (at level 61, m at next level, right associativity).
Local Notation "m ;; k" := (ui_bind m (fun _ => k))
  (at level 61, right associativity).

Definition status_text (r : value) : string :=
  if py_bool r then "Read" else "Unread".

(** The loop of the View Library page from entry [i] on. *)
Fixpoint view_entries (w : widgets) (i : nat) (books : list value) : UI run :=
  match books with
  | [] => ui_ret Finished
  | book :: rest =>
    draw Columns ;;
    r <- eval (py_getitem book (lit "read")) ;;
    t <- eval (py_getitem book (lit "title")) ;;
    a <- eval (py_getitem book (lit "author")) ;;
    y <- eval (py_getitem book (lit "year")) ;;
    draw (Write [Text "**"; Shown t; Text "** by "; Shown a; Text " (";
                 Shown y; Text ")"]) ;;
    g <- eval (py_getitem book (lit "genre")) ;;
    draw (Write [Text "Genre: "; Shown g; Text " | Status: ";
                 Text (status_text r)]) ;;
    draw (Button i) ;;
    if remove_ w i then
      ok <- call (LibraryManager.remove_book (Z.of_nat i)) ;;
      if ok then
        draw (Success [Text "Book removed successfully!"]) ;;
        ui_ret Rerun
      else draw Divider ;; view_entries w (S i) rest
    else draw Divider ;; view_entries w (S i) rest
  end.

Definition view_library (w : widgets) : UI run :=
  draw (Header "Your Library") ;;
  lib <- call get_library ;;
  if negb (py_bool lib) then
    draw (Info [Text "Your library is empty! Add some books to get started."]) ;;
    ui_ret Finished
  else
    lib' <- call get_library ;;
    books <- eval (py_iter lib') ;;
    view_entries w 0 books.

Definition nonempty (s : str) : bool :=
  match s with [] => false | _ :: _ => true end.

Definition add_book_page (w : widgets) : UI run :=
  draw (Header "Add a New Book") ;;
  draw Form ;;
  draw (TextInput [Text "Book Title"]) ;;
  draw (TextInput [Text "Author"]) ;;
  draw NumberInput ;;
  draw (TextInput [Text "Genre"]) ;;
  draw Checkbox ;;
  draw SubmitButton ;;
  if submitted w then
    if nonempty (title w) && nonempty (author w) then
      ok <- call (LibraryManager.add_book
                    (VStr (title w)) (VStr (author w)) (VInt (year w))
                    (VStr (genre w)) (VBool (read_status w))) ;;
      if ok then
        draw (Success [Text "'"; Chars (title w);
                       Text "' added to your library!"]) ;;
        ui_ret Finished
      else ui_ret Finished
    else
      draw (Error [Text "Title and author are required!"]) ;;
      ui_ret Finished
  else ui_ret Finished.

(** The loop over the results of a search. *)
Fixpoint result_entries (books : list value) : UI unit :=
  match books with
  | [] => ui_ret tt
  | book :: rest =>
    r <- eval (py_getitem book (lit "read")) ;;
    t <- eval (py_getitem book (lit "title")) ;;
    a <- eval (py_getitem book (lit "author")) ;;
    y <- eval (py_getitem book (lit "year")) ;;
    g <- eval (py_getitem book (lit "genre")) ;;
    draw (Write [Text "**"; Shown t; Text "** by "; Shown a; Text " (";
                 Shown y; Text ") - "; Shown g; Text " - ";
                 Text (status_text r)]) ;;
    draw Divider ;;
    result_entries rest
  end.

Definition search_books_page (w : widgets) : UI run :=
  draw (Header "Search for Books") ;;
  draw (Radio "Search by:") ;;
  draw (TextInput [Text "Enter "; Chars (str_lower (search_by w));
                   Text " to search:"]) ;;
  if nonempty (search_term w) then
    results <- call (LibraryManager.search_book (search_term w) (search_by w)) ;;
    match results with
    | _ :: _ =>
      draw (Subheader [Text "Found "; Count (Z.of_nat (List.length results));
                       Text " matching books:"]) ;;
      result_entries results ;;
      ui_ret Finished
    | [] =>
      draw (Info [Text "No books found matching '"; Chars (search_term w);
                  Text "'"]) ;;
      ui_ret Finished
    end
  else ui_ret Finished.

Definition statistics_page (w : widgets) : UI run :=
  draw (Header "Library Statistics") ;;
  stats <- call LibraryManager.get_statistics ;;
  draw Columns ;;
  draw (Metric "Total Books" [Count (LibraryManager.total_books stats)]) ;;
  draw (Metric "Books Read"
          [Count (LibraryManager.read_books stats); Text " (";
           Percent (LibraryManager.percentage_read stats); Text "%)"]) ;;
  if (LibraryManager.total_books stats >? 0)%Z then
    draw (Subheader [Text "Reading Status"]) ;;
    draw (BarChart (LibraryManager.read_books stats)
                   (LibraryManager.total_books stats
                    - LibraryManager.read_books stats)%Z) ;;
    ui_ret Finished
  else ui_ret Finished.

Definition main (w : widgets) : UI run :=
  draw PageConfig ;;
  draw Title ;;
  call LibraryManager.__init__ ;;
  draw SidebarTitle ;;
  draw (Radio "Go to") ;;
  if str_eqb (page w) (lit "View Library") then view_library w
  else if str_eqb (page w) (lit "Add Book") then add_book_page w
  else if str_eqb (page w) (lit "Search Books") then search_books_page w
  else if str_eqb (page w) (lit "Statistics") then statistics_page w
  else ui_ret Finished.

(** The session a run leaves behind. *)
Definition store_after {A : Type} (r : outcome A * session * list shown)
  : session := snd (fst r).

(** What a run put on the page. *)
Definition page_after {A : Type} (r : outcome A * session * list shown)
  : list shown := snd r.

(** How a run ended. *)
Definition ending {A : Type} (r : outcome A * session * list shown)
  : outcome A := fst (fst r).

End Script.
End App.

(** ** What the page shows for a book *)

Section Display.
Context {B : Builtins}.

Definition status_of (b : book) : string :=
  if read b then "Read" else "Unread".

(** The calls of the View Library page for the book at position [i], up
    to its Remove button. *)
Definition listed (i : nat) (b : book) : list shown :=
  [Columns;
   Write [Text "**"; Shown (VStr (title b)); Text "** by ";
          Shown (VStr (author b)); Text " ("; Shown (VInt (year b));
          Text ")"];
   Write [Text "Genre: "; Shown (VStr (genre b)); Text " | Status: ";
          Text (status_of b)];
   Button i].

(** The entries of the books [bs], the first at position [i], each one
    closed by a divider. *)
Fixpoint listing (i : nat) (bs : list book) : list shown :=
  match bs with
  | [] => []
  | b :: rest => listed i b ++ [Divider] ++ listing (S i) rest
  end.

(** The calls of the Search Books page for one result. *)
Definition result_shown (b : book) : list shown :=
  [Write [Text "**"; Shown (VStr (title b)); Text "** by ";
          Shown (VStr (author b)); Text " ("; Shown (VInt (year b));
          Text ") - "; Shown (VStr (genre b)); Text " - ";
          Text (status_of b)];
   Divider].

(** What every run shows before the page chosen in the sidebar. *)
Definition frame : list shown :=
  [PageConfig; Title; SidebarTitle; Radio "Go to"].

(** The form of the Add Book page. *)
Definition add_form : list shown :=
  [Header "Add a New Book"; Form; TextInput [Text "Book Title"];
   TextInput [Text "Author"]; NumberInput; TextInput [Text "Genre"];
   Checkbox; SubmitButton].

(** The head of the Search Books page. *)
Definition search_form (w : App.widgets) : list shown :=
  [Header "Search for Books"; Radio "Search by:";
   TextInput [Text "Enter "; Chars (str_lower (App.search_by w));
              Text " to search:"]].

End Display.

(** ** Sample runs of the page *)

(** The widgets of a run on [page] with nothing entered or pressed. *)
Definition idle (page : string) : App.widgets :=
  {| App.page := lit page; App.remove_ := fun _ => false;
     App.title := []; App.author := []; App.year := 2023; App.genre := [];
     App.read_status := false; App.submitted := false;
     App.search_by := lit "Title"; App.search_term := [] |}.

(** The Add Book form submitted with the given title and author. *)
Definition submit (title author : str) : App.widgets :=
  {| App.page := lit "Add Book"; App.remove_ := fun _ => false;
     App.title := title; App.author := author; App.year := 1965;
     App.genre := lit "Sci-Fi"; App.read_status := true;
     App.submitted := true;
     App.search_by := lit "Title"; App.search_term := [] |}.

(** The View Library page with the Remove button of position [i] pressed. *)
Definition press (i : nat) : App.widgets :=
  {| App.page := lit "View Library"; App.remove_ := Nat.eqb i;
     App.title := []; App.author := []; App.year := 2023; App.genre := [];
     App.read_status := false; App.submitted := false;
     App.search_by := lit "Title"; App.search_term := [] |}.

(** The Search Books page with a term entered. *)
Definition look_for (by_ term : string) : App.widgets :=
  {| App.page := lit "Search Books"; App.remove_ := fun _ => false;
     App.title := []; App.author := []; App.year := 2023; App.genre := [];
     App.read_status := false; App.submitted := false;
     App.search_by := lit by_; App.search_term := lit term |}.

(** A session whose library holds Dune and then a record without title. *)
Definition untitled_session : @session ascii_builtins :=
  {| library :=
       Some (VList (map book_value [dune]
                    ++ VDict [(lit "author", VStr (lit "Nobody"))] :: []));
     storage := None; notices := [] |}.

(** * Proofs *)

(** ** Numerals *)

Lemma is_digit_cases c :
  is_digit c = true ->
  c = 48 \/ c = 49 \/ c = 50 \/ c = 51 \/ c = 52 \/ c = 53 \/ c = 54
  \/ c = 55 \/ c = 56 \/ c = 57.
Proof.
  unfold is_digit. rewrite andb_true_iff, !N.leb_le. lia.
Qed.

Lemma uint_chars_digits u : Forall (fun c => is_digit c = true) (uint_chars u).
Proof. induction u; simpl; constructor; auto. Qed.

Lemma chars_uint_chars u : chars_uint (uint_chars u) = u.
Proof. induction u; simpl; unfold digit_cons; simpl; congruence. Qed.

Lemma span_digits_app d rest :
  Forall (fun c => is_digit c = true) d ->
  match rest with [] => true | c :: _ => negb (is_digit c) end = true ->
  span_digits (d ++ rest) = (d, rest).
Proof.
  intros Hd Hr. induction Hd as [|c d Hc _ IH]; simpl.
  - destruct rest as [|c r]; [reflexivity|].
    simpl. apply negb_true_iff in Hr. now rewrite Hr.
  - now rewrite Hc, IH.
Qed.

Lemma pos_to_uint_unorm p : Decimal.unorm (Pos.to_uint p) = Pos.to_uint p.
Proof.
  rewrite <- (DecimalPos.Unsigned.to_of (Pos.to_uint p)).
  now rewrite DecimalPos.Unsigned.of_to.
Qed.

Lemma unorm_head u :
  Decimal.unorm u = u -> u <> Decimal.zero -> forall u', u <> Decimal.D0 u'.
Proof.
  intros Hn Hz u' ->. unfold Decimal.unorm in Hn. simpl in Hn.
  destruct (Decimal.nzhead u') eqn:E.
  1: apply Hz; now rewrite <- Hn.
  all: pose proof (DecimalFacts.nb_digits_nzhead u') as Hl;
      rewrite E, Hn in Hl; simpl in Hl; lia.
Qed.

(** A positive number is written with a first digit that is not [0]. *)
Lemma pos_chars p :
  exists c d, uint_chars (Pos.to_uint p) = c :: d
              /\ is_digit c = true /\ c <> 48
              /\ Forall (fun c => is_digit c = true) d.
Proof.
  pose proof (unorm_head _ (pos_to_uint_unorm p)
                (DecimalPos.Unsigned.to_uint_nonzero p)) as Hh.
  pose proof (DecimalPos.Unsigned.to_uint_nonnil p) as Hn.
  pose proof (uint_chars_digits (Pos.to_uint p)) as Hd.
  destruct (Pos.to_uint p) as [|u|u|u|u|u|u|u|u|u|u]; simpl in *;
    try congruence; try (now exfalso; apply (Hh u));
    eexists; eexists; (split; [reflexivity|]);
    (repeat split; [discriminate | now inversion Hd]).
Qed.

Lemma match_int_pos p rest :
  match rest with [] => true | c :: _ => negb (is_digit c) end = true ->
  match_int (uint_chars (Pos.to_uint p) ++ rest)
  = Some (uint_chars (Pos.to_uint p), rest).
Proof.
  intros Hr. destruct (pos_chars p) as (c & d & -> & Hc & Hz & Hd).
  simpl. apply N.eqb_neq in Hz. rewrite Hz, Hc.
  now rewrite (span_digits_app d rest Hd Hr).
Qed.

Lemma closes_not_digit rest :
  closes rest = true ->
  match rest with [] => true | c :: _ => negb (is_digit c) end = true.
Proof.
  destruct rest as [|c r]; [reflexivity|]. unfold closes, is_digit.
  rewrite !orb_true_iff, !N.eqb_eq. intros [[->| ->]| ->]; reflexivity.
Qed.

Lemma match_frac_closes rest : closes rest = true -> match_frac rest = ([], rest).
Proof.
  destruct rest as [|c [|c' r]]; try reflexivity.
  unfold closes. rewrite !orb_true_iff, !N.eqb_eq.
  intros [[->| ->]| ->]; reflexivity.
Qed.

Lemma match_exp_closes rest : closes rest = true -> match_exp rest = ([], rest).
Proof.
  destruct rest as [|c r]; try reflexivity.
  unfold closes. rewrite !orb_true_iff, !N.eqb_eq.
  intros [[->| ->]| ->]; reflexivity.
Qed.

Section NumberRoundTrip.
Context {B : Builtins}.

(** A dumped [int] is read back as itself. *)
Lemma match_number_int z rest :
  closes rest = true ->
  match_number (int_str z ++ rest) = Parsed (VInt z) rest.
Proof.
  intros Hc. pose proof (closes_not_digit rest Hc) as Hd.
  destruct z as [|p|p]; unfold match_number, int_str.
  - simpl. rewrite (match_frac_closes rest Hc), (match_exp_closes rest Hc).
    reflexivity.
  - change (Z.to_N (Z.pos p)) with (N.pos p).
    change (N.to_uint (N.pos p)) with (Pos.to_uint p).
    destruct (pos_chars p) as (c & d & E & Hdc & Hz & Hds).
    assert (Hm : (c =? MINUS) = false).
    { apply N.eqb_neq. intros ->. discriminate. }
    pose proof (match_int_pos p rest Hd) as Hi. rewrite E in *.
    rewrite <- app_comm_cons in *. cbv iota beta. rewrite Hm, Hi.
    rewrite (match_frac_closes rest Hc), (match_exp_closes rest Hc).
    cbn [List.app]. unfold int_of_token. rewrite Hm, <- E, chars_uint_chars.
    change (N.of_uint (Pos.to_uint p)) with (Pos.of_uint (Pos.to_uint p)).
    now rewrite DecimalPos.Unsigned.of_to.
  - cbn [List.app]. cbv iota beta. rewrite N.eqb_refl.
    rewrite (match_int_pos p rest Hd).
    rewrite (match_frac_closes rest Hc), (match_exp_closes rest Hc).
    cbn [List.app]. unfold int_of_token. rewrite N.eqb_refl, chars_uint_chars.
    change (N.of_uint (Pos.to_uint p)) with (Pos.of_uint (Pos.to_uint p)).
    now rewrite DecimalPos.Unsigned.of_to.
Qed.

End NumberRoundTrip.

(** ** Strings *)

Lemma hex_val_digit d : d < 16 -> hex_val (hex_digit d) = Some d.
Proof.
  intros H.
  assert (d = 0 \/ d = 1 \/ d = 2 \/ d = 3 \/ d = 4 \/ d = 5 \/ d = 6
          \/ d = 7 \/ d = 8 \/ d = 9 \/ d = 10 \/ d = 11 \/ d = 12
          \/ d = 13 \/ d = 14 \/ d = 15) as E by lia.
  repeat (destruct E as [->|E]; [reflexivity|]). now subst.
Qed.

Lemma hex4_escape n :
  n < 65536 ->
  hex4 (hex_digit (n / 4096)) (hex_digit ((n / 256) mod 16))
       (hex_digit ((n / 16) mod 16)) (hex_digit (n mod 16)) = Some n.
Proof.
  intros H. unfold hex4.
  rewrite !hex_val_digit.
  - f_equal.
    pose proof (N.Div0.div_mod n 4096). pose proof (N.Div0.div_mod n 256).
    pose proof (N.Div0.div_mod n 16).
    pose proof (N.Div0.div_mod (n / 256) 16).
    pose proof (N.Div0.div_mod (n / 16) 16).
    pose proof (N.Div0.div_div n 16 16). pose proof (N.Div0.div_div n 256 16).
    change (16 * 16) with 256 in *. change (256 * 16) with 4096 in *.
    lia.
  - apply N.mod_lt. discriminate.
  - apply N.mod_lt. discriminate.
  - apply N.mod_lt. discriminate.
  - apply N.Div0.div_lt_upper_bound. exact H.
Qed.

Lemma lowpair_other b t : (b =? BACKSLASH) = false -> lowpair (b :: t) = false.
Proof.
  intros H. destruct t as [|u [|l1 [|l2 [|l3 [|l4 t]]]]]; simpl; try reflexivity.
  now rewrite H.
Qed.

Lemma lowpair_letter b u t : (u =? 117) = false -> lowpair (b :: u :: t) = false.
Proof.
  intros H. destruct t as [|l1 [|l2 [|l3 [|l4 t]]]]; simpl; try reflexivity.
  now rewrite H, andb_false_r.
Qed.

Lemma lowpair_escape_u x t :
  x < 65536 -> is_low_surrogate x = false -> lowpair (escape_u x ++ t) = false.
Proof.
  intros Hx Hl. unfold escape_u. cbn [List.app lowpair].
  rewrite (hex4_escape x Hx), Hl. reflexivity.
Qed.

Lemma scanstring_u uni h1 h2 h3 h4 t :
  hex4 h1 h2 h3 h4 = Some uni ->
  (is_high_surrogate uni = true -> lowpair t = false) ->
  scanstring (BACKSLASH :: 117 :: h1 :: h2 :: h3 :: h4 :: t)
  = parsed_map (cons uni) (scanstring t).
Proof.
  intros Hh Hp. cbn [scanstring N.eqb Pos.eqb]. rewrite Hh.
  destruct (is_high_surrogate uni); [|reflexivity].
  specialize (Hp eq_refl).
  destruct t as [|b [|u [|l1 [|l2 [|l3 [|l4 t]]]]]]; try reflexivity.
  unfold lowpair in Hp.
  destruct ((b =? BACKSLASH) && (u =? 117)); [|reflexivity].
  cbn [andb] in Hp. destruct (hex4 l1 l2 l3 l4); [|discriminate].
  now rewrite Hp.
Qed.

Lemma scanstring_pair hi lo h1 h2 h3 h4 l1 l2 l3 l4 t :
  hex4 h1 h2 h3 h4 = Some hi -> is_high_surrogate hi = true ->
  hex4 l1 l2 l3 l4 = Some lo -> is_low_surrogate lo = true ->
  scanstring (BACKSLASH :: 117 :: h1 :: h2 :: h3 :: h4
              :: BACKSLASH :: 117 :: l1 :: l2 :: l3 :: l4 :: t)
  = parsed_map (cons (join_surrogates hi lo)) (scanstring t).
Proof.
  intros Hh Hhi Hl Hlo. cbn [scanstring N.eqb Pos.eqb andb].
  now rewrite Hh, Hhi, Hl, Hlo.
Qed.

Lemma surrogate_pair_of c :
  65536 <= c -> c < 1114112 ->
  let hi := 55296 + (c - 65536) / 1024 in
  let lo := 56320 + (c - 65536) mod 1024 in
  hi < 65536 /\ lo < 65536
  /\ is_high_surrogate hi = true /\ is_low_surrogate lo = true
  /\ is_low_surrogate hi = false /\ join_surrogates hi lo = c.
Proof.
  intros H1 H2 hi lo. subst hi lo.
  pose proof (N.Div0.div_mod (c - 65536) 1024) as E.
  assert ((c - 65536) mod 1024 < 1024) as Hm by (apply N.mod_lt; discriminate).
  assert ((c - 65536) / 1024 < 1024) as Hd
    by (apply N.Div0.div_lt_upper_bound; lia).
  unfold is_high_surrogate, is_low_surrogate, join_surrogates.
  generalize dependent ((c - 65536) / 1024).
  generalize dependent ((c - 65536) mod 1024).
  intros m Hm d E Hd.
  repeat split; try lia.
  - apply andb_true_iff; split; apply N.leb_le; lia.
  - apply andb_true_iff; split; apply N.leb_le; lia.
  - apply andb_false_iff; left; apply N.leb_gt; lia.
Qed.

Lemma scanstring_escape_char c t :
  c < 1114112 ->
  (is_high_surrogate c = true -> lowpair t = false) ->
  scanstring (escape_char c ++ t) = parsed_map (cons c) (scanstring t).
Proof.
  intros Hc Hp. unfold escape_char.
  destruct (N.eqb_spec c 34) as [->|H34]; [reflexivity|].
  destruct (N.eqb_spec c 92) as [->|H92]; [reflexivity|].
  destruct (N.eqb_spec c 10) as [->|H10]; [reflexivity|].
  destruct (N.eqb_spec c 13) as [->|H13]; [reflexivity|].
  destruct (N.eqb_spec c 9) as [->|H9]; [reflexivity|].
  destruct (N.eqb_spec c 8) as [->|H8]; [reflexivity|].
  destruct (N.eqb_spec c 12) as [->|H12]; [reflexivity|].
  destruct ((32 <=? c) && (c <=? 126)) eqn:Hr.
  - apply andb_true_iff in Hr. destruct Hr as [Hlo _].
    apply N.leb_le in Hlo.
    cbn [List.app scanstring].
    apply N.eqb_neq in H34, H92. rewrite H34, H92.
    assert ((c <? 32) = false) as -> by (apply N.ltb_ge; exact Hlo).
    reflexivity.
  - destruct (N.ltb_spec c 65536) as [Hs|Hs].
    + apply scanstring_u; [now apply hex4_escape | exact Hp].
    + destruct (surrogate_pair_of c Hs Hc) as (Hh & Hl & Hhi & Hlo & _ & Hj).
      rewrite <- Hj at 3.
      apply scanstring_pair; auto using hex4_escape.
Qed.

Lemma lowpair_escape_char c t :
  c < 1114112 -> is_low_surrogate c = false ->
  lowpair (escape_char c ++ t) = false.
Proof.
  intros Hc Hl. unfold escape_char.
  destruct (N.eqb_spec c 34) as [->|H34]; [now apply lowpair_letter|].
  destruct (N.eqb_spec c 92) as [->|H92]; [now apply lowpair_letter|].
  destruct (N.eqb_spec c 10) as [->|H10]; [now apply lowpair_letter|].
  destruct (N.eqb_spec c 13) as [->|H13]; [now apply lowpair_letter|].
  destruct (N.eqb_spec c 9) as [->|H9]; [now apply lowpair_letter|].
  destruct (N.eqb_spec c 8) as [->|H8]; [now apply lowpair_letter|].
  destruct (N.eqb_spec c 12) as [->|H12]; [now apply lowpair_letter|].
  destruct ((32 <=? c) && (c <=? 126)) eqn:Hr.
  - apply lowpair_other. now apply N.eqb_neq.
  - destruct (N.ltb_spec c 65536) as [Hs|Hs].
    + now apply lowpair_escape_u.
    + destruct (surrogate_pair_of c Hs Hc) as (Hh & _ & _ & _ & Hnl & _).
      rewrite <- app_assoc. now apply lowpair_escape_u.
Qed.

Lemma lowpair_encoded s rest :
  unpaired s = true ->
  match s with d :: _ => is_low_surrogate d | [] => false end = false ->
  lowpair (flat_map escape_char s ++ QUOTE :: rest) = false.
Proof.
  destruct s as [|c s]; intros Hu Hl.
  - now apply lowpair_other.
  - cbn [flat_map]. rewrite <- app_assoc.
    cbn [unpaired] in Hu. rewrite !andb_true_iff in Hu.
    destruct Hu as [[Hc _] _]. apply N.ltb_lt in Hc.
    now apply lowpair_escape_char.
Qed.

(** What [json.dump] writes for a string is scanned back to the string. *)
Lemma scanstring_encoded s rest :
  unpaired s = true ->
  scanstring (flat_map escape_char s ++ QUOTE :: rest) = Parsed s rest.
Proof.
  induction s as [|c s IH]; intros Hu; [reflexivity|].
  cbn [flat_map]. rewrite <- app_assoc.
  cbn [unpaired] in Hu. rewrite !andb_true_iff in Hu.
  destruct Hu as [[Hc Hn] Hs]. apply N.ltb_lt in Hc.
  rewrite scanstring_escape_char.
  - now rewrite (IH Hs).
  - exact Hc.
  - intros Hh. rewrite Hh in Hn. cbn [andb] in Hn.
    apply negb_true_iff in Hn. now apply lowpair_encoded.
Qed.

(** ** Values *)

Section ValueRoundTrip.
Context {B : Builtins}.

(** Induction on a value with the hypothesis for every value inside. *)
Lemma value_ind (P : value -> Prop) :
  P VNone ->
  (forall b, P (VBool b)) ->
  (forall z, P (VInt z)) ->
  (forall f, P (VFloat f)) ->
  (forall s, P (VStr s)) ->
  (forall l, Forall P l -> P (VList l)) ->
  (forall d, Forall (fun kv => P (snd kv)) d -> P (VDict d)) ->
  forall v, P v.
Proof.
  intros Hn Hb Hi Hf Hs Hl Hd.
  fix IH 1. intros [ | b | z | f | s | l | d ].
  - exact Hn.
  - apply Hb.
  - apply Hi.
  - apply Hf.
  - apply Hs.
  - apply Hl. induction l as [|x l IHl]; constructor; [apply IH | exact IHl].
  - apply Hd. induction d as [|[k x] d IHd]; constructor;
      [apply IH | exact IHd].
Qed.

Lemma str_eqb_eq a b : str_eqb a b = true <-> a = b.
Proof.
  revert b. induction a as [|x a IH]; intros [|y b]; simpl;
    try (split; [discriminate|discriminate]); [tauto|].
  rewrite andb_true_iff, N.eqb_eq, IH. split.
  - intros [-> ->]. reflexivity.
  - intros E. inversion E. auto.
Qed.

Lemma str_eqb_refl a : str_eqb a a = true.
Proof. now apply str_eqb_eq. Qed.

Lemma dict_set_fresh k x d :
  ~ In k (map fst d) -> dict_set k x d = d ++ [(k, x)].
Proof.
  induction d as [|[k' x'] d IH]; simpl; intros Hn; [reflexivity|].
  destruct (str_eqb k' k) eqn:E.
  - apply str_eqb_eq in E. tauto.
  - rewrite IH; tauto.
Qed.

Lemma dict_of_pairs_from acc ps :
  NoDup (map fst (acc ++ ps)) ->
  fold_left (fun d '(k, x) => dict_set k x d) ps acc = acc ++ ps.
Proof.
  revert acc. induction ps as [|[k x] ps IH]; intros acc Hn; simpl.
  - now rewrite app_nil_r.
  - rewrite dict_set_fresh.
    + rewrite IH; rewrite <- app_assoc; [reflexivity | exact Hn].
    + rewrite map_app in Hn. simpl in Hn.
      apply NoDup_remove_2 in Hn. intros Hi. apply Hn.
      apply in_or_app. now left.
Qed.

(** Inserting pairwise different keys one by one builds the dict itself. *)
Lemma dict_of_pairs_nodup d : NoDup (map fst d) -> dict_of_pairs d = d.
Proof. intros Hn. unfold dict_of_pairs. now rewrite dict_of_pairs_from. Qed.

Lemma skip_ws_start s : value_start s = true -> skip_ws s = s.
Proof.
  destruct s as [|c r]; [discriminate|]. simpl.
  rewrite !andb_true_iff, negb_true_iff. now intros [[-> _] _].
Qed.

Lemma value_start_digit c r : is_digit c = true -> value_start (c :: r) = true.
Proof.
  intros H. apply is_digit_cases in H.
  repeat (destruct H as [->|H]; [reflexivity|]). now subst.
Qed.

Lemma dumps_start v rest : plain v -> value_start (json_dumps v ++ rest) = true.
Proof.
  destruct v as [ | [|] | [|p|p] | f | s | l | d ]; simpl; try reflexivity;
    try contradiction; intros _.
  - destruct (pos_chars p) as (c & t & E & Hc & _).
    change (N.to_uint (N.pos p)) with (Pos.to_uint p).
    rewrite E. now apply value_start_digit.
Qed.

Lemma scan_once_quote fuel r :
  scan_once (S fuel) (QUOTE :: r) = parsed_map VStr (scanstring r).
Proof. reflexivity. Qed.

Lemma scan_once_bracket fuel r :
  scan_once (S fuel) (LBRACKET :: r)
  = match skip_ws r with
    | c :: r' =>
      if c =? RBRACKET then Parsed (VList []) r'
      else parsed_map VList (parse_items (scan_once fuel) fuel (skip_ws r))
    | [] => Malformed
    end.
Proof. reflexivity. Qed.

Lemma scan_once_brace fuel r :
  scan_once (S fuel) (LBRACE :: r)
  = match skip_ws r with
    | c :: r' =>
      if c =? RBRACE then Parsed (VDict []) r'
      else parsed_map (fun ps => VDict (dict_of_pairs ps))
             (parse_pairs (scan_once fuel) fuel (skip_ws r))
    | [] => Malformed
    end.
Proof. reflexivity. Qed.

Lemma scan_once_digit fuel c r :
  is_digit c = true -> scan_once (S fuel) (c :: r) = match_number (c :: r).
Proof.
  intros H. apply is_digit_cases in H.
  repeat (destruct H as [->|H]; [reflexivity|]). now subst.
Qed.

Lemma scan_once_minus fuel c r :
  is_digit c = true ->
  scan_once (S fuel) (MINUS :: c :: r) = match_number (MINUS :: c :: r).
Proof.
  intros H. apply is_digit_cases in H.
  repeat (destruct H as [->|H]; [reflexivity|]). now subst.
Qed.

Lemma scan_once_int fuel z rest :
  closes rest = true ->
  scan_once (S fuel) (int_str z ++ rest) = Parsed (VInt z) rest.
Proof.
  intros Hc. rewrite <- (match_number_int z rest Hc).
  destruct z as [|p|p]; unfold int_str.
  - reflexivity.
  - change (N.to_uint (Z.to_N (Z.pos p))) with (Pos.to_uint p).
    destruct (pos_chars p) as (c & t & -> & Hd & _).
    now apply scan_once_digit.
  - destruct (pos_chars p) as (c & t & -> & Hd & _).
    now apply scan_once_minus.
Qed.

Lemma join_start (sep : str) d ds rest :
  exists t, join sep (d :: ds) ++ rest = d ++ t.
Proof.
  destruct ds as [|d' ds]; cbn [join].
  - now exists rest.
  - rewrite <- app_assoc. now eexists.
Qed.

Lemma items_start y l rest :
  plain y ->
  value_start (join (lit ", ") (map json_dumps (y :: l)) ++ rest) = true.
Proof.
  intros Hy. cbn [map].
  destruct (join_start (lit ", ") (json_dumps y) (map json_dumps l) rest)
    as (t & ->).
  now apply dumps_start.
Qed.

Lemma parse_items_dumps fuel x l :
  Forall (fun y => plain y /\ reads_back y /\ (size y <= fuel)%nat) (x :: l) ->
  forall k rest,
    (List.length (x :: l) <= k)%nat ->
    parse_items (scan_once fuel) k
      (join (lit ", ") (map json_dumps (x :: l)) ++ RBRACKET :: rest)
    = Parsed (x :: l) rest.
Proof.
  revert x. induction l as [|y l IH]; intros x Hall k rest Hk.
  - inversion Hall as [|? ? (_ & Hx & Hs) _]; subst.
    destruct k as [|k]; [simpl in Hk; lia|].
    cbn [map join parse_items]. rewrite Hx by auto. reflexivity.
  - inversion Hall as [|? ? (_ & Hx & Hs) Hrest]; subst.
    destruct k as [|k]; [simpl in Hk; lia|].
    change (join (lit ", ") (map json_dumps (x :: y :: l)))
      with (json_dumps x ++ lit ", " ++ join (lit ", ") (map json_dumps (y :: l))).
    rewrite <- !app_assoc. cbn [parse_items].
    change (lit ", " ++ ?t) with (COMMA :: SPACE :: t).
    rewrite Hx by auto.
    cbn [skip_ws is_ws N.eqb Pos.eqb orb].
    rewrite skip_ws_start
      by (apply items_start; now inversion Hrest as [|? ? (Hy & _) _]).
    rewrite IH; [reflexivity | exact Hrest | simpl in *; lia].
Qed.

Lemma join_two (sep a b : str) l :
  join sep (a :: b :: l) = a ++ sep ++ join sep (b :: l).
Proof. reflexivity. Qed.

Lemma member_text key x after :
  (encode_str key ++ lit ": " ++ json_dumps x) ++ after
  = QUOTE :: flat_map escape_char key
      ++ QUOTE :: COLON :: SPACE :: json_dumps x ++ after.
Proof.
  unfold encode_str. cbn [List.app]. rewrite <- !app_assoc. reflexivity.
Qed.

Lemma parse_member fuel k key x after :
  unpaired key = true -> plain x -> reads_back x -> (size x <= fuel)%nat ->
  closes after = true ->
  parse_pairs (scan_once fuel) (S k)
    ((encode_str key ++ lit ": " ++ json_dumps x) ++ after)
  = match after with
    | c :: r =>
      if c =? COMMA then
        parsed_map (cons (key, x)) (parse_pairs (scan_once fuel) k (skip_ws r))
      else if c =? RBRACE then Parsed [(key, x)] r
      else Malformed
    | [] => Malformed
    end.
Proof.
  intros Hu Hp Hx Hs Hc. rewrite member_text.
  cbn [parse_pairs N.eqb Pos.eqb].
  rewrite (scanstring_encoded key _ Hu).
  cbn [skip_ws is_ws N.eqb Pos.eqb orb].
  rewrite skip_ws_start by now apply dumps_start.
  rewrite Hx by auto.
  destruct after as [|c r]; [reflexivity|].
  assert (is_ws c = false) as Hw.
  { unfold closes in Hc. rewrite !orb_true_iff, !N.eqb_eq in Hc.
    destruct Hc as [[->| ->]| ->]; reflexivity. }
  cbn [skip_ws]. rewrite Hw. reflexivity.
Qed.

Lemma parse_pairs_dumps fuel kx d :
  Forall (fun kv => unpaired (fst kv) = true /\ plain (snd kv)
                    /\ reads_back (snd kv) /\ (size (snd kv) <= fuel)%nat)
         (kx :: d) ->
  forall k rest,
    (List.length (kx :: d) <= k)%nat ->
    parse_pairs (scan_once fuel) k
      (join (lit ", ")
         (map (fun '(k, x) => encode_str k ++ lit ": " ++ json_dumps x)
              (kx :: d))
       ++ RBRACE :: rest)
    = Parsed (kx :: d) rest.
Proof.
  revert kx. induction d as [|[key' y] d IH]; intros [key x] Hall k rest Hk.
  - inversion Hall as [|? ? (Hu & Hp & Hx & Hs) _]; subst.
    destruct k as [|k]; [simpl in Hk; lia|].
    cbn [map join]. cbn [fst snd] in *.
    rewrite parse_member by auto. reflexivity.
  - inversion Hall as [|? ? (Hu & Hp & Hx & Hs) Hrest]; subst.
    destruct k as [|k]; [simpl in Hk; lia|].
    cbn [map]. rewrite join_two. cbn [fst snd] in *.
    rewrite <- (app_assoc (encode_str key ++ lit ": " ++ json_dumps x)).
    rewrite <- (app_assoc (lit ", ")).
    change (lit ", " ++ ?t) with (COMMA :: SPACE :: t).
    rewrite parse_member by auto.
    cbn [skip_ws is_ws N.eqb Pos.eqb orb].
    rewrite skip_ws_start.
    + transitivity (parsed_map (cons (key, x)) (Parsed ((key', y) :: d) rest));
        [|reflexivity].
      apply f_equal. apply (IH (key', y) Hrest k rest). simpl in *; lia.
    + destruct (join_start (lit ", ")
                  (encode_str key' ++ lit ": " ++ json_dumps y)
                  (map (fun '(k, x) => encode_str k ++ lit ": " ++ json_dumps x) d)
                  (RBRACE :: rest)) as (t & ->).
      reflexivity.
Qed.

Lemma size_pos (v : value) : (1 <= size v)%nat.
Proof. destruct v; simpl; lia. Qed.

Lemma sizes_list (l : list value) n :
  (fold_right (fun x n => size x + n) 0 l <= n)%nat ->
  Forall (fun x => size x <= n)%nat l /\ (List.length l <= n)%nat.
Proof.
  revert n. induction l as [|x l IH]; simpl; intros n Hn.
  - split; [constructor | lia].
  - pose proof (size_pos x).
    destruct (IH (n - size x)%nat ltac:(lia)) as [Hall Hlen].
    split; [|lia]. constructor; [lia|].
    eapply Forall_impl; [|exact Hall]. simpl. intros; lia.
Qed.

Lemma sizes_dict (d : list (str * value)) n :
  (fold_right (fun kv n => size (snd kv) + n) 0 d <= n)%nat ->
  Forall (fun kv => size (snd kv) <= n)%nat d /\ (List.length d <= n)%nat.
Proof.
  revert n. induction d as [|kv d IH]; simpl; intros n Hn.
  - split; [constructor | lia].
  - pose proof (size_pos (snd kv)).
    destruct (IH (n - size (snd kv))%nat ltac:(lia)) as [Hall Hlen].
    split; [|lia]. constructor; [lia|].
    eapply Forall_impl; [|exact Hall]. simpl. intros; lia.
Qed.

Lemma value_start_head s :
  value_start s = true ->
  exists c r, s = c :: r /\ (c =? RBRACKET) = false /\ (c =? RBRACE) = false.
Proof.
  destruct s as [|c r]; [discriminate|]. simpl.
  rewrite !andb_true_iff, !negb_true_iff. intros [[_ H1] H2]. eauto.
Qed.

(** Whatever [json.dump] writes for a plain value, [scan_once] reads the
    value back and stops right after it. *)
Lemma scan_once_dumps v : plain v -> reads_back v.
Proof.
  induction v as [ | b | z | f | s | l IH | d IH ] using value_ind;
    intros Hp fuel rest Hf Hc;
    (destruct fuel as [|fuel]; [simpl in Hf; lia|]).
  - reflexivity.
  - destruct b; reflexivity.
  - now apply scan_once_int.
  - contradiction.
  - cbn [plain] in Hp. cbn [json_dumps]. unfold encode_str.
    cbn [List.app]. rewrite <- app_assoc. rewrite scan_once_quote.
    cbn [List.app]. now rewrite scanstring_encoded.
  - destruct l as [|x l]; [reflexivity|].
    cbn [json_dumps]. cbn [List.app]. rewrite <- app_assoc. cbn [List.app].
    assert (Forall plain (x :: l)) as Hall.
    { clear - Hp. cbn [plain] in Hp. revert Hp.
      generalize (x :: l). intros l0. induction l0; simpl; intros H;
        constructor; tauto. }
    cbn [size] in Hf. apply le_S_n in Hf.
    destruct (sizes_list _ _ Hf) as [Hsz Hlen].
    rewrite scan_once_bracket.
    rewrite skip_ws_start by (apply items_start; now inversion Hall).
    destruct (value_start_head _ (items_start x l (RBRACKET :: rest)
                                    ltac:(now inversion Hall)))
      as (c & r & E & Hc1 & _).
    rewrite E at 1. rewrite Hc1.
    rewrite parse_items_dumps; [reflexivity | | exact Hlen].
    rewrite Forall_forall in *. intros y Hy. auto.
  - destruct d as [|[key x] d]; [reflexivity|].
    cbn [json_dumps]. cbn [List.app]. rewrite <- app_assoc. cbn [List.app].
    cbn [plain] in Hp. destruct Hp as [Hnd Hp].
    assert (Forall (fun kv => unpaired (fst kv) = true /\ plain (snd kv))
                   ((key, x) :: d)) as Hall.
    { clear - Hp. revert Hp.
      generalize ((key, x) :: d). intros l0. induction l0; simpl; intros H;
        constructor; tauto. }
    cbn [size] in Hf. apply le_S_n in Hf.
    destruct (sizes_dict _ _ Hf) as [Hsz Hlen].
    rewrite scan_once_brace.
    set (T := join (lit ", ") _ ++ RBRACE :: rest).
    assert (value_start T = true) as Hst.
    { subst T. destruct d as [|[key' y] d]; reflexivity. }
    rewrite skip_ws_start by exact Hst.
    destruct (value_start_head _ Hst) as (c & r & E & _ & Hc2).
    rewrite E at 1. rewrite Hc2. subst T.
    transitivity (parsed_map (fun ps => VDict (dict_of_pairs ps))
                             (Parsed ((key, x) :: d) rest)).
    + apply f_equal. apply parse_pairs_dumps; [|exact Hlen].
      rewrite Forall_forall in *. intros kv Hkv.
      destruct (Hall kv Hkv). auto.
    + cbn [parsed_map]. now rewrite dict_of_pairs_nodup.
Qed.

Lemma length_join_ge (sep : str) items :
  (fold_right (fun x n => List.length x + n) 0 items
   <= List.length (join sep items))%nat.
Proof.
  induction items as [|x items IH]; [simpl; lia|].
  destruct items as [|y items].
  - simpl. lia.
  - rewrite join_two, !length_app. cbn [fold_right] in *.
    unfold str in *. lia.
Qed.

(** The text of a plain value has at least as many characters as the
    value has parts: the walk of [json_loads] is long enough. *)
Lemma size_le_dumps v : plain v -> (size v <= List.length (json_dumps v))%nat.
Proof.
  induction v as [ | b | z | f | s | l IH | d IH ] using value_ind; intros Hp.
  - simpl. lia.
  - destruct b; simpl; lia.
  - destruct z as [|p|p]; cbn [size json_dumps int_str]; try (simpl; lia).
    change (N.to_uint (Z.to_N (Z.pos p))) with (Pos.to_uint p).
    destruct (pos_chars p) as (c & t & -> & _). simpl. lia.
  - contradiction.
  - cbn [size json_dumps]. unfold encode_str. simpl. lia.
  - cbn [size json_dumps]. cbn [List.length]. rewrite length_app.
    pose proof (length_join_ge (lit ", ") (map json_dumps l)) as Hj.
    enough (fold_right (fun x n => size x + n) 0 l
            <= fold_right (fun x n => List.length x + n) 0 (map json_dumps l))%nat
      by (cbn [List.length]; unfold str in *; lia).
    clear Hj. cbn [plain] in Hp. revert Hp.
    induction IH as [|x l Hx _ IHl]; simpl; intros Hp; [lia|].
    destruct Hp as [Hpx Hpl]. specialize (Hx Hpx). specialize (IHl Hpl). lia.
  - cbn [size json_dumps]. cbn [List.length]. rewrite length_app.
    pose proof (length_join_ge (lit ", ")
      (map (fun '(k, x) => encode_str k ++ lit ": " ++ json_dumps x) d)) as Hj.
    enough (fold_right (fun kv n => size (snd kv) + n) 0 d
            <= fold_right (fun x n => List.length x + n) 0
                 (map (fun '(k, x) => encode_str k ++ lit ": " ++ json_dumps x) d))%nat
      by (cbn [List.length]; unfold str in *; lia).
    clear Hj. cbn [plain] in Hp. destruct Hp as [_ Hp]. revert Hp.
    induction IH as [|[k x] d Hx _ IHd]; intros Hp;
      cbn [map fold_right fst snd] in *; [lia|].
    destruct Hp as (_ & Hpx & Hpd). specialize (Hx Hpx). specialize (IHd Hpd).
    rewrite !length_app. unfold str in *. lia.
Qed.

(** Dumping a plain value and loading the text gives the value back. *)
Lemma json_loads_dumps v : plain v -> json_loads (json_dumps v) = Some v.
Proof.
  intros Hp. unfold json_loads.
  rewrite <- (app_nil_r (json_dumps v)) at 2.
  rewrite skip_ws_start by now apply dumps_start.
  rewrite (scan_once_dumps v Hp); [reflexivity | | reflexivity].
  apply Nat.le_trans with (List.length (json_dumps v)); [|lia].
  now apply size_le_dumps.
Qed.

End ValueRoundTrip.

(** ** The walk of [json_loads] is long enough *)

Lemma progress_map {A C : Type} (f : A -> C) (p : parsed A) (s' s : str) :
  progress p s' -> (List.length s' <= List.length s)%nat ->
  progress (parsed_map f p) s.
Proof. destruct p; simpl; auto. intros; lia. Qed.

Lemma skip_ws_length s : (List.length (skip_ws s) <= List.length s)%nat.
Proof.
  induction s as [|c r IH]; simpl; [lia|].
  destruct (is_ws c); simpl; lia.
Qed.

Lemma scanstring_progress n :
  forall s, (List.length s <= n)%nat -> progress (scanstring s) s.
Proof.
  induction n as [|n IH]; intros s Hn.
  { destruct s; [exact I | simpl in Hn; lia]. }
  destruct s as [|c r]; [exact I|]. cbn [List.length] in Hn.
  cbn [scanstring].
  destruct (c =? QUOTE); [simpl; lia|].
  destruct (c =? BACKSLASH).
  2:{ destruct (c <? 32); [exact I|].
      apply progress_map with r; [apply IH; lia | simpl; lia]. }
  destruct r as [|e r1]; [exact I|]. cbn [List.length] in Hn.
  destruct (e =? 117).
  2:{ destruct (unescape e); [|exact I].
      apply progress_map with r1; [apply IH; lia | simpl; lia]. }
  destruct r1 as [|h1 [|h2 [|h3 [|h4 r2]]]]; try exact I.
  cbn [List.length] in Hn.
  destruct (hex4 h1 h2 h3 h4) as [uni|]; [|exact I].
  assert (progress (parsed_map (cons uni) (scanstring r2))
            (c :: e :: h1 :: h2 :: h3 :: h4 :: r2)) as Hsingle.
  { apply progress_map with r2; [apply IH; lia | simpl; lia]. }
  destruct (is_high_surrogate uni); [|exact Hsingle].
  revert Hsingle. generalize (scanstring r2) as X. intros X Hsingle.
  destruct r2 as [|b [|u [|l1 [|l2 [|l3 [|l4 r3]]]]]]; try exact Hsingle.
  cbn [List.length] in Hn.
  destruct ((b =? BACKSLASH) && (u =? 117)); [|exact Hsingle].
  destruct (hex4 l1 l2 l3 l4) as [uni2|]; [|exact I].
  destruct (is_low_surrogate uni2); [|exact Hsingle].
  apply progress_map with r3; [apply IH; lia | simpl; lia].
Qed.

Lemma span_digits_length s :
  (List.length (snd (span_digits s)) <= List.length s)%nat.
Proof.
  induction s as [|c r IH]; simpl; [lia|].
  destruct (is_digit c); [|simpl; lia].
  destruct (span_digits r) as [d r']. simpl in *. lia.
Qed.

Lemma match_int_length s i r :
  match_int s = Some (i, r) -> (List.length r < List.length s)%nat.
Proof.
  destruct s as [|c s']; [discriminate|]. unfold match_int.
  destruct (c =? ZERO).
  - intros E. inversion E. simpl. lia.
  - destruct (is_digit c); [|discriminate].
    pose proof (span_digits_length s') as H.
    destruct (span_digits s') as [d r']. intros E. inversion E. subst.
    simpl in *. lia.
Qed.

Lemma match_frac_length s :
  (List.length (snd (match_frac s)) <= List.length s)%nat.
Proof.
  destruct s as [|p [|c r]]; simpl; try lia.
  destruct ((p =? DOT) && is_digit c); [|simpl; lia].
  pose proof (span_digits_length r) as H.
  destruct (span_digits r) as [d r']. simpl in *. lia.
Qed.

Lemma match_exp_length s :
  (List.length (snd (match_exp s)) <= List.length s)%nat.
Proof.
  destruct s as [|e r]; [simpl; lia|]. unfold match_exp.
  destruct ((e =? 101) || (e =? 69)); [|simpl; lia].
  destruct r as [|g r1]; [simpl; lia|].
  destruct ((g =? MINUS) || (g =? PLUS)).
  - pose proof (span_digits_length r1) as H.
    destruct (span_digits r1) as [[|d0 d] r']; simpl in *; lia.
  - pose proof (span_digits_length (g :: r1)) as H.
    destruct (span_digits (g :: r1)) as [[|d0 d] r'];
      cbn [snd List.length] in *; lia.
Qed.

Section Progress.
Context {B : Builtins}.

Lemma match_number_progress s : progress (match_number s) s.
Proof.
  unfold match_number.
  set (split := match s with
                | [] => ([], s)
                | c :: r => if c =? MINUS then ([c], r) else ([], s)
                end).
  assert (List.length (snd split) <= List.length s)%nat as Hs.
  { subst split. destruct s as [|c r]; [simpl; lia|].
    destruct (c =? MINUS); simpl; lia. }
  destruct split as [sign s1]. cbn [snd] in Hs.
  destruct (match_int s1) as [[i s2]|] eqn:Ei; [|exact I].
  apply match_int_length in Ei.
  pose proof (match_frac_length s2) as Hf.
  destruct (match_frac s2) as [f s3]. cbn [snd] in Hf.
  pose proof (match_exp_length s3) as Hx.
  destruct (match_exp s3) as [x s4]. cbn [snd] in Hx.
  destruct f, x; simpl; lia.
Qed.

Lemma strip_prefix_length name s r :
  strip_prefix name s = Some r ->
  (List.length r + List.length name = List.length s)%nat.
Proof.
  revert s. induction name as [|x name IH]; intros [|y s]; simpl;
    try discriminate; try (intros E; inversion E; simpl; lia).
  destruct (x =? y); [|discriminate]. intros E. apply IH in E. lia.
Qed.

Lemma constant_progress name x s otherwise :
  name <> [] -> progress otherwise s -> progress (constant name x s otherwise) s.
Proof.
  intros Hn Ho. unfold constant.
  destruct (strip_prefix name s) as [r|] eqn:E; [|exact Ho].
  apply strip_prefix_length in E. destruct name; [congruence|].
  simpl in *. lia.
Qed.

Lemma parse_items_progress elem k :
  forall s,
    (forall t, (List.length t <= List.length s)%nat -> progress (elem t) t) ->
    (List.length s < k)%nat ->
    progress (parse_items elem k s) s.
Proof.
  induction k as [|k IH]; intros s He Hk; [lia|].
  cbn [parse_items].
  pose proof (He s (Nat.le_refl _)) as Hs.
  destruct (elem s) as [x r| |]; [|exact I|exact Hs]. simpl in Hs.
  pose proof (skip_ws_length r) as Hw.
  destruct (skip_ws r) as [|c r1]; [exact I|]. simpl in Hw.
  destruct (c =? COMMA).
  - pose proof (skip_ws_length r1) as Hw1.
    apply progress_map with (skip_ws r1); [|lia].
    apply IH; [|lia]. intros t Ht. apply He. lia.
  - destruct (c =? RBRACKET); [simpl; lia | exact I].
Qed.

Lemma parse_pairs_progress elem k :
  forall s,
    (forall t, (List.length t <= List.length s)%nat -> progress (elem t) t) ->
    (List.length s < k)%nat ->
    progress (parse_pairs elem k s) s.
Proof.
  induction k as [|k IH]; intros s He Hk; [lia|].
  cbn [parse_pairs].
  destruct s as [|q r0]; [exact I|]. cbn [List.length] in *.
  destruct (q =? QUOTE); [|exact I].
  pose proof (scanstring_progress _ r0 (Nat.le_refl _)) as Hs.
  destruct (scanstring r0) as [key r| |]; [|exact I|exact Hs]. simpl in Hs.
  pose proof (skip_ws_length r) as Hw.
  destruct (skip_ws r) as [|c r1]; [exact I|]. simpl in Hw.
  destruct (c =? COLON); [|exact I].
  pose proof (skip_ws_length r1) as Hw1.
  pose proof (He (skip_ws r1) ltac:(lia)) as Hv.
  destruct (elem (skip_ws r1)) as [x r2| |]; [|exact I|exact Hv]. simpl in Hv.
  pose proof (skip_ws_length r2) as Hw2.
  destruct (skip_ws r2) as [|c2 r3]; [exact I|]. simpl in Hw2.
  destruct (c2 =? COMMA).
  - pose proof (skip_ws_length r3) as Hw3.
    apply progress_map with (skip_ws r3); [|simpl; lia].
    apply IH; [|lia]. intros t Ht. apply He. lia.
  - destruct (c2 =? RBRACE); [simpl; lia | exact I].
Qed.

(** A walk longer than the text never runs out: it ends with a value and
    a shorter text, or with a malformed text. *)
Lemma scan_once_progress fuel :
  forall s, (List.length s < fuel)%nat -> progress (scan_once fuel s) s.
Proof.
  induction fuel as [|fuel IH]; intros s Hf; [lia|].
  destruct s as [|c r]; [exact I|]. cbn [List.length] in Hf.
  cbn [scan_once].
  destruct (c =? QUOTE).
  { apply progress_map with r;
      [apply (scanstring_progress _ r (Nat.le_refl _)) | simpl; lia]. }
  pose proof (skip_ws_length r) as Hw.
  destruct (c =? LBRACE).
  { destruct (skip_ws r) as [|c' r'] eqn:E; [exact I|]. simpl in Hw.
    destruct (c' =? RBRACE); [simpl; lia|].
    apply progress_map with (c' :: r'); [|simpl; lia].
    apply parse_pairs_progress; [|simpl; lia].
    intros t Ht. apply IH. simpl in Ht. lia. }
  destruct (c =? LBRACKET).
  { destruct (skip_ws r) as [|c' r'] eqn:E; [exact I|]. simpl in Hw.
    destruct (c' =? RBRACKET); [simpl; lia|].
    apply progress_map with (c' :: r'); [|simpl; lia].
    apply parse_items_progress; [|simpl; lia].
    intros t Ht. apply IH. simpl in Ht. lia. }
  repeat (apply constant_progress; [discriminate|]).
  apply match_number_progress.
Qed.

(** [json_loads] answers [None] only for a malformed text. *)
Lemma json_loads_walk s :
  scan_once (S (List.length s)) (skip_ws s) <> OutOfFuel.
Proof.
  pose proof (skip_ws_length s) as Hw.
  pose proof (scan_once_progress (S (List.length s)) (skip_ws s) ltac:(lia)) as H.
  intros E. rewrite E in H. exact H.
Qed.

End Progress.

(** ** Searching *)

Lemma startswith_spec a b : startswith a b = true <-> exists q, b = a ++ q.
Proof.
  revert b. induction a as [|x a IH]; intros b; simpl.
  - split; eauto.
  - destruct b as [|y b].
    + split; [discriminate | intros [q E]; discriminate].
    + rewrite andb_true_iff, N.eqb_eq, IH. split.
      * intros [-> [q ->]]. eauto.
      * intros [q E]. inversion E. eauto.
Qed.

(** [a in b] holds exactly when [b] is some text, then [a], then some text. *)
Lemma str_in_spec a b : str_in a b = true <-> exists p q, b = p ++ a ++ q.
Proof.
  induction b as [|y b IH].
  - simpl. rewrite orb_false_r, startswith_spec. split.
    + intros [q E]. exists [], q. exact E.
    + intros (p & q & E). destruct p; [|discriminate]. eauto.
  - cbn [str_in]. rewrite orb_true_iff, startswith_spec, IH. split.
    + intros [[q E]|(p & q & E)].
      * exists [], q. exact E.
      * exists (y :: p), q. now rewrite E.
    + intros (p & q & E). destruct p as [|z p].
      * left. eauto.
      * right. inversion E. eauto.
Qed.

Lemma str_in_empty b : str_in [] b = true.
Proof. destruct b; reflexivity. Qed.

Lemma selects_filter {A : Type} (P : A -> Prop) (f : A -> bool) l :
  (forall x, f x = true <-> P x) -> selects P l (filter f l).
Proof.
  intros Hf. induction l as [|x l IH]; simpl; [constructor|].
  destruct (f x) eqn:E.
  - apply selects_keep; [now apply Hf | exact IH].
  - apply selects_skip; [|exact IH]. rewrite <- Hf. congruence.
Qed.

Lemma selects_filter_on {A : Type} (P : A -> Prop) (f : A -> bool) l :
  Forall (fun x => f x = true <-> P x) l -> selects P l (filter f l).
Proof.
  induction 1 as [|x l Hx _ IH]; simpl; [constructor|].
  destruct (f x) eqn:E.
  - apply selects_keep; [now apply Hx | exact IH].
  - apply selects_skip; [|exact IH]. rewrite <- Hx. congruence.
Qed.

Lemma fold_case_ascii c :
  c < 128 -> fold_case c = if (65 <=? c) && (c <=? 90) then c + 32 else c.
Proof.
  intros Hc. unfold fold_case, lower_char, is_ascii_upper, is_greek_capital.
  replace (c =? 962) with false by (symmetry; apply N.eqb_neq; lia).
  replace (913 <=? c) with false by (symmetry; apply N.leb_gt; lia).
  now rewrite orb_false_r.
Qed.

(** On ASCII texts the [lower] of the Greek instance is the ASCII one. *)
Lemma greek_lower_ascii s : ascii_text s -> greek_lower s = ascii_lower s.
Proof.
  unfold greek_lower, ascii_lower. generalize false. intros b H. revert b.
  induction H as [|c s Hc _ IH]; intros b; [reflexivity|].
  cbn [lower_from map]. rewrite IH.
  replace (c =? 931) with false by (symmetry; apply N.eqb_neq; lia).
  unfold lower_char, is_ascii_upper, is_greek_capital.
  replace (913 <=? c) with false by (symmetry; apply N.leb_gt; lia).
  now rewrite orb_false_r.
Qed.

Lemma map_fold_case_ascii s : ascii_text s -> map fold_case s = ascii_lower s.
Proof.
  unfold ascii_lower. induction 1 as [|c s Hc _ IH]; [reflexivity|].
  cbn [map]. now rewrite IH, (fold_case_ascii c Hc).
Qed.

Lemma filter_all {A : Type} (f : A -> bool) l :
  (forall x, f x = true) -> filter f l = l.
Proof.
  intros Hf. induction l as [|x l IH]; simpl; [reflexivity|].
  now rewrite Hf, IH.
Qed.

Section Searching.
Context {B : Builtins}.
Import LibraryManager.

Lemma select_title term bs :
  select term (lit "title") (map book_value bs)
  = Return (map book_value
              (filter (fun b => str_in term (str_lower (title b))) bs)).
Proof.
  induction bs as [|b bs IH]; [reflexivity|].
  cbn [map select]. rewrite IH.
  change (py_getitem (book_value b) (lit "title")) with (Return (VStr (title b))).
  cbn [obind py_lower filter].
  now destruct (str_in term (str_lower (title b))).
Qed.

Lemma select_author term bs :
  select term (lit "author") (map book_value bs)
  = Return (map book_value
              (filter (fun b => str_in term (str_lower (author b))) bs)).
Proof.
  induction bs as [|b bs IH]; [reflexivity|].
  cbn [map select]. rewrite IH.
  change (py_getitem (book_value b) (lit "author"))
    with (Return (VStr (author b))).
  cbn [obind py_lower filter].
  now destruct (str_in term (str_lower (author b))).
Qed.

Lemma search_book_title term s bs :
  holds s bs ->
  search_book term (lit "Title") s
  = (Return (map book_value
               (filter (fun b => str_in (str_lower term) (str_lower (title b)))
                       bs)), s).
Proof.
  intros H. unfold search_book. cbn [str_eqb lit].
  change (str_eqb (lit "Title") (lit "Title")) with true. cbv iota.
  unfold bind, get_library, lift. rewrite H.
  cbn [library_value py_iter]. now rewrite select_title.
Qed.

(** Any selector other than the exact string [Title] searches authors. *)
Lemma search_book_other term by_ s bs :
  by_ <> lit "Title" ->
  holds s bs ->
  search_book term by_ s
  = (Return (map book_value
               (filter (fun b => str_in (str_lower term) (str_lower (author b)))
                       bs)), s).
Proof.
  intros Hne H. unfold search_book.
  destruct (str_eqb by_ (lit "Title")) eqn:E.
  { apply str_eqb_eq in E. contradiction. }
  unfold bind, get_library, lift. rewrite H.
  cbn [library_value py_iter]. now rewrite select_author.
Qed.

Lemma contains_ci_in term field :
  str_in (str_lower term) (str_lower field) = true <-> contains_ci term field.
Proof. apply str_in_spec. Qed.

(** On ASCII texts, for a [lower] that maps [A-Z] to [a-z] there, the
    match of [search_book] is containment with letter case ignored. *)
Lemma contains_ci_ascii term field :
  (forall t, ascii_text t -> str_lower t = ascii_lower t) ->
  ascii_text term -> ascii_text field ->
  contains_ci term field <-> contains_ignoring_case term field.
Proof.
  intros Hlow Ht Hf. unfold contains_ci, contains_ignoring_case.
  rewrite (Hlow term Ht), (Hlow field Hf). split.
  - intros (p & q & E). unfold ascii_lower in E at 1.
    apply map_eq_app in E. destruct E as (before & rest & -> & Ep & Er).
    apply map_eq_app in Er. destruct Er as (mid & after & -> & Em & Ea).
    exists before, mid, after. split; [reflexivity|].
    unfold ascii_text in Hf. rewrite !Forall_app in Hf.
    destruct Hf as (_ & Hmid & _).
    rewrite (map_fold_case_ascii mid Hmid), (map_fold_case_ascii term Ht).
    exact Em.
  - intros (before & mid & after & -> & Em).
    unfold ascii_text in Hf. rewrite !Forall_app in Hf.
    destruct Hf as (_ & Hmid & _).
    rewrite (map_fold_case_ascii mid Hmid), (map_fold_case_ascii term Ht) in Em.
    exists (ascii_lower before), (ascii_lower after).
    unfold ascii_lower in *. now rewrite !map_app, Em.
Qed.

End Searching.

(** ** Adding and removing *)

Lemma remove_at_split {A : Type} (l : list A) i :
  (i < List.length l)%nat ->
  exists before x after,
    l = before ++ x :: after /\ List.length before = i
    /\ remove_at i l = before ++ after.
Proof.
  intros Hi. unfold remove_at.
  destruct (nth_error l i) as [x|] eqn:E.
  2:{ apply nth_error_None in E. lia. }
  exists (firstn i l), x, (skipn (S i) l). repeat split.
  - rewrite <- (firstn_skipn i l) at 1. f_equal.
    clear Hi. revert i E. induction l as [|y l IH]; intros [|i] E;
      try discriminate.
    + simpl in *. congruence.
    + simpl in E. apply (IH i E).
  - apply firstn_length_le. lia.
Qed.

Lemma nth_error_removed_before {A : Type} (before after : list A) x j :
  (j < List.length before)%nat ->
  nth_error (before ++ after) j = nth_error (before ++ x :: after) j.
Proof. intros Hj. now rewrite !nth_error_app1. Qed.

Lemma nth_error_removed_after {A : Type} (before after : list A) x j :
  (List.length before <= j)%nat ->
  nth_error (before ++ after) j = nth_error (before ++ x :: after) (S j).
Proof.
  intros Hj. rewrite !nth_error_app2 by lia.
  now replace (S j - List.length before)%nat
    with (S (j - List.length before)) by lia.
Qed.

Section Mutations.
Context {B : Builtins}.
Import LibraryManager.

Lemma add_book_list title_ author_ year_ genre_ read_ s l :
  library s = Some (VList l) ->
  let book := VDict [(lit "title", title_); (lit "author", author_);
                     (lit "year", year_); (lit "genre", genre_);
                     (lit "read", read_)] in
  add_book title_ author_ year_ genre_ read_ s
  = (Return true,
     {| library := Some (VList (l ++ [book]));
        storage := Some (json_dumps (VList (l ++ [book])));
        notices := notices s |}).
Proof.
  intros H book. unfold add_book, save_library, bind, get_library, lift,
    set_library, write_file, ret.
  rewrite H. reflexivity.
Qed.

Lemma remove_book_list s l i :
  library s = Some (VList l) ->
  (0 <= i < Z.of_nat (List.length l))%Z ->
  remove_book i s
  = (Return true,
     {| library := Some (VList (remove_at (Z.to_nat i) l));
        storage := Some (json_dumps (VList (remove_at (Z.to_nat i) l)));
        notices := notices s |}).
Proof.
  intros H [H0 Hn]. unfold remove_book.
  assert ((0 <=? i)%Z = true) as -> by now apply Z.leb_le.
  unfold save_library, bind, get_library, lift, set_library, write_file, ret.
  rewrite H. cbn [py_len].
  assert ((i <? Z.of_nat (List.length l))%Z = true) as E by now apply Z.ltb_lt.
  rewrite E. cbv beta iota zeta. rewrite H. cbn [py_pop].
  assert ((i <? 0)%Z = false) as -> by now apply Z.ltb_ge.
  assert ((0 <=? i)%Z = true) as -> by now apply Z.leb_le.
  rewrite E. reflexivity.
Qed.

Lemma remove_book_outside s l i :
  library s = Some (VList l) ->
  (i < 0 \/ Z.of_nat (List.length l) <= i)%Z ->
  remove_book i s = (Return false, s).
Proof.
  intros H Hi. unfold remove_book.
  destruct (0 <=? i)%Z eqn:E0; [|reflexivity].
  apply Z.leb_le in E0.
  unfold bind, get_library, lift, ret. rewrite H. cbn [py_len].
  assert ((i <? Z.of_nat (List.length l))%Z = false) as ->
    by (apply Z.ltb_ge; lia).
  reflexivity.
Qed.

(** Whenever [save_library] returns, the file holds the dump of the
    library. *)
Lemma save_library_mirror s u s' :
  save_library s = (Return u, s') ->
  exists v, library s' = Some v /\ storage s' = Some (json_dumps v).
Proof.
  unfold save_library, bind, get_library, write_file. cbn [library].
  destruct (library s) as [v|] eqn:E; [|discriminate].
  intros H. inversion H. subst. exists v. now split.
Qed.

End Mutations.

(** ** Statistics, loading *)

Section Reading.
Context {B : Builtins}.
Import LibraryManager.

Lemma count_read_books bs :
  count_read (map book_value bs)
  = Return (Z.of_nat (List.length (filter read bs))).
Proof.
  induction bs as [|b bs IH]; [reflexivity|].
  cbn [map count_read]. rewrite IH.
  change (py_getitem (book_value b) (lit "read")) with (Return (VBool (read b))).
  cbn [obind py_bool filter]. destruct (read b); [|reflexivity].
  cbn [List.length]. f_equal. lia.
Qed.

Lemma get_statistics_books s bs :
  holds s bs ->
  get_statistics s
  = (Return
       {| total_books := Z.of_nat (List.length bs);
          read_books := Z.of_nat (List.length (filter read bs));
          percentage_read :=
            if (Z.of_nat (List.length bs) >? 0)%Z
            then Float (float_mul_int
                          (int_truediv (Z.of_nat (List.length (filter read bs)))
                                       (Z.of_nat (List.length bs))) 100)
            else Int 0 |}, s).
Proof.
  intros H. unfold get_statistics, bind, get_library, lift, ret.
  rewrite H. cbn [library_value py_len py_iter]. cbv beta iota zeta.
  rewrite H. cbn [library_value py_iter]. cbv beta iota zeta.
  rewrite count_read_books, length_map. reflexivity.
Qed.

Lemma unpaired_book_plain b :
  unpaired_book b = true -> plain (book_value b).
Proof.
  unfold unpaired_book. rewrite !andb_true_iff. intros [[Ht Ha] Hg].
  cbn [plain book_value map fst snd fold_right]. split.
  - repeat constructor; simpl; intuition discriminate.
  - tauto.
Qed.

Lemma unpaired_library_plain bs :
  forallb unpaired_book bs = true -> plain (library_value bs).
Proof.
  unfold library_value. cbn [plain].
  induction bs as [|b bs IH]; cbn [forallb map fold_right]; [tauto|].
  rewrite andb_true_iff. intros [Hb Hbs].
  split; [now apply unpaired_book_plain | now apply IH].
Qed.

End Reading.

(** ** The file on disk *)

Lemma utf8_decode_ascii text : ascii_text text -> utf8_decode text = Some text.
Proof.
  induction 1 as [|c text Hc _ IH]; [reflexivity|].
  cbn [utf8_decode]. apply N.ltb_lt in Hc. now rewrite Hc, IH.
Qed.

Lemma universal_newlines_printable text :
  Forall printable text -> universal_newlines text = text.
Proof.
  induction 1 as [|c text Hc _ IH]; [reflexivity|].
  cbn [universal_newlines].
  replace (c =? 13) with false
    by (symmetry; apply N.eqb_neq; unfold printable in Hc; lia).
  now rewrite IH.
Qed.

(** With UTF-8 as the encoding, a file of printable ASCII characters is
    read as the text it shows. *)
Lemma utf8_reads_printable text :
  Forall printable text -> read_text utf8_platform text = Some text.
Proof.
  intros H. cbn [read_text utf8_platform].
  rewrite utf8_decode_ascii.
  - cbn [option_map]. now rewrite universal_newlines_printable.
  - eapply Forall_impl; [|exact H]. unfold printable. intros c Hc. lia.
Qed.

Section Disk.
Context {B : Builtins} (P : platform).

(** On a file that is read as the text it shows and that brings the
    interpreter to none of its limits, [load_library] on the bytes is
    [load_library] on the text. *)
Lemma load_library_on_text s :
  (forall bytes, storage s = Some bytes ->
     read_text P bytes = Some bytes /\ limit_reached P bytes = None) ->
  OnDisk.load_library P s = LibraryManager.load_library s.
Proof.
  intros H. unfold OnDisk.load_library, LibraryManager.load_library.
  destruct (storage s) as [bytes|]; [|reflexivity].
  destruct (H bytes eq_refl) as [Hr Hl].
  unfold OnDisk.json_load. rewrite Hr, Hl.
  now destruct (json_loads bytes).
Qed.

Lemma init_on_text s :
  (forall bytes, storage s = Some bytes ->
     read_text P bytes = Some bytes /\ limit_reached P bytes = None) ->
  OnDisk.__init__ P s = LibraryManager.__init__ s.
Proof.
  intros H. unfold OnDisk.__init__, LibraryManager.__init__.
  destruct (library s); [reflexivity|].
  unfold bind, set_library. now rewrite load_library_on_text.
Qed.

(** What [json.load] raises goes through [load_library] and [__init__],
    [json.JSONDecodeError] excepted: the library is the empty list that
    [__init__] assigned first, and nothing is shown. *)
Lemma init_raises s bytes e :
  library s = None ->
  storage s = Some bytes ->
  OnDisk.json_load P bytes = Raise e ->
  e <> JSONDecodeError ->
  OnDisk.__init__ P s
  = (Raise e,
     {| library := Some (VList []); storage := Some bytes;
        notices := notices s |}).
Proof.
  intros Hl Hs Hj He. unfold OnDisk.__init__. rewrite Hl.
  unfold bind, set_library, OnDisk.load_library.
  cbn [library storage notices]. rewrite Hs, Hj.
  destruct e; try reflexivity. congruence.
Qed.

Lemma init_rejected s bytes text :
  library s = None ->
  storage s = Some bytes ->
  read_text P bytes = Some text ->
  limit_reached P text = None ->
  json_loads text = None ->
  OnDisk.__init__ P s
  = (Return tt,
     {| library := Some (VList []); storage := Some bytes;
        notices :=
          notices s
          ++ [StError
                "Error loading library file. Starting with an empty library."]
     |}).
Proof.
  intros Hl Hs Hr Hlim Hj. unfold OnDisk.__init__. rewrite Hl.
  unfold bind, set_library, OnDisk.load_library, OnDisk.json_load.
  cbn [library storage notices]. now rewrite Hs, Hr, Hlim, Hj.
Qed.

End Disk.

(** * The claims *)

Section Claims.
Context {B : Builtins}.
Import LibraryManager.

(** C1, as the code has it.  For every library and every search term,
    [search_book term "Title"] returns exactly the subsequence of the
    books for which the lower-cased term occurs in the lower-cased title,
    in the order of the library, and [search_book term "Author"] does the
    same on the author; for the empty term every book is returned; the
    session is left as it was.  When the term and the fields searched are
    ASCII texts, on which [lower] maps [A-Z] to [a-z], these are exactly
    the books whose field contains the term when letter case is
    ignored. *)
Theorem search_book_lowered (s : session) (bs : list book) (term : str) :
  holds s bs ->
  (exists found,
      search_book term (lit "Title") s = (Return (map book_value found), s)
      /\ selects (fun b => contains_ci term (title b)) bs found)
  /\ (exists found,
      search_book term (lit "Author") s = (Return (map book_value found), s)
      /\ selects (fun b => contains_ci term (author b)) bs found)
  /\ search_book [] (lit "Title") s = (Return (map book_value bs), s)
  /\ search_book [] (lit "Author") s = (Return (map book_value bs), s)
  /\ ((forall t, ascii_text t -> str_lower t = ascii_lower t) ->
      ascii_text term ->
      Forall (fun b => ascii_text (title b) /\ ascii_text (author b)) bs ->
      (exists found,
          search_book term (lit "Title") s
          = (Return (map book_value found), s)
          /\ selects (fun b => contains_ignoring_case term (title b))
                     bs found)
      /\ (exists found,
          search_book term (lit "Author") s
          = (Return (map book_value found), s)
          /\ selects (fun b => contains_ignoring_case term (author b))
                     bs found)).
Proof.
  intros H. repeat apply conj.
  - eexists. split; [apply (search_book_title term s bs H)|].
    apply selects_filter. intros b. apply contains_ci_in.
  - eexists. split.
    + apply (search_book_other term (lit "Author") s bs); [discriminate|exact H].
    + apply selects_filter. intros b. apply contains_ci_in.
  - rewrite (search_book_title [] s bs H), str_lower_empty.
    rewrite filter_all; [reflexivity | intros b; apply str_in_empty].
  - rewrite (search_book_other [] (lit "Author") s bs);
      [|discriminate|exact H].
    rewrite str_lower_empty.
    rewrite filter_all; [reflexivity | intros b; apply str_in_empty].
  - intros Hlow Ht Hbs. split.
    + eexists. split; [apply (search_book_title term s bs H)|].
      apply selects_filter_on. eapply Forall_impl; [|exact Hbs].
      intros b [Hb _]. cbv beta. rewrite contains_ci_in.
      now apply contains_ci_ascii.
    + eexists. split.
      * apply (search_book_other term (lit "Author") s bs);
          [discriminate|exact H].
      * apply selects_filter_on. eapply Forall_impl; [|exact Hbs].
        intros b [_ Hb]. cbv beta. rewrite contains_ci_in.
        now apply contains_ci_ascii.
Qed.

(** C10. The selector of [search_book] is compared with the exact string
    [Title] only: with any other selector ([author], [title] in lower
    case, anything else) the call is the search by author, and the term is
    matched against the author field; [Title] itself selects the title. *)
Theorem search_book_dispatch (s : session) (bs : list book) (term by_ : str) :
  holds s bs ->
  by_ <> lit "Title" ->
  search_book term by_ s = search_book term (lit "Author") s
  /\ (exists found,
        search_book term by_ s = (Return (map book_value found), s)
        /\ selects (fun b => contains_ci term (author b)) bs found)
  /\ (exists found,
        search_book term (lit "Title") s = (Return (map book_value found), s)
        /\ selects (fun b => contains_ci term (title b)) bs found).
Proof.
  intros H Hne. repeat split.
  - rewrite (search_book_other term by_ s bs Hne H).
    rewrite (search_book_other term (lit "Author") s bs); [reflexivity| |exact H].
    discriminate.
  - eexists. split; [apply (search_book_other term by_ s bs Hne H)|].
    apply selects_filter. intros b. apply contains_ci_in.
  - eexists. split; [apply (search_book_title term s bs H)|].
    apply selects_filter. intros b. apply contains_ci_in.
Qed.

(** C2. For a library of length [n] and an index [i] with [0 <= i < n],
    [remove_book i] returns [True], deletes exactly the entry at position
    [i] (the entries before it stay, every later entry moves down by one,
    the length becomes [n - 1]) and writes the new library to the file. *)
Theorem remove_book_in_range (s : session) (l : list value) (i : Z) :
  library s = Some (VList l) ->
  (0 <= i < Z.of_nat (List.length l))%Z ->
  exists before x after,
    l = before ++ x :: after
    /\ List.length before = Z.to_nat i
    /\ remove_book i s
       = (Return true,
          {| library := Some (VList (before ++ after));
             storage := Some (json_dumps (VList (before ++ after)));
             notices := notices s |})
    /\ List.length (before ++ after) = (List.length l - 1)%nat
    /\ (forall j, (j < Z.to_nat i)%nat ->
                  nth_error (before ++ after) j = nth_error l j)
    /\ (forall j, (Z.to_nat i <= j)%nat ->
                  nth_error (before ++ after) j = nth_error l (S j)).
Proof.
  intros H Hi.
  destruct (remove_at_split l (Z.to_nat i) ltac:(lia))
    as (before & x & after & El & Eb & Er).
  exists before, x, after.
  rewrite (remove_book_list s l i H Hi), Er.
  repeat split; auto.
  - rewrite El, !length_app. simpl. lia.
  - intros j Hj. rewrite El. apply nth_error_removed_before. lia.
  - intros j Hj. rewrite El. apply nth_error_removed_after. lia.
Qed.

(** C3. For a library of length [n] and an index [i] with [i < 0] or
    [i >= n], [remove_book i] returns [False] without raising, and leaves
    the library, the file and the notices as they were. *)
Theorem remove_book_out_of_range (s : session) (l : list value) (i : Z) :
  library s = Some (VList l) ->
  (i < 0 \/ Z.of_nat (List.length l) <= i)%Z ->
  remove_book i s = (Return false, s).
Proof. apply remove_book_outside. Qed.

(** C6. For every title, author, year, genre and read status and every
    library, [add_book] builds the record from exactly these fields, puts
    it at the end of the library (the length grows by one, the new entry
    is the last one, the earlier entries stay in place), writes the
    library to the file and returns [True]; nothing is validated and
    nothing makes it fail. *)
Theorem add_book_appends (s : session) (l : list value)
    (title_ author_ year_ genre_ read_ : value) :
  library s = Some (VList l) ->
  let book := VDict [(lit "title", title_); (lit "author", author_);
                     (lit "year", year_); (lit "genre", genre_);
                     (lit "read", read_)] in
  add_book title_ author_ year_ genre_ read_ s
  = (Return true,
     {| library := Some (VList (l ++ [book]));
        storage := Some (json_dumps (VList (l ++ [book])));
        notices := notices s |})
  /\ List.length (l ++ [book]) = S (List.length l)
  /\ nth_error (l ++ [book]) (List.length l) = Some book
  /\ (forall j, (j < List.length l)%nat ->
                nth_error (l ++ [book]) j = nth_error l j).
Proof.
  intros H book. repeat split.
  - apply (add_book_list title_ author_ year_ genre_ read_ s l H).
  - rewrite length_app. simpl. lia.
  - rewrite nth_error_app2, Nat.sub_diag; [reflexivity | lia].
  - intros j Hj. now apply nth_error_app1.
Qed.

(** C7. After every mutation, that is whenever [add_book] returns and
    whenever [remove_book] returns [True], the file holds exactly what
    [json.dump] writes for the whole library of the session, whatever it
    held before. *)
Theorem mutation_mirrors (s s' : session) (i : Z)
    (title_ author_ year_ genre_ read_ : value) :
  add_book title_ author_ year_ genre_ read_ s = (Return true, s')
  \/ remove_book i s = (Return true, s') ->
  exists l,
    library s' = Some (VList l) /\ storage s' = Some (json_dumps (VList l)).
Proof.
  intros [H|H].
  - destruct (library s) as [v|] eqn:Ev.
    2:{ unfold add_book, bind, get_library in H. rewrite Ev in H.
        discriminate. }
    destruct v as [ | b | z | f | t | l | d ];
      try (unfold add_book, bind, get_library, lift in H; rewrite Ev in H;
           cbn [py_append] in H; discriminate).
    rewrite (add_book_list _ _ _ _ _ s l Ev) in H. inversion H.
    eexists. split; reflexivity.
  - destruct (0 <=? i)%Z eqn:E0.
    2:{ unfold remove_book in H. rewrite E0 in H. discriminate. }
    destruct (library s) as [v|] eqn:Ev.
    2:{ unfold remove_book, bind, get_library in H. rewrite E0, Ev in H.
        discriminate. }
    destruct v as [ | b | z | f | t | l | d ];
      try (unfold remove_book, bind, get_library, lift in H;
           rewrite E0, Ev in H; cbn [py_len] in H;
           first [ discriminate
                 | destruct (i <? _)%Z;
                   [rewrite Ev in H; cbn [py_pop] in H|]; discriminate ]).
    apply Z.leb_le in E0.
    destruct (Z.ltb_spec i (Z.of_nat (List.length l))) as [Hlt|Hge].
    + rewrite (remove_book_list s l i Ev (conj E0 Hlt)) in H. inversion H.
      eexists. split; reflexivity.
    + rewrite (remove_book_outside s l i Ev (or_intror Hge)) in H.
      discriminate.
Qed.

(** C5. For every library, [get_statistics] returns the length of the
    library as total, the number of entries whose read field is true as
    read count, and as percentage the value of [(read / total) * 100] in
    binary64 arithmetic when the total is positive and the [int] [0] when
    it is [0]: on the empty library all three are [0], and after adding
    one read book and one unread book to an empty library they are [2],
    [1] and [50.0]. *)
Theorem get_statistics_exact (s s0 : session) (bs : list book) (b1 b2 : book) :
  holds s bs ->
  library s0 = Some (VList []) ->
  read b1 = true ->
  read b2 = false ->
  (exists st,
      get_statistics s = (Return st, s)
      /\ total_books st = Z.of_nat (List.length bs)
      /\ read_books st = Z.of_nat (List.length (filter read bs))
      /\ ((0 < total_books st)%Z ->
          percentage_read st
          = Float (float_mul_int
                     (int_truediv (read_books st) (total_books st)) 100))
      /\ (total_books st = 0%Z -> percentage_read st = Int 0)
      /\ (bs = [] ->
          st = {| total_books := 0; read_books := 0;
                  percentage_read := Int 0 |}))
  /\ (exists st s2,
         (add b1 ;; add b2 ;; get_statistics)%store s0 = (Return st, s2)
         /\ total_books st = 2%Z /\ read_books st = 1%Z
         /\ percentage_read st = Float (float_of_int 50)).
Proof.
  intros H H0 Hr1 Hr2. split.
  - eexists. split; [apply (get_statistics_books s bs H)|].
    cbn [total_books read_books percentage_read]. repeat split.
    + intros Hpos. apply Z.gtb_lt in Hpos. now rewrite Hpos.
    + intros Hz. now rewrite Hz.
    + intros ->. reflexivity.
  - unfold add. unfold bind at 1.
    rewrite (add_book_list _ _ _ _ _ s0 [] H0). cbv zeta.
    cbn [List.app]. unfold bind at 1.
    set (s1 := {| library := _; storage := _; notices := _ |}).
    rewrite (add_book_list _ _ _ _ _ s1 _ eq_refl). cbv zeta.
    cbn [List.app]. subst s1.
    set (s2 := {| library := _; storage := _; notices := _ |}).
    assert (holds s2 [b1; b2]) as H2 by reflexivity.
    rewrite (get_statistics_books s2 _ H2).
    eexists. eexists. split; [reflexivity|].
    cbn [total_books read_books percentage_read filter List.length].
    rewrite Hr1, Hr2. cbn [filter List.length].
    repeat split; vm_compute; reflexivity.
Qed.

(** C8, as the code has it.  When the session starts, a storage file
    whose bytes are read as a text that [json.load] rejects with
    [json.JSONDecodeError] leaves the library empty and shows one error
    notice, an absent file leaves the library empty and shows one
    informational notice; in both cases the call returns, and the file is
    left as it was. *)
Theorem init_warns_on_rejected_text (P : platform) (s : session) :
  library s = None ->
  storage s = None
  \/ (exists bytes text,
        storage s = Some bytes /\ read_text P bytes = Some text
        /\ limit_reached P text = None /\ json_loads text = None) ->
  exists n,
    OnDisk.__init__ P s
    = (Return tt,
       {| library := Some (VList []); storage := storage s;
          notices := notices s ++ [n] |})
    /\ (storage s = None ->
        n = StInfo
          "No existing library file found. Starting with an empty library.")
    /\ (storage s <> None ->
        n = StError
          "Error loading library file. Starting with an empty library.").
Proof.
  intros Hl [Hs|(bytes & text & Hs & Hr & Hlim & Hj)].
  - unfold OnDisk.__init__. rewrite Hl.
    unfold bind, set_library, OnDisk.load_library.
    cbn [storage notices library]. rewrite Hs.
    eexists. split; [reflexivity|]. split; [reflexivity|]. congruence.
  - rewrite (init_rejected P s bytes text Hl Hs Hr Hlim Hj), Hs.
    eexists. split; [reflexivity|]. split; [discriminate|reflexivity].
Qed.

(** C9. [load_library] validates nothing beyond the JSON syntax: whatever
    value the text of the file parses to becomes the library of the
    session as it is, without a notice; when that value is not a list of
    book records, the session that results holds no library in the sense
    of the data model. *)
Theorem init_keeps_any_value (s : session) (text : str) (v : value) :
  library s = None ->
  storage s = Some text ->
  json_loads text = Some v ->
  __init__ s
  = (Return tt,
     {| library := Some v; storage := Some text; notices := notices s |})
  /\ (~ is_library v -> forall bs, ~ holds (snd (__init__ s)) bs).
Proof.
  intros Hl Hs Hj.
  assert (__init__ s
          = (Return tt,
             {| library := Some v; storage := Some text;
                notices := notices s |})) as E.
  { unfold __init__. rewrite Hl.
    unfold bind, set_library, load_library. cbn [storage notices library].
    now rewrite Hs, Hj. }
  split; [exact E|].
  intros Hn bs Hh. apply Hn. exists bs.
  rewrite E in Hh. unfold holds in Hh. cbn [snd library] in Hh. congruence.
Qed.

(** C4 (amended). For every library of book records whose strings have no
    high surrogate directly before a low surrogate, writing the library
    to the file and loading the file gives the same books in the same
    order, and shows no notice. *)
Theorem persist_reload_identity (s : session) (bs : list book) :
  holds s bs ->
  forallb unpaired_book bs = true ->
  persist_reload s
  = (Return tt,
     {| library := Some (library_value bs);
        storage := Some (json_dumps (library_value bs));
        notices := notices s |}).
Proof.
  intros H Hu. unfold persist_reload, save_library, load_library, bind,
    get_library, write_file, set_library.
  cbn [library storage notices]. rewrite H. cbn [library storage notices].
  rewrite (json_loads_dumps _ (unpaired_library_plain bs Hu)). reflexivity.
Qed.

End Claims.

Import LibraryManager.
#[local] Existing Instance ascii_builtins.

(** Scenario: the library holds Dune and Hobbit; searching [hob] by title
    returns the Hobbit entry only. *)
Example search_hob :
  search_book (lit "hob") (lit "Title") (session_of [dune; hobbit])
  = (Return [book_value hobbit], session_of [dune; hobbit]).
Proof. reflexivity. Qed.

(** Scenario: [HOB] in capitals finds the Hobbit entry by title. *)
Lemma search_book_lowered_witness :
  holds (session_of [dune; hobbit]) [dune; hobbit]
  /\ (exists found,
        search_book (lit "HOB") (lit "Title") (session_of [dune; hobbit])
        = (Return (map book_value found), session_of [dune; hobbit])
        /\ selects (fun b => contains_ignoring_case (lit "HOB") (title b))
                   [dune; hobbit] found).
Proof.
  split; [reflexivity|].
  apply (search_book_lowered (session_of [dune; hobbit]) [dune; hobbit]
           (lit "HOB") eq_refl).
  - intros t _. reflexivity.
  - repeat constructor.
  - repeat constructor.
Defined.

(** The title is the Greek word in capitals, the term its last letter, a
    capital sigma: the title contains the term as it stands, yet the
    search by title returns nothing, because [lower] writes the sigma
    that ends a word as a final sigma and the sigma of the term as a
    plain one. *)
Lemma search_book_final_sigma :
  ~ (exists found,
        search_book [931] (lit "Title") (greek_session_of [odos])
        = (Return (map book_value found), greek_session_of [odos])
        /\ selects (fun b => contains_ignoring_case [931] (title b))
                   [odos] found).
Proof.
  intros (found & E & Hsel).
  change (search_book [931] (lit "Title") (greek_session_of [odos]))
    with (@Return (list (@value greek_builtins)) [], greek_session_of [odos])
    in E.
  destruct found as [|b found]; [|discriminate].
  inversion Hsel as [| |x l f Hno _]. subst. apply Hno.
  exists [927; 916; 927], [931], []. split; reflexivity.
Qed.

(** The selector [title] in lower case searches the authors: [tolk] finds
    the Hobbit entry, though no title contains it. *)
Lemma search_book_dispatch_witness :
  holds (session_of [dune; hobbit]) [dune; hobbit]
  /\ lit "title" <> lit "Title"
  /\ search_book (lit "tolk") (lit "title") (session_of [dune; hobbit])
     = search_book (lit "tolk") (lit "Author") (session_of [dune; hobbit]).
Proof.
  split; [reflexivity|]. split; [discriminate|].
  apply (search_book_dispatch (session_of [dune; hobbit]) [dune; hobbit]
           (lit "tolk") (lit "title") eq_refl).
  discriminate.
Defined.

Lemma remove_book_in_range_witness :
  library (session_of [dune; hobbit]) = Some (VList (map book_value [dune; hobbit]))
  /\ (0 <= 0 < Z.of_nat (List.length (map book_value [dune; hobbit])))%Z
  /\ exists before x after,
       map book_value [dune; hobbit] = before ++ x :: after
       /\ List.length before = Z.to_nat 0
       /\ remove_book 0 (session_of [dune; hobbit])
          = (Return true,
             {| library := Some (VList (before ++ after));
                storage := Some (json_dumps (VList (before ++ after)));
                notices := [] |}).
Proof.
  split; [reflexivity|]. split; [simpl; lia|].
  destruct (remove_book_in_range (session_of [dune; hobbit])
              (map book_value [dune; hobbit]) 0 eq_refl ltac:(simpl; lia))
    as (before & x & after & H1 & H2 & H3 & _).
  exists before, x, after. auto.
Defined.

(** Scenario: [remove_book 5] on a library of length 2 returns [False]
    and changes nothing. *)
Lemma remove_book_out_of_range_witness :
  library (session_of [dune; hobbit]) = Some (VList (map book_value [dune; hobbit]))
  /\ (5 < 0 \/ Z.of_nat (List.length (map book_value [dune; hobbit])) <= 5)%Z
  /\ remove_book 5 (session_of [dune; hobbit])
     = (Return false, session_of [dune; hobbit]).
Proof.
  split; [reflexivity|]. split; [right; simpl; lia|].
  apply (remove_book_out_of_range (session_of [dune; hobbit])
           (map book_value [dune; hobbit]) 5 eq_refl).
  right. simpl. lia.
Defined.

Lemma add_book_appends_witness :
  library (session_of [dune]) = Some (VList [book_value dune])
  /\ add (hobbit) (session_of [dune])
     = (Return true,
        {| library := Some (library_value [dune; hobbit]);
           storage := Some (json_dumps (library_value [dune; hobbit]));
           notices := [] |}).
Proof.
  split; [reflexivity|].
  apply (add_book_appends (session_of [dune]) [book_value dune]
           (VStr (title hobbit)) (VStr (author hobbit)) (VInt (year hobbit))
           (VStr (genre hobbit)) (VBool (read hobbit)) eq_refl).
Defined.

Lemma mutation_mirrors_witness :
  (add dune (session_of []) = (Return true, snd (add dune (session_of [])))
   \/ remove_book 0 (session_of [])
      = (Return true, snd (add dune (session_of []))))
  /\ exists l,
       library (snd (add dune (session_of []))) = Some (VList l)
       /\ storage (snd (add dune (session_of [])))
          = Some (json_dumps (VList l)).
Proof.
  split; [left; reflexivity|].
  apply (mutation_mirrors (session_of []) (snd (add dune (session_of []))) 0
           (VStr (title dune)) (VStr (author dune)) (VInt (year dune))
           (VStr (genre dune)) (VBool (read dune))).
  left. reflexivity.
Defined.

(** Scenario: Dune (read), then Hobbit (unread): 2 books, 1 read, 50.0
    percent. *)
Lemma get_statistics_exact_witness :
  holds (session_of [dune; hobbit]) [dune; hobbit]
  /\ library (session_of []) = Some (VList [])
  /\ read dune = true /\ read hobbit = false
  /\ exists st s2,
       (add dune ;; add hobbit ;; get_statistics)%store (session_of [])
       = (Return st, s2)
       /\ total_books st = 2%Z /\ read_books st = 1%Z
       /\ percentage_read st = Float (float_of_int 50).
Proof.
  repeat (split; [reflexivity|]).
  apply (get_statistics_exact (session_of [dune; hobbit]) (session_of [])
           [dune; hobbit] dune hobbit eq_refl eq_refl eq_refl eq_refl).
Defined.

(** One book read of three: the percentage is the binary64 number that
    prints as [33.33333333333333], and seven of twenty-five give the
    number that prints as [28.000000000000004], one unit in the last
    place above [28.0]. *)
Example get_statistics_rounds :
  get_statistics (session_of [dune; hobbit; hobbit])
  = (Return {| total_books := 3; read_books := 1;
               percentage_read := Float (binary64 4691249611844266 (-47)) |},
     session_of [dune; hobbit; hobbit])
  /\ float_mul_int (int_truediv 7 25) 100 = binary64 7881299347898369 (-48)
  /\ float_of_int 28 = binary64 7881299347898368 (-48).
Proof. repeat split; vm_compute; reflexivity. Qed.

(** Scenario: the file holds text that is not JSON; the library starts
    empty, with a warning. *)
Lemma init_warns_on_rejected_text_witness :
  library (starting_with (lit "{not json")) = None
  /\ (exists bytes text,
        storage (starting_with (lit "{not json")) = Some bytes
        /\ read_text utf8_platform bytes = Some text
        /\ limit_reached utf8_platform text = None
        /\ json_loads text = None)
  /\ exists n,
       OnDisk.__init__ utf8_platform (starting_with (lit "{not json"))
       = (Return tt,
          {| library := Some (VList []);
             storage := storage (starting_with (lit "{not json"));
             notices := [n] |}).
Proof.
  assert (exists bytes text,
             storage (starting_with (lit "{not json")) = Some bytes
             /\ read_text utf8_platform bytes = Some text
             /\ limit_reached utf8_platform text = None
             /\ json_loads text = None) as Hfile.
  { exists (lit "{not json"), (lit "{not json").
    repeat split; vm_compute; reflexivity. }
  split; [reflexivity|]. split; [exact Hfile|].
  destruct (init_warns_on_rejected_text utf8_platform
              (starting_with (lit "{not json")) eq_refl (or_intror Hfile))
    as (n & H & _).
  exists n. exact H.
Defined.

(** Two files that are not valid JSON and do not start the session that
    way.  A file whose only byte is [0xFF] is no text at all: the start
    raises [UnicodeDecodeError], which nothing catches, and shows no
    notice.  A file that holds [NaN] is no JSON text by the grammar of
    the standard, yet [json.load] accepts it: the library of the session
    is that float, and no notice is shown. *)
Lemma init_not_degrading :
  OnDisk.__init__ utf8_platform (starting_with [255])
  = (Raise UnicodeDecodeError,
     {| library := Some (VList []); storage := Some [255]; notices := [] |})
  /\ starts_json (lit "NaN") = false
  /\ OnDisk.__init__ utf8_platform (starting_with (lit "NaN"))
     = (Return tt,
        {| library := Some (VFloat (lit "NaN")); storage := Some (lit "NaN");
           notices := [] |}).
Proof. repeat split; vm_compute; reflexivity. Qed.

(** A file of a thousand opening brackets: the start raises
    [RecursionError]. *)
Example init_too_deep :
  OnDisk.__init__ utf8_platform (starting_with (repeat LBRACKET 1000))
  = (Raise RecursionError,
     {| library := Some (VList []);
        storage := Some (repeat LBRACKET 1000); notices := [] |}).
Proof.
  apply init_raises; [reflexivity|reflexivity| |discriminate].
  vm_compute. reflexivity.
Qed.

Lemma is_library_list (v : value) : is_library v -> exists l, v = VList l.
Proof. intros [bs ->]. eexists. reflexivity. Qed.

(** A file that holds a number: the library of the session is that
    number. *)
Lemma init_keeps_any_value_witness :
  library (starting_with (lit "42")) = None
  /\ storage (starting_with (lit "42")) = Some (lit "42")
  /\ json_loads (lit "42") = Some (VInt 42)
  /\ __init__ (starting_with (lit "42"))
     = (Return tt,
        {| library := Some (VInt 42); storage := Some (lit "42");
           notices := [] |}).
Proof.
  repeat (split; [reflexivity|]).
  apply (init_keeps_any_value (starting_with (lit "42")) (lit "42") (VInt 42)
           eq_refl eq_refl eq_refl).
Defined.

(** A string, an object and an array of objects without the keys of a
    book are taken over in the same way; none is a library. *)
Example load_string :
  library (snd (__init__ (starting_with (quoted "abc"))))
  = Some (VStr (lit "abc")).
Proof. reflexivity. Qed.

Example load_object :
  library (snd (__init__ (starting_with
                            (lit "{" ++ quoted "a" ++ lit ": 1}"))))
  = Some (VDict [(lit "a", VInt 1)]).
Proof. reflexivity. Qed.

Example load_incomplete_books :
  library (snd (__init__ (starting_with
                            (lit "[{" ++ quoted "title" ++ lit ": "
                             ++ quoted "Dune" ++ lit "}]"))))
  = Some (VList [VDict [(lit "title", VStr (lit "Dune"))]])
  /\ ~ is_library (VList [VDict [(lit "title", VStr (lit "Dune"))]]).
Proof.
  split; [reflexivity|].
  intros [[|b [|b' bs]] E]; discriminate.
Qed.

Lemma persist_reload_identity_witness :
  holds (session_of [dune; hobbit]) [dune; hobbit]
  /\ forallb unpaired_book [dune; hobbit] = true
  /\ persist_reload (session_of [dune; hobbit])
     = (Return tt,
        {| library := Some (library_value [dune; hobbit]);
           storage := Some (json_dumps (library_value [dune; hobbit]));
           notices := [] |}).
Proof.
  repeat (split; [reflexivity|]).
  apply (persist_reload_identity (session_of [dune; hobbit]) [dune; hobbit]
           eq_refl eq_refl).
Defined.

(** C4 as stated fails: a title made of a high surrogate and a low
    surrogate is written as two escapes, which [json.load] reads as the
    one character they encode; the book that comes back is another one. *)
Lemma persist_reload_joins_surrogates :
  holds (session_of [split_title]) [split_title]
  /\ library (snd (persist_reload (session_of [split_title])))
     = Some (library_value [joined_title])
  /\ library_value [joined_title] <> library_value [split_title].
Proof.
  split; [reflexivity|]. split; [reflexivity|]. discriminate.
Qed.

(** * Further properties of the store *)

Section StoreProperties.
Context {B : Builtins}.

(** X1. [add_book] is all or nothing: either the library is a list, the
    record is appended, the file rewritten and [True] returned, or the
    call raises [AttributeError] and the session, file included, is as it
    was.  It never returns [False]. *)
Theorem add_book_all_or_nothing (s : session)
    (title_ author_ year_ genre_ read_ : value) :
  let book := VDict [(lit "title", title_); (lit "author", author_);
                     (lit "year", year_); (lit "genre", genre_);
                     (lit "read", read_)] in
  (exists l,
      library s = Some (VList l)
      /\ add_book title_ author_ year_ genre_ read_ s
         = (Return true,
            {| library := Some (VList (l ++ [book]));
               storage := Some (json_dumps (VList (l ++ [book])));
               notices := notices s |}))
  \/ add_book title_ author_ year_ genre_ read_ s = (Raise AttributeError, s).
Proof.
  intros book.
  destruct (library s) as [v|] eqn:Ev.
  2:{ right. unfold add_book, bind, get_library. now rewrite Ev. }
  destruct v as [ | b | z | f | t | l | d ];
    try (right; unfold add_book, bind, get_library, lift; now rewrite Ev).
  left. exists l. split; [reflexivity|].
  apply (add_book_list _ _ _ _ _ s l Ev).
Qed.

(** X2. [remove_book] changes the session only when it returns [True]:
    every call either returns [False] or raises with the session as it
    was, or finds a list with the index in range and removes that entry.
    A negative index returns [False] in every session. *)
Theorem remove_book_all_or_nothing (s : session) (i : Z) :
  (remove_book i s = (Return false, s)
   \/ (exists e, remove_book i s = (Raise e, s))
   \/ (exists l,
         library s = Some (VList l)
         /\ (0 <= i < Z.of_nat (List.length l))%Z
         /\ remove_book i s
            = (Return true,
               {| library := Some (VList (remove_at (Z.to_nat i) l));
                  storage :=
                    Some (json_dumps (VList (remove_at (Z.to_nat i) l)));
                  notices := notices s |})))
  /\ ((i < 0)%Z -> remove_book i s = (Return false, s)).
Proof.
  split.
  2:{ intros Hi. unfold remove_book.
      assert ((0 <=? i)%Z = false) as -> by (apply Z.leb_gt; lia).
      reflexivity. }
  destruct (0 <=? i)%Z eqn:E0.
  2:{ left. unfold remove_book. now rewrite E0. }
  destruct (library s) as [v|] eqn:Ev.
  2:{ right. left. exists AttributeError.
      unfold remove_book, bind, get_library. now rewrite E0, Ev. }
  destruct v as [ | b | z | f | t | l | d ].
  1-4: right; left; exists TypeError;
       unfold remove_book, bind, get_library, lift; now rewrite E0, Ev.
  - destruct (i <? Z.of_nat (List.length t))%Z eqn:Ei.
    + right. left. exists AttributeError.
      unfold remove_book, bind, get_library, lift.
      rewrite E0, Ev. cbn [py_len]. rewrite Ei, Ev. reflexivity.
    + left. unfold remove_book, bind, get_library, lift, ret.
      rewrite E0, Ev. cbn [py_len]. now rewrite Ei.
  - apply Z.leb_le in E0.
    destruct (Z.ltb_spec i (Z.of_nat (List.length l))) as [Hlt|Hge].
    + right. right. exists l. repeat split; auto.
      now apply remove_book_list.
    + left. apply (remove_book_outside s l i Ev). now right.
  - destruct (i <? Z.of_nat (List.length d))%Z eqn:Ei.
    + right. left. exists KeyError.
      unfold remove_book, bind, get_library, lift.
      rewrite E0, Ev. cbn [py_len]. rewrite Ei, Ev. reflexivity.
    + left. unfold remove_book, bind, get_library, lift, ret.
      rewrite E0, Ev. cbn [py_len]. now rewrite Ei.
Qed.

Lemma queries_keep_session (s : session) (term by_ : str) :
  snd (search_book term by_ s) = s /\ snd (get_statistics s) = s.
Proof.
  split.
  - unfold search_book.
    destruct (str_eqb by_ (lit "Title"));
      unfold bind, get_library, lift;
      (destruct (library s) as [v|]; [|reflexivity]);
      (destruct (py_iter v) as [books|]; [|reflexivity]);
      now destruct (select _ _ books).
  - unfold get_statistics, bind, get_library, lift, ret.
    destruct (library s) as [v|] eqn:Ev; [|reflexivity].
    destruct (py_len v) as [n|]; [|reflexivity]. rewrite Ev.
    destruct (py_iter v) as [books|]; [|reflexivity].
    now destruct (count_read books).
Qed.

(** X3. The queries are read-only: whatever the session holds and
    however they end, [search_book] and [get_statistics] leave the
    library, the file and the notices as they were. *)
Theorem queries_read_only (s : session) (term by_ : str) :
  snd (search_book term by_ s) = s /\ snd (get_statistics s) = s.
Proof. apply queries_keep_session. Qed.




(** X5. Adding a book and then removing the last position gives back the
    library there was, and the file holds its dump. *)
Theorem add_then_remove_last (s : session) (l : list value)
    (title_ author_ year_ genre_ read_ : value) :
  library s = Some (VList l) ->
  (add_book title_ author_ year_ genre_ read_ ;;
   remove_book (Z.of_nat (List.length l)))%store s
  = (Return true,
     {| library := Some (VList l);
        storage := Some (json_dumps (VList l));
        notices := notices s |}).
Proof.
  intros H. unfold bind at 1.
  rewrite (add_book_list _ _ _ _ _ s l H). cbv zeta.
  set (book := VDict _).
  set (s1 := {| library := _; storage := _; notices := _ |}).
  rewrite (remove_book_list s1 (l ++ [book]) (Z.of_nat (List.length l)) eq_refl).
  2:{ rewrite length_app. simpl. lia. }
  subst s1. cbn [notices]. rewrite Nat2Z.id. unfold remove_at.
  rewrite firstn_app, firstn_all, Nat.sub_diag. cbn [firstn].
  rewrite skipn_all2 by (rewrite length_app; simpl; lia).
  now rewrite !app_nil_r.
Qed.

(** X6. After a book is added, the statistics count one book more, and
    one read book more exactly when the new book is read. *)
Theorem add_then_statistics (s : session) (bs : list book) (b : book) :
  holds s bs ->
  exists st s',
    (add b ;; get_statistics)%store s = (Return st, s')
    /\ total_books st = (Z.of_nat (List.length bs) + 1)%Z
    /\ read_books st
       = (Z.of_nat (List.length (filter read bs))
          + (if read b then 1 else 0))%Z.
Proof.
  intros H. unfold add, bind at 1.
  rewrite (add_book_list _ _ _ _ _ s (map book_value bs) H). cbv zeta.
  set (s1 := {| library := _; storage := _; notices := _ |}).
  assert (holds s1 (bs ++ [b])) as H1.
  { unfold holds, library_value. now rewrite map_app. }
  rewrite (get_statistics_books s1 _ H1). eexists. eexists.
  split; [reflexivity|]. cbn [total_books read_books].
  rewrite filter_app, !length_app. cbn [filter List.length].
  destruct (read b); cbn [List.length]; lia.
Qed.

(** X7. After a book is added, a search returns what it returned before,
    followed by the new book exactly when the new book passes the test of
    the search: the lower-cased term occurs in its lower-cased title (its
    lower-cased author, for any selector other than [Title]). *)
Theorem add_then_search (s : session) (bs : list book) (b : book)
    (term by_ : str) :
  holds s bs ->
  exists found more s',
    search_book term by_ s = (Return found, s)
    /\ (add b ;; search_book term by_)%store s = (Return (found ++ more), s')
    /\ (more = [book_value b] \/ more = [])
    /\ (more = [book_value b] <->
        contains_ci term (if str_eqb by_ (lit "Title")
                          then title b else author b)).
Proof.
  intros H. unfold add, bind at 1.
  rewrite (add_book_list _ _ _ _ _ s (map book_value bs) H). cbv zeta.
  set (s1 := {| library := _; storage := _; notices := _ |}).
  assert (holds s1 (bs ++ [b])) as H1.
  { unfold holds, library_value. now rewrite map_app. }
  destruct (str_eqb by_ (lit "Title")) eqn:E.
  - apply str_eqb_eq in E. subst by_.
    rewrite (search_book_title term s bs H).
    rewrite (search_book_title term s1 _ H1).
    rewrite filter_app, map_app. cbn [filter].
    eexists. eexists. eexists. split; [reflexivity|].
    split; [reflexivity|]. rewrite <- contains_ci_in.
    destruct (str_in (str_lower term) (str_lower (title b))); simpl.
    + split; [now left|]. tauto.
    + split; [now right|]. split; discriminate.
  - assert (by_ <> lit "Title") as Hne.
    { intros ->. now rewrite str_eqb_refl in E. }
    rewrite (search_book_other term by_ s bs Hne H).
    rewrite (search_book_other term by_ s1 _ Hne H1).
    rewrite filter_app, map_app. cbn [filter].
    eexists. eexists. eexists. split; [reflexivity|].
    split; [reflexivity|]. rewrite <- contains_ci_in.
    destruct (str_in (str_lower term) (str_lower (author b))); simpl.
    + split; [now left|]. tauto.
    + split; [now right|]. split; discriminate.
Qed.

Lemma search_book_field (s : session) (bs : list book) (term by_ : str) :
  holds s bs ->
  search_book term by_ s
  = (Return
       (map book_value
          (filter
             (fun b =>
                str_in (str_lower term)
                  (str_lower (if str_eqb by_ (lit "Title")
                              then title b else author b)))
             bs)), s).
Proof.
  intros H. destruct (str_eqb by_ (lit "Title")) eqn:E.
  - apply str_eqb_eq in E. subst by_. now apply search_book_title.
  - apply search_book_other; [|exact H].
    intros ->. now rewrite str_eqb_refl in E.
Qed.

Lemma select_missing_key term field bs d rest :
  field = lit "title" \/ field = lit "author" ->
  dict_get field d = None ->
  select term field (map book_value bs ++ VDict d :: rest) = Raise KeyError.
Proof.
  intros Hf Hd. induction bs as [|b bs IH].
  - cbn [map List.app select py_getitem]. now rewrite Hd.
  - cbn [map List.app select]. rewrite IH.
    destruct Hf as [-> | ->]; reflexivity.
Qed.

(** X8. One entry without the searched key spoils the whole search: when
    the entries before it are book records and it is a dict that lacks
    [title] (or [author], for any selector other than [Title]),
    [search_book] raises [KeyError], returns no partial result and leaves
    the session as it was. *)
Theorem search_book_missing_key (s : session) (bs : list book)
    (d : list (str * value)) (rest : list value) (term by_ : str) :
  library s = Some (VList (map book_value bs ++ VDict d :: rest)) ->
  dict_get (if str_eqb by_ (lit "Title") then lit "title" else lit "author") d
  = None ->
  search_book term by_ s = (Raise KeyError, s).
Proof.
  intros H Hd. unfold search_book.
  destruct (str_eqb by_ (lit "Title")); unfold bind, get_library, lift;
    rewrite H; cbn [py_iter]; rewrite select_missing_key; auto.
Qed.

(** X9. What is added is there after a restart: when the books of the
    library and the new book have no high surrogate directly before a low
    one, a fresh session started on the file that [add_book] wrote holds
    the old books followed by the new one, and shows no notice. *)
Theorem add_survives_restart (s : session) (bs : list book) (b : book) :
  holds s bs ->
  forallb unpaired_book (bs ++ [b]) = true ->
  __init__ {| library := None; storage := storage (snd (add b s));
              notices := [] |}
  = (Return tt,
     {| library := Some (library_value (bs ++ [b]));
        storage := Some (json_dumps (library_value (bs ++ [b])));
        notices := [] |}).
Proof.
  intros H Hu. unfold add.
  rewrite (add_book_list _ _ _ _ _ s (map book_value bs) H). cbv zeta.
  cbn [snd storage].
  change (VList (map book_value bs ++ [_]))
    with (VList (map book_value bs ++ map book_value [b])).
  rewrite <- map_app. fold (library_value (bs ++ [b])).
  unfold __init__, bind, set_library, load_library.
  cbn [library storage notices].
  now rewrite (json_loads_dumps _ (unpaired_library_plain _ Hu)).
Qed.

(** X10. Starting the store twice is starting it once: on a rerun the
    library of the session is kept, the file is not read again and no
    notice is repeated. *)
Theorem init_idempotent (s : session) :
  (__init__ ;; __init__)%store s = __init__ s.
Proof.
  unfold bind at 1. unfold __init__ at 1 3.
  destruct (library s) as [v|] eqn:Ev.
  - unfold __init__. now rewrite Ev.
  - unfold bind, set_library, load_library. cbn [library storage notices].
    destruct (storage s) as [text|]; [destruct (json_loads text)|];
      reflexivity.
Qed.

(** X11. A file that [json.load] rejects with [json.JSONDecodeError] is
    lost at the next change: after a start on a file whose bytes are read
    as such a text, the first [add_book] replaces the file by the dump of
    the library that holds the new book alone. *)
Theorem corrupt_file_overwritten (P : platform) (s : session)
    (bytes text : str) (title_ author_ year_ genre_ read_ : value) :
  library s = None ->
  storage s = Some bytes ->
  read_text P bytes = Some text ->
  limit_reached P text = None ->
  json_loads text = None ->
  let book := VDict [(lit "title", title_); (lit "author", author_);
                     (lit "year", year_); (lit "genre", genre_);
                     (lit "read", read_)] in
  (OnDisk.__init__ P ;; add_book title_ author_ year_ genre_ read_)%store s
  = (Return true,
     {| library := Some (VList [book]);
        storage := Some (json_dumps (VList [book]));
        notices :=
          notices s
          ++ [StError
                "Error loading library file. Starting with an empty library."]
     |}).
Proof.
  intros Hl Hs Hr Hlim Hj book. unfold bind at 1.
  rewrite (init_rejected P s bytes text Hl Hs Hr Hlim Hj).
  set (s1 := {| library := _; storage := _; notices := _ |}).
  now rewrite (add_book_list _ _ _ _ _ s1 [] eq_refl).
Qed.

Lemma filter_filter_impl {A : Type} (p q : A -> bool) l :
  (forall x, q x = true -> p x = true) ->
  filter q (filter p l) = filter q l.
Proof.
  intros Hpq. induction l as [|x l IH]; [reflexivity|]. cbn [filter].
  destruct (p x) eqn:Ep; cbn [filter].
  - now rewrite IH.
  - destruct (q x) eqn:Eq; [|exact IH].
    apply Hpq in Eq. congruence.
Qed.

Lemma contains_ci_trans (t1 t2 field : str) :
  contains_ci t1 t2 -> contains_ci t2 field -> contains_ci t1 field.
Proof.
  intros (p & q & E1) (p' & q' & E2). exists (p' ++ p), (q ++ q').
  rewrite E2, E1, <- !app_assoc. reflexivity.
Qed.

(** X12. A longer term narrows the search: when the lower-cased [t1]
    occurs in the lower-cased [t2], searching [t2] returns exactly what
    the test of the search for [t2] selects among the results for [t1],
    so every result for [t2] is a result for [t1], in the same order. *)
Theorem search_book_narrows (s : session) (bs : list book) (t1 t2 by_ : str) :
  holds s bs ->
  contains_ci t1 t2 ->
  exists found1 found2,
    search_book t1 by_ s = (Return (map book_value found1), s)
    /\ search_book t2 by_ s = (Return (map book_value found2), s)
    /\ selects (fun b => contains_ci t2 (if str_eqb by_ (lit "Title")
                                         then title b else author b))
               found1 found2.
Proof.
  intros H H12.
  set (p := fun t b => str_in (str_lower t)
                         (str_lower (if str_eqb by_ (lit "Title")
                                     then title b else author b))).
  exists (filter (p t1) bs), (filter (p t2) bs).
  split; [apply (search_book_field s bs t1 by_ H)|].
  split; [apply (search_book_field s bs t2 by_ H)|].
  rewrite <- (filter_filter_impl (p t1) (p t2) bs).
  - apply selects_filter. intros b. apply contains_ci_in.
  - intros b Hb. apply contains_ci_in. apply contains_ci_in in Hb.
    now apply contains_ci_trans with t2.
Qed.

End StoreProperties.

(** * What the store reads back from its own file *)

Lemma lowpair_text c t :
  c < 1114112 -> is_low_surrogate c = false ->
  lowpair (escape_char c ++ t) = false.
Proof. apply lowpair_escape_char. Qed.

Lemma escape_char_surrogate c :
  is_high_surrogate c = true \/ is_low_surrogate c = true ->
  escape_char c = escape_u c /\ c < 65536.
Proof.
  unfold is_high_surrogate, is_low_surrogate, escape_char.
  rewrite !andb_true_iff, !N.leb_le. intros Hc.
  assert (55296 <= c <= 57343) as Hr by lia. clear Hc.
  repeat match goal with
         | |- context [c =? ?k] =>
           destruct (N.eqb_spec c k) as [->|_]; [exfalso; lia|]
         end.
  assert ((32 <=? c) && (c <=? 126) = false) as ->.
  { apply andb_false_iff. right. apply N.leb_gt. lia. }
  assert ((c <? 65536) = true) as -> by (apply N.ltb_lt; lia).
  split; [reflexivity | lia].
Qed.

(** Whatever [json.dump] writes for a string of code points,
    [scanstring] reads the string with its surrogate pairs joined. *)
Lemma scanstring_joins n :
  forall s rest,
    (List.length s <= n)%nat ->
    code_points s = true ->
    scanstring (flat_map escape_char s ++ QUOTE :: rest)
    = Parsed (join_pairs s) rest.
Proof.
  induction n as [|n IH]; intros s rest Hn Hs.
  { destruct s; [reflexivity | simpl in Hn; lia]. }
  destruct s as [|c r]; [reflexivity|].
  cbn [List.length] in Hn. unfold code_points in Hs. cbn [forallb] in Hs.
  apply andb_true_iff in Hs. destruct Hs as [Hc Hr]. apply N.ltb_lt in Hc.
  fold (code_points r) in Hr.
  cbn [flat_map join_pairs]. rewrite <- app_assoc.
  destruct r as [|d r'].
  - rewrite scanstring_escape_char; [reflexivity | exact Hc |].
    intros _. now apply lowpair_other.
  - unfold code_points in Hr. cbn [forallb] in Hr.
    apply andb_true_iff in Hr. destruct Hr as [Hd Hr'].
    fold (code_points r') in Hr'. cbn [List.length] in Hn.
    destruct (is_high_surrogate c && is_low_surrogate d) eqn:E.
    + apply andb_true_iff in E. destruct E as [Eh El].
      destruct (escape_char_surrogate c (or_introl Eh)) as [-> Hc16].
      cbn [flat_map]. rewrite <- app_assoc.
      destruct (escape_char_surrogate d (or_intror El)) as [-> Hd16].
      unfold escape_u at 1 2. cbn [List.app].
      rewrite (scanstring_pair c d); auto using hex4_escape.
      rewrite (IH r' rest); [reflexivity | lia | exact Hr'].
    + rewrite scanstring_escape_char; [|exact Hc|].
      * rewrite (IH (d :: r') rest); [reflexivity | simpl; lia |].
        unfold code_points. cbn [forallb]. now rewrite Hd.
      * intros Eh. rewrite Eh in E. cbn [andb] in E.
        cbn [flat_map]. rewrite <- app_assoc.
        apply lowpair_text; [now apply N.ltb_lt | exact E].
Qed.

Lemma scanstring_reloaded s rest :
  code_points s = true ->
  scanstring (flat_map escape_char s ++ QUOTE :: rest)
  = Parsed (join_pairs s) rest.
Proof. apply (scanstring_joins (List.length s)). lia. Qed.

(** A string without such a pair is read back as it is. *)
Lemma join_pairs_unpaired s : unpaired s = true -> join_pairs s = s.
Proof.
  induction s as [|c r IH]; [reflexivity|].
  cbn [unpaired join_pairs]. rewrite !andb_true_iff, negb_true_iff.
  intros [[_ Hn] Hr]. destruct r as [|d r']; [reflexivity|].
  rewrite Hn. now rewrite (IH Hr).
Qed.

Section Reloads.
Context {B : Builtins}.

Lemma dumps_start_storable v rest :
  storable v -> value_start (json_dumps v ++ rest) = true.
Proof.
  destruct v as [ | [|] | [|p|p] | f | s | l | d ]; simpl; try reflexivity;
    try contradiction; intros _.
  - destruct (pos_chars p) as (c & t & E & Hc & _).
    change (N.to_uint (N.pos p)) with (Pos.to_uint p).
    rewrite E. now apply value_start_digit.
Qed.

Lemma items_start_storable y l rest :
  storable y ->
  value_start (join (lit ", ") (map json_dumps (y :: l)) ++ rest) = true.
Proof.
  intros Hy. cbn [map].
  destruct (join_start (lit ", ") (json_dumps y) (map json_dumps l) rest)
    as (t & ->).
  now apply dumps_start_storable.
Qed.

Lemma parse_items_reads fuel x l :
  Forall (fun y => storable y /\ reads_as y (reloaded y)
                   /\ (size y <= fuel)%nat) (x :: l) ->
  forall k rest,
    (List.length (x :: l) <= k)%nat ->
    parse_items (scan_once fuel) k
      (join (lit ", ") (map json_dumps (x :: l)) ++ RBRACKET :: rest)
    = Parsed (map reloaded (x :: l)) rest.
Proof.
  revert x. induction l as [|y l IH]; intros x Hall k rest Hk.
  - inversion Hall as [|? ? (_ & Hx & Hs) _]; subst.
    destruct k as [|k]; [simpl in Hk; lia|].
    cbn [map join parse_items]. rewrite Hx by auto. reflexivity.
  - inversion Hall as [|? ? (_ & Hx & Hs) Hrest]; subst.
    destruct k as [|k]; [simpl in Hk; lia|].
    change (join (lit ", ") (map json_dumps (x :: y :: l)))
      with (json_dumps x ++ lit ", " ++ join (lit ", ") (map json_dumps (y :: l))).
    rewrite <- !app_assoc. cbn [parse_items].
    change (lit ", " ++ ?t) with (COMMA :: SPACE :: t).
    rewrite Hx by auto.
    cbn [skip_ws is_ws N.eqb Pos.eqb orb].
    rewrite skip_ws_start
      by (apply items_start_storable; now inversion Hrest as [|? ? (Hy & _) _]).
    rewrite IH; [reflexivity | exact Hrest | simpl in *; lia].
Qed.

Lemma parse_member_reads fuel k key x after :
  code_points key = true -> storable x -> reads_as x (reloaded x) ->
  (size x <= fuel)%nat -> closes after = true ->
  parse_pairs (scan_once fuel) (S k)
    ((encode_str key ++ lit ": " ++ json_dumps x) ++ after)
  = match after with
    | c :: r =>
      if c =? COMMA then
        parsed_map (cons (join_pairs key, reloaded x))
                   (parse_pairs (scan_once fuel) k (skip_ws r))
      else if c =? RBRACE then Parsed [(join_pairs key, reloaded x)] r
      else Malformed
    | [] => Malformed
    end.
Proof.
  intros Hu Hp Hx Hs Hc. rewrite member_text.
  cbn [parse_pairs N.eqb Pos.eqb].
  rewrite (scanstring_reloaded key _ Hu).
  cbn [skip_ws is_ws N.eqb Pos.eqb orb].
  rewrite skip_ws_start by now apply dumps_start_storable.
  rewrite Hx by auto.
  destruct after as [|c r]; [reflexivity|].
  assert (is_ws c = false) as Hw.
  { unfold closes in Hc. rewrite !orb_true_iff, !N.eqb_eq in Hc.
    destruct Hc as [[->| ->]| ->]; reflexivity. }
  cbn [skip_ws]. rewrite Hw. reflexivity.
Qed.

Lemma parse_pairs_reads fuel kx d :
  Forall (fun kv => code_points (fst kv) = true /\ storable (snd kv)
                    /\ reads_as (snd kv) (reloaded (snd kv))
                    /\ (size (snd kv) <= fuel)%nat)
         (kx :: d) ->
  forall k rest,
    (List.length (kx :: d) <= k)%nat ->
    parse_pairs (scan_once fuel) k
      (join (lit ", ")
         (map (fun '(k, x) => encode_str k ++ lit ": " ++ json_dumps x)
              (kx :: d))
       ++ RBRACE :: rest)
    = Parsed (map (fun '(k, x) => (join_pairs k, reloaded x)) (kx :: d)) rest.
Proof.
  revert kx. induction d as [|[key' y] d IH]; intros [key x] Hall k rest Hk.
  - inversion Hall as [|? ? (Hu & Hp & Hx & Hs) _]; subst.
    destruct k as [|k]; [simpl in Hk; lia|].
    cbn [map join]. cbn [fst snd] in *.
    rewrite parse_member_reads by auto. reflexivity.
  - inversion Hall as [|? ? (Hu & Hp & Hx & Hs) Hrest]; subst.
    destruct k as [|k]; [simpl in Hk; lia|].
    cbn [map]. rewrite join_two. cbn [fst snd] in *.
    rewrite <- (app_assoc (encode_str key ++ lit ": " ++ json_dumps x)).
    rewrite <- (app_assoc (lit ", ")).
    change (lit ", " ++ ?t) with (COMMA :: SPACE :: t).
    rewrite parse_member_reads by auto.
    cbn [skip_ws is_ws N.eqb Pos.eqb orb].
    rewrite skip_ws_start.
    + transitivity
        (parsed_map (cons (join_pairs key, reloaded x))
           (Parsed (map (fun '(k, x) => (join_pairs k, reloaded x))
                        ((key', y) :: d)) rest));
        [|reflexivity].
      apply f_equal. apply (IH (key', y) Hrest k rest). simpl in *; lia.
    + destruct (join_start (lit ", ")
                  (encode_str key' ++ lit ": " ++ json_dumps y)
                  (map (fun '(k, x) => encode_str k ++ lit ": " ++ json_dumps x) d)
                  (RBRACE :: rest)) as (t & ->).
      reflexivity.
Qed.

Lemma scan_once_reads v : storable v -> reads_as v (reloaded v).
Proof.
  induction v as [ | b | z | f | s | l IH | d IH ] using value_ind;
    intros Hp fuel rest Hf Hc;
    (destruct fuel as [|fuel]; [simpl in Hf; lia|]).
  - reflexivity.
  - destruct b; reflexivity.
  - now apply scan_once_int.
  - contradiction.
  - cbn [storable] in Hp. cbn [json_dumps reloaded]. unfold encode_str.
    cbn [List.app]. rewrite <- app_assoc. rewrite scan_once_quote.
    cbn [List.app]. now rewrite scanstring_reloaded.
  - destruct l as [|x l]; [reflexivity|].
    cbn [json_dumps]. cbn [List.app]. rewrite <- app_assoc. cbn [List.app].
    assert (Forall storable (x :: l)) as Hall.
    { clear - Hp. cbn [storable] in Hp. revert Hp.
      generalize (x :: l). intros l0. induction l0; simpl; intros H;
        constructor; tauto. }
    cbn [size] in Hf. apply le_S_n in Hf.
    destruct (sizes_list _ _ Hf) as [Hsz Hlen].
    rewrite scan_once_bracket.
    rewrite skip_ws_start by (apply items_start_storable; now inversion Hall).
    destruct (value_start_head _ (items_start_storable x l (RBRACKET :: rest)
                                    ltac:(now inversion Hall)))
      as (c & r & E & Hc1 & _).
    rewrite E at 1. rewrite Hc1.
    rewrite parse_items_reads; [reflexivity | | exact Hlen].
    rewrite Forall_forall in *. intros y Hy. auto.
  - destruct d as [|[key x] d]; [reflexivity|].
    cbn [json_dumps]. cbn [List.app]. rewrite <- app_assoc. cbn [List.app].
    cbn [storable] in Hp.
    assert (Forall (fun kv => code_points (fst kv) = true /\ storable (snd kv))
                   ((key, x) :: d)) as Hall.
    { clear - Hp. revert Hp.
      generalize ((key, x) :: d). intros l0. induction l0; simpl; intros H;
        constructor; tauto. }
    cbn [size] in Hf. apply le_S_n in Hf.
    destruct (sizes_dict _ _ Hf) as [Hsz Hlen].
    rewrite scan_once_brace.
    set (T := join (lit ", ") _ ++ RBRACE :: rest).
    assert (value_start T = true) as Hst.
    { subst T. destruct d as [|[key' y] d]; reflexivity. }
    rewrite skip_ws_start by exact Hst.
    destruct (value_start_head _ Hst) as (c & r & E & _ & Hc2).
    rewrite E at 1. rewrite Hc2. subst T.
    transitivity
      (parsed_map (fun ps => VDict (dict_of_pairs ps))
         (Parsed (map (fun '(k, x) => (join_pairs k, reloaded x))
                      ((key, x) :: d)) rest));
      [|reflexivity].
    apply f_equal. apply parse_pairs_reads; [|exact Hlen].
    rewrite Forall_forall in *. intros kv Hkv.
    destruct (Hall kv Hkv). auto.
Qed.

Lemma size_le_dumps_storable v :
  storable v -> (size v <= List.length (json_dumps v))%nat.
Proof.
  induction v as [ | b | z | f | s | l IH | d IH ] using value_ind; intros Hp.
  - simpl. lia.
  - destruct b; simpl; lia.
  - destruct z as [|p|p]; cbn [size json_dumps int_str]; try (simpl; lia).
    change (N.to_uint (Z.to_N (Z.pos p))) with (Pos.to_uint p).
    destruct (pos_chars p) as (c & t & -> & _). simpl. lia.
  - contradiction.
  - cbn [size json_dumps]. unfold encode_str. simpl. lia.
  - cbn [size json_dumps]. cbn [List.length]. rewrite length_app.
    pose proof (length_join_ge (lit ", ") (map json_dumps l)) as Hj.
    enough (fold_right (fun x n => size x + n) 0 l
            <= fold_right (fun x n => List.length x + n) 0 (map json_dumps l))%nat
      by (cbn [List.length]; unfold str in *; lia).
    clear Hj. cbn [storable] in Hp. revert Hp.
    induction IH as [|x l Hx _ IHl]; simpl; intros Hp; [lia|].
    destruct Hp as [Hpx Hpl]. specialize (Hx Hpx). specialize (IHl Hpl). lia.
  - cbn [size json_dumps]. cbn [List.length]. rewrite length_app.
    pose proof (length_join_ge (lit ", ")
      (map (fun '(k, x) => encode_str k ++ lit ": " ++ json_dumps x) d)) as Hj.
    enough (fold_right (fun kv n => size (snd kv) + n) 0 d
            <= fold_right (fun x n => List.length x + n) 0
                 (map (fun '(k, x) => encode_str k ++ lit ": " ++ json_dumps x) d))%nat
      by (cbn [List.length]; unfold str in *; lia).
    clear Hj. cbn [storable] in Hp. revert Hp.
    induction IH as [|[k x] d Hx _ IHd]; intros Hp;
      cbn [map fold_right fst snd] in *; [lia|].
    destruct Hp as (_ & Hpx & Hpd). specialize (Hx Hpx). specialize (IHd Hpd).
    rewrite !length_app. unfold str in *. lia.
Qed.

(** The dump of a storable value is always valid JSON, and loads as the
    value with its surrogate pairs joined. *)
Lemma json_loads_dumps_storable v :
  storable v -> json_loads (json_dumps v) = Some (reloaded v).
Proof.
  intros Hp. unfold json_loads.
  rewrite <- (app_nil_r (json_dumps v)) at 2.
  rewrite skip_ws_start by now apply dumps_start_storable.
  rewrite (scan_once_reads v Hp); [reflexivity | | reflexivity].
  apply Nat.le_trans with (List.length (json_dumps v)); [|lia].
  now apply size_le_dumps_storable.
Qed.

End Reloads.

Ltac closed_printable :=
  cbv - [printable];
  repeat (apply Forall_cons; [unfold printable; lia|]); apply Forall_nil.

Lemma hex_digit_printable d : d < 16 -> printable (hex_digit d).
Proof.
  unfold hex_digit, printable. intros Hd.
  destruct (N.ltb_spec d 10); lia.
Qed.

Lemma escape_u_printable n : n < 65536 -> Forall printable (escape_u n).
Proof.
  intros Hn. unfold escape_u.
  assert (n / 4096 < 16) by now apply N.Div0.div_lt_upper_bound.
  assert (forall m, m mod 16 < 16) by (intros; apply N.mod_lt; discriminate).
  repeat apply Forall_cons; try apply Forall_nil;
    try (unfold printable; lia); now apply hex_digit_printable.
Qed.

Lemma escape_char_printable c : c < 1114112 -> Forall printable (escape_char c).
Proof.
  intros Hc. unfold escape_char.
  repeat match goal with
         | |- context [c =? ?k] =>
           destruct (N.eqb_spec c k) as [->|_];
             [closed_printable|]
         end.
  destruct ((32 <=? c) && (c <=? 126)) eqn:Hr.
  - apply andb_true_iff in Hr. rewrite !N.leb_le in Hr.
    constructor; [exact Hr | constructor].
  - destruct (N.ltb_spec c 65536) as [Hs|Hs].
    + now apply escape_u_printable.
    + destruct (surrogate_pair_of c Hs Hc) as (Hh & Hl & _).
      apply Forall_app. split; now apply escape_u_printable.
Qed.

Lemma encode_str_printable s :
  code_points s = true -> Forall printable (encode_str s).
Proof.
  intros Hs. unfold encode_str. constructor; [unfold printable; lia|].
  apply Forall_app. split; [|closed_printable].
  induction s as [|c r IH]; [constructor|].
  unfold code_points in Hs. cbn [forallb] in Hs.
  apply andb_true_iff in Hs. destruct Hs as [Hc Hr].
  cbn [flat_map]. apply Forall_app. split.
  - apply escape_char_printable. now apply N.ltb_lt.
  - now apply IH.
Qed.

Lemma uint_chars_printable u : Forall printable (uint_chars u).
Proof.
  induction u; simpl; constructor; auto; unfold printable; lia.
Qed.

Lemma int_str_printable z : Forall printable (int_str z).
Proof.
  destruct z; unfold int_str; try apply uint_chars_printable.
  constructor; [unfold printable; lia | apply uint_chars_printable].
Qed.

Lemma join_printable (sep : str) items :
  Forall printable sep -> Forall (Forall printable) items ->
  Forall printable (join sep items).
Proof.
  intros Hsep Hall. induction Hall as [|x items Hx Hitems IH]; [constructor|].
  destruct items as [|y items]; [exact Hx|].
  rewrite join_two. apply Forall_app. split; [exact Hx|].
  apply Forall_app. split; [exact Hsep | exact IH].
Qed.

Lemma separator_printable : Forall printable (lit ", ").
Proof. closed_printable. Qed.

Section WrittenText.
Context {B : Builtins}.

(** What [json.dump] writes for a storable value is printable ASCII. *)
Lemma json_dumps_printable v : storable v -> Forall printable (json_dumps v).
Proof.
  induction v as [ | b | z | f | s | l IH | d IH ] using value_ind; intros Hp.
  - closed_printable.
  - destruct b; closed_printable.
  - apply int_str_printable.
  - contradiction.
  - now apply encode_str_printable.
  - cbn [json_dumps]. constructor; [unfold printable; lia|].
    apply Forall_app. split; [|closed_printable].
    apply join_printable; [apply separator_printable|].
    cbn [storable] in Hp. revert Hp.
    induction IH as [|x l Hx _ IHl]; cbn [map fold_right]; intros Hp;
      constructor; tauto.
  - cbn [json_dumps]. constructor; [unfold printable; lia|].
    apply Forall_app. split; [|closed_printable].
    apply join_printable; [apply separator_printable|].
    cbn [storable] in Hp. revert Hp.
    induction IH as [|[k x] d Hx _ IHd]; cbn [map fold_right fst snd];
      intros Hp; constructor; try tauto.
    destruct Hp as (Hk & Hpx & _).
    apply Forall_app. split; [now apply encode_str_printable|].
    apply Forall_app. split;
      [closed_printable | now apply Hx].
Qed.

Lemma reloaded_book_value b : reloaded (book_value b) = book_value (reloaded_book b).
Proof. reflexivity. Qed.

Lemma reloaded_library bs :
  reloaded (library_value bs) = library_value (map reloaded_book bs).
Proof.
  unfold library_value. cbn [reloaded]. f_equal. rewrite !map_map.
  apply map_ext. intros b. apply reloaded_book_value.
Qed.

Lemma storable_library bs :
  forallb code_point_book bs = true -> storable (library_value bs).
Proof.
  unfold library_value. cbn [storable].
  induction bs as [|b bs IH]; cbn [forallb map fold_right]; [tauto|].
  rewrite andb_true_iff. intros [Hb Hbs]. split; [|now apply IH].
  unfold code_point_book in Hb. rewrite !andb_true_iff in Hb.
  cbn [storable book_value fold_right fst snd]. tauto.
Qed.

Lemma persist_reload_reloaded (s : session) (v : value) :
  library s = Some v ->
  storable v ->
  persist_reload s
  = (Return tt,
     {| library := Some (reloaded v);
        storage := Some (json_dumps v);
        notices := notices s |}).
Proof.
  intros H Hv. unfold persist_reload, save_library, load_library, bind,
    get_library, write_file, set_library.
  cbn [library storage notices]. rewrite H. cbn [library storage notices].
  now rewrite (json_loads_dumps_storable v Hv).
Qed.

(** X13. The store can always read what it wrote: for every library
    without floats whose strings are made of code points, writing the
    file and loading it shows no notice, and the library that comes back
    is the one written with the surrogate pairs of its strings joined. *)
Theorem persist_reload_storable (s : session) (v : value) :
  library s = Some v ->
  storable v ->
  persist_reload s
  = (Return tt,
     {| library := Some (reloaded v);
        storage := Some (json_dumps v);
        notices := notices s |}).
Proof. apply persist_reload_reloaded. Qed.

(** X14. For a library of book records the reload is exact up to the
    pairs: the same number of books comes back in the same order, each
    with the same year and read flag, and with title, author and genre
    in which every high surrogate directly before a low one is joined
    with it; a string without such a pair comes back as it was. *)
Theorem persist_reload_books (s : session) (bs : list book) :
  holds s bs ->
  forallb code_point_book bs = true ->
  persist_reload s
  = (Return tt,
     {| library := Some (library_value (map reloaded_book bs));
        storage := Some (json_dumps (library_value bs));
        notices := notices s |})
  /\ (forall t, unpaired t = true -> join_pairs t = t).
Proof.
  intros H Hu. split; [|apply join_pairs_unpaired].
  rewrite (persist_reload_reloaded s _ H (storable_library bs Hu)).
  now rewrite reloaded_library.
Qed.

(** X15. The file is plain text: whatever the titles, authors and genres
    are, every character [save_library] writes for a library of book
    records is printable ASCII. *)
Theorem saved_text_printable (s : session) (bs : list book) :
  holds s bs ->
  forallb code_point_book bs = true ->
  exists text,
    save_library s
    = (Return tt,
       {| library := Some (library_value bs); storage := Some text;
          notices := notices s |})
    /\ Forall printable text.
Proof.
  intros H Hu. exists (json_dumps (library_value bs)). split.
  - unfold save_library, bind, get_library, write_file.
    cbn [library storage notices]. unfold holds in H. now rewrite H.
  - apply json_dumps_printable. now apply storable_library.
Qed.

End WrittenText.

(** * The page *)

Section PageProperties.
Context {B : Builtins}.

Lemma init_returns (s : session) : __init__ s = (Return tt, snd (__init__ s)).
Proof.
  unfold __init__. destruct (library s) as [v|]; [reflexivity|].
  unfold bind, set_library, load_library. cbn [library storage notices].
  destruct (storage s) as [text|]; [destruct (json_loads text)|]; reflexivity.
Qed.

Lemma init_started (s : session) v : library s = Some v -> snd (__init__ s) = s.
Proof. intros H. unfold __init__. now rewrite H. Qed.

(** The run up to the choice of the page. *)
Lemma main_frame (w : App.widgets) (s : session) :
  App.main w s []
  = (if str_eqb (App.page w) (lit "View Library") then App.view_library w
     else if str_eqb (App.page w) (lit "Add Book") then App.add_book_page w
     else if str_eqb (App.page w) (lit "Search Books")
          then App.search_books_page w
     else if str_eqb (App.page w) (lit "Statistics") then App.statistics_page w
     else App.ui_ret Finished) (snd (__init__ s)) frame.
Proof.
  unfold App.main, App.ui_bind, App.draw, App.call.
  rewrite (init_returns s). reflexivity.
Qed.

(** X16. The Add Book page validates before it adds: when the form is
    not submitted, or is submitted with an empty title or an empty
    author, the run ends normally and the library and the file are what
    the start of the store left; a submitted form with a missing field
    shows the error [Title and author are required!] and no success. *)
Theorem add_page_validates (w : App.widgets) (s : session) :
  App.page w = lit "Add Book" ->
  App.submitted w = false \/ App.title w = [] \/ App.author w = [] ->
  App.main w s []
  = (Return Finished, snd (__init__ s),
     frame ++ add_form
     ++ (if App.submitted w
         then [Error [Text "Title and author are required!"]] else [])).
Proof.
  intros Hp Hv. rewrite main_frame, Hp.
  change (str_eqb (lit "Add Book") (lit "View Library")) with false.
  change (str_eqb (lit "Add Book") (lit "Add Book")) with true. cbv iota.
  unfold App.add_book_page, App.ui_bind, App.draw, App.ui_ret.
  cbn [List.app frame add_form].
  destruct (App.submitted w); [|reflexivity].
  destruct Hv as [Hv|[Hv|Hv]]; [discriminate| |]; rewrite Hv.
  - reflexivity.
  - rewrite andb_false_r. reflexivity.
Qed.

(** X17. A submitted form with a title and an author adds exactly the
    book of the form: in a session whose library is a list, the record
    built from the five widgets is appended, the file is rewritten, and
    the page confirms with the title. *)
Theorem add_page_adds (w : App.widgets) (s : session) (l : list value) :
  App.page w = lit "Add Book" ->
  App.submitted w = true ->
  App.title w <> [] ->
  App.author w <> [] ->
  library s = Some (VList l) ->
  let book := VDict [(lit "title", VStr (App.title w));
                     (lit "author", VStr (App.author w));
                     (lit "year", VInt (App.year w));
                     (lit "genre", VStr (App.genre w));
                     (lit "read", VBool (App.read_status w))] in
  App.main w s []
  = (Return Finished,
     {| library := Some (VList (l ++ [book]));
        storage := Some (json_dumps (VList (l ++ [book])));
        notices := notices s |},
     frame ++ add_form
     ++ [Success [Text "'"; Chars (App.title w);
                  Text "' added to your library!"]]).
Proof.
  intros Hp Hs Ht Ha Hl book. rewrite main_frame, Hp.
  rewrite (init_started s _ Hl).
  change (str_eqb (lit "Add Book") (lit "View Library")) with false.
  change (str_eqb (lit "Add Book") (lit "Add Book")) with true. cbv iota.
  unfold App.add_book_page, App.ui_bind, App.draw, App.ui_ret, App.call.
  cbn [List.app frame add_form]. rewrite Hs.
  destruct (App.title w) as [|c t] eqn:Et; [congruence|].
  destruct (App.author w) as [|c' a] eqn:Ea; [congruence|].
  cbn [App.nonempty andb].
  rewrite (add_book_list _ _ _ _ _ s l Hl). reflexivity.
Qed.

Lemma remove_at_map {A C : Type} (f : A -> C) i l :
  remove_at i (map f l) = map f (remove_at i l).
Proof.
  unfold remove_at. now rewrite map_app, firstn_map, skipn_map.
Qed.

Lemma view_entry_step (w : App.widgets) i b rest s p :
  App.view_entries w i (book_value b :: rest) s p
  = if App.remove_ w i then
      App.ui_bind (App.call (remove_book (Z.of_nat i)))
        (fun ok : bool =>
           if ok then
             App.ui_bind (App.draw (Success [Text "Book removed successfully!"]))
               (fun _ => App.ui_ret Rerun)
           else App.ui_bind (App.draw Divider)
                  (fun _ => App.view_entries w (S i) rest))
        s (p ++ listed i b)
    else App.view_entries w (S i) rest s (p ++ listed i b ++ [Divider]).
Proof.
  cbn [App.view_entries]. unfold App.ui_bind at 1 2 3 4 5 6 7 8 9.
  unfold App.draw at 1 2 3 4, App.eval.
  change (py_getitem (book_value b) (lit "read")) with (Return (VBool (read b))).
  change (py_getitem (book_value b) (lit "title")) with (Return (VStr (title b))).
  change (py_getitem (book_value b) (lit "author"))
    with (Return (VStr (author b))).
  change (py_getitem (book_value b) (lit "year")) with (Return (VInt (year b))).
  change (py_getitem (book_value b) (lit "genre")) with (Return (VStr (genre b))).
  cbv beta iota. unfold listed, status_of, App.status_text. cbn [py_bool].
  rewrite <- !app_assoc. cbn [List.app].
  destruct (App.remove_ w i); [reflexivity|].
  unfold App.ui_bind, App.draw. rewrite <- !app_assoc. reflexivity.
Qed.

Lemma view_entries_unclicked (w : App.widgets) bs :
  forall i s p,
    (forall j, (j < List.length bs)%nat -> App.remove_ w (i + j) = false) ->
    App.view_entries w i (map book_value bs) s p
    = (Return Finished, s, p ++ listing i bs).
Proof.
  induction bs as [|b bs IH]; intros i s p Hn.
  - cbn [map App.view_entries listing]. unfold App.ui_ret.
    now rewrite app_nil_r.
  - cbn [map]. rewrite view_entry_step.
    rewrite <- (Nat.add_0_r i) at 1. rewrite (Hn 0%nat) by (simpl; lia).
    rewrite IH.
    + cbn [listing]. now rewrite <- !app_assoc.
    + intros j Hj. replace (S i + j)%nat with (i + S j)%nat by lia.
      apply Hn. simpl. lia.
Qed.

Lemma view_entries_clicked (w : App.widgets) bs :
  forall i k b s p lib,
    nth_error bs k = Some b ->
    (forall j, (j < k)%nat -> App.remove_ w (i + j) = false) ->
    App.remove_ w (i + k) = true ->
    library s = Some (VList lib) ->
    (i + k < List.length lib)%nat ->
    App.view_entries w i (map book_value bs) s p
    = (Return Rerun,
       {| library := Some (VList (remove_at (i + k) lib));
          storage := Some (json_dumps (VList (remove_at (i + k) lib)));
          notices := notices s |},
       p ++ listing i (firstn k bs) ++ listed (i + k) b
       ++ [Success [Text "Book removed successfully!"]]).
Proof.
  induction bs as [|b0 bs IH]; intros i k b s p lib Hb Hn Hc Hl Hlt.
  - destruct k; discriminate.
  - cbn [map]. rewrite view_entry_step. destruct k as [|k].
    + cbn [nth_error] in Hb. injection Hb as ->.
      rewrite Nat.add_0_r in *. rewrite Hc.
      unfold App.ui_bind at 1, App.call.
      rewrite (remove_book_list s lib (Z.of_nat i) Hl) by lia.
      rewrite Nat2Z.id. unfold App.ui_bind, App.draw, App.ui_ret.
      cbn [firstn listing List.app]. now rewrite <- !app_assoc.
    + cbn [nth_error] in Hb.
      rewrite <- (Nat.add_0_r i) at 1. rewrite (Hn 0%nat) by lia.
      replace (i + S k)%nat with (S i + k)%nat in * by lia.
      rewrite (IH (S i) k b s _ lib Hb); auto.
      * cbn [firstn listing]. now rewrite <- !app_assoc.
      * intros j Hj. replace (S i + j)%nat with (i + S j)%nat by lia.
        apply Hn. lia.
Qed.

Lemma view_library_books (w : App.widgets) s b bs p :
  holds s (b :: bs) ->
  App.view_library w s p
  = App.view_entries w 0 (map book_value (b :: bs)) s
      (p ++ [Header "Your Library"]).
Proof.
  intros H. unfold App.view_library, App.ui_bind, App.draw, App.call,
    App.eval, get_library.
  unfold holds in H. rewrite H. cbn [library_value map py_bool negb].
  rewrite H. reflexivity.
Qed.

(** X18. The Remove button of an entry removes that entry: on the View
    Library page of a library of book records, when the button of
    position [i] is the first one pressed, the books before it are
    listed, the book at position [i] is removed from the library and the
    file, the page confirms and the script asks for a rerun.  The index
    the page passes is always in range. *)
Theorem view_page_removes (w : App.widgets) (s : session) (bs : list book)
    (i : nat) (b : book) :
  holds s bs ->
  App.page w = lit "View Library" ->
  nth_error bs i = Some b ->
  App.remove_ w i = true ->
  (forall j, (j < i)%nat -> App.remove_ w j = false) ->
  App.main w s []
  = (Return Rerun,
     {| library := Some (library_value (remove_at i bs));
        storage := Some (json_dumps (library_value (remove_at i bs)));
        notices := notices s |},
     frame ++ [Header "Your Library"] ++ listing 0 (firstn i bs)
     ++ listed i b ++ [Success [Text "Book removed successfully!"]]).
Proof.
  intros H Hp Hb Hc Hn. rewrite main_frame, Hp.
  rewrite (init_started s _ H).
  change (str_eqb (lit "View Library") (lit "View Library")) with true.
  cbv iota.
  destruct bs as [|b0 bs0] eqn:Ebs; [destruct i; discriminate|].
  rewrite (view_library_books w s b0 bs0 frame H). rewrite <- Ebs in *.
  assert (i < List.length bs)%nat as Hi.
  { apply nth_error_Some. congruence. }
  rewrite (view_entries_clicked w bs 0 i b s _ (map book_value bs) Hb);
    auto.
  - cbn [Nat.add]. unfold library_value. rewrite remove_at_map.
    now rewrite <- !app_assoc.
  - now rewrite length_map.
Qed.

(** X19. Without a pressed button the View Library page only lists: an
    empty library gets the notice that it is empty, every book of a
    library of book records gets its two lines and its own Remove button,
    in order, and the session is left as it was. *)
Theorem view_page_lists (w : App.widgets) (s : session) (bs : list book) :
  holds s bs ->
  App.page w = lit "View Library" ->
  (forall j, (j < List.length bs)%nat -> App.remove_ w j = false) ->
  App.main w s []
  = (Return Finished, s,
     frame ++ [Header "Your Library"]
     ++ match bs with
        | [] => [Info [Text "Your library is empty! Add some books to get started."]]
        | _ :: _ => listing 0 bs
        end).
Proof.
  intros H Hp Hn. rewrite main_frame, Hp.
  rewrite (init_started s _ H).
  change (str_eqb (lit "View Library") (lit "View Library")) with true.
  cbv iota.
  destruct bs as [|b0 bs0] eqn:Ebs.
  - unfold App.view_library, App.ui_bind, App.draw, App.call, App.ui_ret,
      get_library.
    unfold holds in H. rewrite H. reflexivity.
  - rewrite (view_library_books w s b0 bs0 frame H).
    rewrite (view_entries_unclicked w (b0 :: bs0) 0 s _ Hn).
    now rewrite <- !app_assoc.
Qed.

Lemma result_entries_books found s p :
  App.result_entries (map book_value found) s p
  = (Return tt, s, p ++ flat_map result_shown found).
Proof.
  revert p. induction found as [|b found IH]; intros p.
  - cbn [map App.result_entries flat_map]. unfold App.ui_ret.
    now rewrite app_nil_r.
  - cbn [map App.result_entries flat_map].
    unfold App.ui_bind at 1 2 3 4 5 6 7, App.eval, App.draw.
    change (py_getitem (book_value b) (lit "read")) with (Return (VBool (read b))).
    change (py_getitem (book_value b) (lit "title"))
      with (Return (VStr (title b))).
    change (py_getitem (book_value b) (lit "author"))
      with (Return (VStr (author b))).
    change (py_getitem (book_value b) (lit "year"))
      with (Return (VInt (year b))).
    change (py_getitem (book_value b) (lit "genre"))
      with (Return (VStr (genre b))).
    cbv beta iota. rewrite IH. unfold result_shown, status_of, App.status_text.
    cbn [py_bool]. rewrite <- !app_assoc. reflexivity.
Qed.

(** X20. The Search Books page searches nothing for an empty term: the
    run shows the selector and the input and ends; no search is made, no
    result and no notice is shown, and the session is what the start of
    the store left. *)
Theorem search_page_gated (w : App.widgets) (s : session) :
  App.page w = lit "Search Books" ->
  App.search_term w = [] ->
  App.main w s []
  = (Return Finished, snd (__init__ s), frame ++ search_form w).
Proof.
  intros Hp Ht. rewrite main_frame, Hp.
  change (str_eqb (lit "Search Books") (lit "View Library")) with false.
  change (str_eqb (lit "Search Books") (lit "Add Book")) with false.
  change (str_eqb (lit "Search Books") (lit "Search Books")) with true.
  cbv iota.
  unfold App.search_books_page, App.ui_bind, App.draw, App.ui_ret.
  rewrite Ht. reflexivity.
Qed.

(** X21. With a term, the Search Books page shows exactly the matches:
    on a library of book records it shows either the notice that no book
    matches the term, or the number of matching books followed by one
    line per match, in the order of the library; the session is left as
    it was. *)
Theorem search_page_shows_matches (w : App.widgets) (s : session)
    (bs : list book) :
  holds s bs ->
  App.page w = lit "Search Books" ->
  App.search_term w <> [] ->
  exists found,
    selects (fun b => contains_ci (App.search_term w)
                        (if str_eqb (App.search_by w) (lit "Title")
                         then title b else author b))
            bs found
    /\ App.main w s []
       = (Return Finished, s,
          frame ++ search_form w
          ++ match found with
             | [] => [Info [Text "No books found matching '";
                            Chars (App.search_term w); Text "'"]]
             | _ :: _ =>
               Subheader [Text "Found "; Count (Z.of_nat (List.length found));
                          Text " matching books:"]
               :: flat_map result_shown found
             end).
Proof.
  intros H Hp Ht.
  set (p := fun b => str_in (str_lower (App.search_term w))
                       (str_lower (if str_eqb (App.search_by w) (lit "Title")
                                   then title b else author b))).
  exists (filter p bs). split.
  { apply selects_filter. intros b. apply contains_ci_in. }
  rewrite main_frame, Hp. rewrite (init_started s _ H).
  change (str_eqb (lit "Search Books") (lit "View Library")) with false.
  change (str_eqb (lit "Search Books") (lit "Add Book")) with false.
  change (str_eqb (lit "Search Books") (lit "Search Books")) with true.
  cbv iota.
  unfold App.search_books_page.
  unfold App.ui_bind at 1 2 3, App.draw at 1 2 3.
  assert (App.nonempty (App.search_term w) = true) as ->.
  { destruct (App.search_term w); [congruence | reflexivity]. }
  unfold App.ui_bind at 1, App.call.
  rewrite (search_book_field s bs _ _ H). fold p.
  destruct (filter p bs) as [|b found] eqn:Ef.
  - cbn [map]. unfold App.ui_bind, App.draw, App.ui_ret.
    unfold search_form. rewrite <- !app_assoc. reflexivity.
  - cbn [map]. unfold App.ui_bind at 1 2, App.draw at 1.
    change (book_value b :: map book_value found)
      with (map book_value (b :: found)).
    rewrite result_entries_books. unfold App.ui_ret.
    rewrite length_map. unfold search_form.
    rewrite <- !app_assoc. reflexivity.
Qed.

Lemma result_entries_store books s p :
  App.store_after (App.result_entries books s p) = s.
Proof.
  revert p. induction books as [|book rest IH]; intros p; [reflexivity|].
  cbn [App.result_entries].
  unfold App.ui_bind at 1 2 3 4 5 6 7, App.eval, App.draw.
  repeat match goal with
         | |- context [py_getitem book ?k] =>
           destruct (py_getitem book k); [|reflexivity]
         end.
  apply IH.
Qed.

(** X22. Only the View Library and Add Book pages change anything: on
    every other page, whatever the session holds and however the run
    ends, the library, the file and the notices are what the start of
    the store left. *)
Theorem other_pages_read_only (w : App.widgets) (s : session) :
  App.page w <> lit "View Library" ->
  App.page w <> lit "Add Book" ->
  App.store_after (App.main w s []) = snd (__init__ s).
Proof.
  intros Hv Ha. rewrite main_frame.
  destruct (str_eqb (App.page w) (lit "View Library")) eqn:E1.
  { apply str_eqb_eq in E1. contradiction. }
  destruct (str_eqb (App.page w) (lit "Add Book")) eqn:E2.
  { apply str_eqb_eq in E2. contradiction. }
  set (s0 := snd (__init__ s)).
  destruct (str_eqb (App.page w) (lit "Search Books")).
  - unfold App.search_books_page.
    unfold App.ui_bind at 1 2 3, App.draw at 1 2 3.
    destruct (App.nonempty (App.search_term w)); [|reflexivity].
    unfold App.ui_bind at 1, App.call.
    pose proof (proj1 (queries_keep_session s0 (App.search_term w)
                         (App.search_by w))) as Hq.
    destruct (search_book (App.search_term w) (App.search_by w) s0)
      as [[results|e] s1]; cbn [snd] in Hq; subst s1; [|reflexivity].
    destruct results as [|book rest]; [reflexivity|].
    unfold App.ui_bind at 1 2, App.draw at 1.
    match goal with
    | |- context [App.result_entries ?bk ?s ?p] =>
      pose proof (result_entries_store bk s p) as Hr;
      destruct (App.result_entries bk s p) as [[[u|e] s1] p1]
    end;
      unfold App.store_after in Hr; cbn [fst snd] in Hr; subst s1;
      reflexivity.
  - destruct (str_eqb (App.page w) (lit "Statistics")); [|reflexivity].
    unfold App.statistics_page.
    unfold App.ui_bind at 1 2, App.draw at 1, App.call.
    pose proof (proj2 (queries_keep_session s0 [] [])) as Hq.
    destruct (get_statistics s0) as [[stats|e] s1]; cbn [snd] in Hq; subst s1;
      [|reflexivity].
    unfold App.ui_bind, App.draw, App.ui_ret.
    destruct (total_books stats >? 0)%Z; reflexivity.
Qed.

(** X23. The Statistics page shows the figures of [get_statistics]: for a
    library of book records, the number of books, the number of read
    books with the percentage (the binary64 value of
    [(read / total) * 100], the [int] [0] for an empty library), and,
    only when the library is not empty, a chart whose two bars are the
    read books and the remaining books. *)
Theorem statistics_page_shows (w : App.widgets) (s : session)
    (bs : list book) :
  holds s bs ->
  App.page w = lit "Statistics" ->
  let total := Z.of_nat (List.length bs) in
  let reads := Z.of_nat (List.length (filter read bs)) in
  App.main w s []
  = (Return Finished, s,
     frame
     ++ [Header "Library Statistics"; Columns;
         Metric "Total Books" [Count total];
         Metric "Books Read"
           [Count reads; Text " (";
            Percent (if (total >? 0)%Z
                     then Float (float_mul_int (int_truediv reads total) 100)
                     else Int 0);
            Text "%)"]]
     ++ match bs with
        | [] => []
        | _ :: _ => [Subheader [Text "Reading Status"];
                     BarChart reads (total - reads)%Z]
        end).
Proof.
  intros H Hp total reads. rewrite main_frame, Hp.
  rewrite (init_started s _ H).
  change (str_eqb (lit "Statistics") (lit "View Library")) with false.
  change (str_eqb (lit "Statistics") (lit "Add Book")) with false.
  change (str_eqb (lit "Statistics") (lit "Search Books")) with false.
  change (str_eqb (lit "Statistics") (lit "Statistics")) with true.
  cbv iota.
  unfold App.statistics_page.
  unfold App.ui_bind at 1 2, App.draw at 1, App.call.
  rewrite (get_statistics_books s bs H).
  cbn [total_books read_books percentage_read].
  unfold App.ui_bind, App.draw, App.ui_ret. fold total reads.
  destruct bs as [|b bs'].
  - reflexivity.
  - assert ((total >? 0)%Z = true) as ->.
    { apply Z.gtb_lt. subst total. simpl. lia. }
    unfold frame. rewrite <- !app_assoc. reflexivity.
Qed.

End PageProperties.

(** * The properties at sample inputs *)

Lemma remove_book_all_or_nothing_witness :
  (-1 < 0)%Z /\ remove_book (-1) (session_of [dune; hobbit])
                = (Return false, session_of [dune; hobbit]).
Proof.
  split; [reflexivity|].
  apply (proj2 (remove_book_all_or_nothing (session_of [dune; hobbit]) (-1))).
  reflexivity.
Defined.


Lemma add_then_remove_last_witness :
  library (session_of [dune]) = Some (VList [book_value dune])
  /\ (add hobbit ;; remove_book 1)%store (session_of [dune])
     = (Return true,
        {| library := Some (VList [book_value dune]);
           storage := Some (json_dumps (VList [book_value dune]));
           notices := [] |}).
Proof.
  split; [reflexivity|].
  apply (add_then_remove_last (session_of [dune]) [book_value dune]
           (VStr (title hobbit)) (VStr (author hobbit)) (VInt (year hobbit))
           (VStr (genre hobbit)) (VBool (read hobbit)) eq_refl).
Defined.

Lemma add_then_statistics_witness :
  holds (session_of [dune]) [dune]
  /\ exists st s',
       (add hobbit ;; get_statistics)%store (session_of [dune])
       = (Return st, s')
       /\ total_books st = 2%Z /\ read_books st = 1%Z.
Proof.
  split; [reflexivity|].
  apply (add_then_statistics (session_of [dune]) [dune] hobbit eq_refl).
Defined.

Lemma add_then_search_witness :
  holds (session_of [dune]) [dune]
  /\ exists found more s',
       search_book (lit "hob") (lit "Title") (session_of [dune])
       = (Return found, session_of [dune])
       /\ (add hobbit ;; search_book (lit "hob") (lit "Title"))%store
            (session_of [dune])
          = (Return (found ++ more), s')
       /\ (more = [book_value hobbit] \/ more = [])
       /\ (more = [book_value hobbit]
           <-> contains_ci (lit "hob") (title hobbit)).
Proof.
  split; [reflexivity|].
  apply (add_then_search (session_of [dune]) [dune] hobbit (lit "hob")
           (lit "Title") eq_refl).
Defined.

Lemma search_book_missing_key_witness :
  dict_get (lit "title") [(lit "author", VStr (lit "Nobody"))] = None
  /\ search_book (lit "dune") (lit "Title") untitled_session
     = (Raise KeyError, untitled_session).
Proof.
  split; [reflexivity|].
  apply (search_book_missing_key untitled_session [dune]
           [(lit "author", VStr (lit "Nobody"))] [] (lit "dune") (lit "Title")
           eq_refl eq_refl).
Defined.

Lemma add_survives_restart_witness :
  holds (session_of [dune]) [dune]
  /\ forallb unpaired_book ([dune] ++ [hobbit]) = true
  /\ __init__ {| library := None;
                 storage := storage (snd (add hobbit (session_of [dune])));
                 notices := [] |}
     = (Return tt,
        {| library := Some (library_value ([dune] ++ [hobbit]));
           storage := Some (json_dumps (library_value ([dune] ++ [hobbit])));
           notices := [] |}).
Proof.
  repeat (split; [reflexivity|]).
  apply (add_survives_restart (session_of [dune]) [dune] hobbit
           eq_refl eq_refl).
Defined.

Lemma corrupt_file_overwritten_witness :
  library (starting_with (lit "{not json")) = None
  /\ read_text utf8_platform (lit "{not json") = Some (lit "{not json")
  /\ limit_reached utf8_platform (lit "{not json") = None
  /\ json_loads (lit "{not json") = None
  /\ storage (snd ((OnDisk.__init__ utf8_platform ;; add dune)%store
                     (starting_with (lit "{not json"))))
     = Some (json_dumps (library_value [dune])).
Proof.
  assert (read_text utf8_platform (lit "{not json") = Some (lit "{not json"))
    as Hr by (vm_compute; reflexivity).
  assert (limit_reached utf8_platform (lit "{not json") = None)
    as Hlim by (vm_compute; reflexivity).
  split; [reflexivity|]. split; [exact Hr|]. split; [exact Hlim|].
  split; [reflexivity|].
  unfold add.
  rewrite (corrupt_file_overwritten utf8_platform
             (starting_with (lit "{not json"))
             (lit "{not json") (lit "{not json")
             (VStr (title dune)) (VStr (author dune))
             (VInt (year dune)) (VStr (genre dune)) (VBool (read dune))
             eq_refl eq_refl Hr Hlim eq_refl).
  reflexivity.
Defined.

Lemma search_book_narrows_witness :
  holds (session_of [dune; hobbit]) [dune; hobbit]
  /\ contains_ci (lit "b") (lit "Hob")
  /\ exists found1 found2,
       search_book (lit "b") (lit "Title") (session_of [dune; hobbit])
       = (Return (map book_value found1), session_of [dune; hobbit])
       /\ search_book (lit "Hob") (lit "Title") (session_of [dune; hobbit])
          = (Return (map book_value found2), session_of [dune; hobbit])
       /\ selects (fun b => contains_ci (lit "Hob") (title b)) found1 found2.
Proof.
  split; [reflexivity|].
  assert (contains_ci (lit "b") (lit "Hob")) as Hc.
  { exists (lit "ho"), []. reflexivity. }
  split; [exact Hc|].
  apply (search_book_narrows (session_of [dune; hobbit]) [dune; hobbit]
           (lit "b") (lit "Hob") (lit "Title") eq_refl Hc).
Defined.

Lemma persist_reload_storable_witness :
  library (session_of [split_title]) = Some (library_value [split_title])
  /\ persist_reload (session_of [split_title])
     = (Return tt,
        {| library := Some (reloaded (library_value [split_title]));
           storage := Some (json_dumps (library_value [split_title]));
           notices := [] |}).
Proof.
  split; [reflexivity|].
  apply (persist_reload_storable (session_of [split_title])
           (library_value [split_title]) eq_refl).
  simpl. repeat split; reflexivity.
Defined.

Lemma persist_reload_books_witness :
  holds (session_of [split_title; dune]) [split_title; dune]
  /\ forallb code_point_book [split_title; dune] = true
  /\ persist_reload (session_of [split_title; dune])
     = (Return tt,
        {| library := Some (library_value [joined_title; dune]);
           storage := Some (json_dumps (library_value [split_title; dune]));
           notices := [] |}).
Proof.
  repeat (split; [reflexivity|]).
  apply (proj1 (persist_reload_books (session_of [split_title; dune])
                  [split_title; dune] eq_refl eq_refl)).
Defined.

Lemma saved_text_printable_witness :
  holds (session_of [split_title]) [split_title]
  /\ forallb code_point_book [split_title] = true
  /\ exists text,
       save_library (session_of [split_title])
       = (Return tt,
          {| library := Some (library_value [split_title]);
             storage := Some text; notices := [] |})
       /\ Forall printable text.
Proof.
  repeat (split; [reflexivity|]).
  apply (saved_text_printable (session_of [split_title]) [split_title]
           eq_refl eq_refl).
Defined.

(** A form submitted without an author adds nothing and shows the
    error. *)
Lemma add_page_validates_witness :
  App.page (submit (lit "Dune") []) = lit "Add Book"
  /\ App.author (submit (lit "Dune") []) = []
  /\ App.main (submit (lit "Dune") []) (session_of [hobbit]) []
     = (Return Finished, session_of [hobbit],
        frame ++ add_form ++ [Error [Text "Title and author are required!"]]).
Proof.
  repeat (split; [reflexivity|]).
  apply (add_page_validates (submit (lit "Dune") []) (session_of [hobbit]) eq_refl).
  right. right. reflexivity.
Defined.

Lemma add_page_adds_witness :
  App.page (submit (lit "Dune") (lit "Frank Herbert")) = lit "Add Book"
  /\ App.submitted (submit (lit "Dune") (lit "Frank Herbert")) = true
  /\ library (session_of [hobbit]) = Some (VList [book_value hobbit])
  /\ App.main (submit (lit "Dune") (lit "Frank Herbert")) (session_of [hobbit]) []
     = (Return Finished,
        {| library := Some (library_value [hobbit; dune]);
           storage := Some (json_dumps (library_value [hobbit; dune]));
           notices := [] |},
        frame ++ add_form
        ++ [Success [Text "'"; Chars (lit "Dune");
                     Text "' added to your library!"]]).
Proof.
  repeat (split; [reflexivity|]).
  apply (add_page_adds (submit (lit "Dune") (lit "Frank Herbert")) (session_of [hobbit])
           [book_value hobbit] eq_refl eq_refl).
  - discriminate.
  - discriminate.
  - reflexivity.
Defined.

(** Pressing the button of the second entry removes the second book. *)
Lemma view_page_removes_witness :
  holds (session_of [dune; hobbit]) [dune; hobbit]
  /\ nth_error [dune; hobbit] 1 = Some hobbit
  /\ App.remove_ (press 1) 1 = true
  /\ App.main (press 1) (session_of [dune; hobbit]) []
     = (Return Rerun,
        {| library := Some (library_value [dune]);
           storage := Some (json_dumps (library_value [dune]));
           notices := [] |},
        frame ++ [Header "Your Library"] ++ listing 0 [dune]
        ++ listed 1 hobbit ++ [Success [Text "Book removed successfully!"]]).
Proof.
  repeat (split; [reflexivity|]).
  apply (view_page_removes (press 1) (session_of [dune; hobbit])
           [dune; hobbit] 1 hobbit eq_refl eq_refl eq_refl eq_refl).
  intros j Hj. destruct j; [reflexivity | lia].
Defined.

Lemma view_page_lists_witness :
  holds (session_of [dune; hobbit]) [dune; hobbit]
  /\ App.main (idle "View Library") (session_of [dune; hobbit]) []
     = (Return Finished, session_of [dune; hobbit],
        frame ++ [Header "Your Library"] ++ listing 0 [dune; hobbit]).
Proof.
  split; [reflexivity|].
  apply (view_page_lists (idle "View Library") (session_of [dune; hobbit])
           [dune; hobbit] eq_refl eq_refl).
  intros j Hj. reflexivity.
Defined.

Lemma search_page_gated_witness :
  App.page (idle "Search Books") = lit "Search Books"
  /\ App.search_term (idle "Search Books") = []
  /\ App.main (idle "Search Books") (session_of [dune; hobbit]) []
     = (Return Finished, snd (__init__ (session_of [dune; hobbit])),
        frame ++ search_form (idle "Search Books")).
Proof.
  repeat (split; [reflexivity|]).
  apply (search_page_gated (idle "Search Books") (session_of [dune; hobbit])
           eq_refl eq_refl).
Defined.

Lemma search_page_shows_matches_witness :
  holds (session_of [dune; hobbit]) [dune; hobbit]
  /\ App.search_term (look_for "Title" "hob") <> []
  /\ exists found,
       selects (fun b => contains_ci (lit "hob") (title b))
               [dune; hobbit] found
       /\ App.main (look_for "Title" "hob") (session_of [dune; hobbit]) []
          = (Return Finished, session_of [dune; hobbit],
             frame ++ search_form (look_for "Title" "hob")
             ++ match found with
                | [] => [Info [Text "No books found matching '";
                               Chars (lit "hob"); Text "'"]]
                | _ :: _ =>
                  Subheader [Text "Found ";
                             Count (Z.of_nat (List.length found));
                             Text " matching books:"]
                  :: flat_map result_shown found
                end).
Proof.
  split; [reflexivity|]. split; [discriminate|].
  apply (search_page_shows_matches (look_for "Title" "hob")
           (session_of [dune; hobbit]) [dune; hobbit] eq_refl eq_refl).
  discriminate.
Defined.

Lemma other_pages_read_only_witness :
  App.page (look_for "Title" "hob") <> lit "View Library"
  /\ App.page (look_for "Title" "hob") <> lit "Add Book"
  /\ App.store_after (App.main (look_for "Title" "hob") untitled_session [])
     = snd (__init__ untitled_session).
Proof.
  split; [discriminate|]. split; [discriminate|].
  apply (other_pages_read_only (look_for "Title" "hob") untitled_session);
    discriminate.
Defined.

Lemma statistics_page_shows_witness :
  holds (session_of [dune; hobbit]) [dune; hobbit]
  /\ App.main (idle "Statistics") (session_of [dune; hobbit]) []
     = (Return Finished, session_of [dune; hobbit],
        frame
        ++ [Header "Library Statistics"; Columns;
            Metric "Total Books" [Count 2];
            Metric "Books Read"
              [Count 1; Text " (";
               Percent (Float (float_of_int 50)); Text "%)"]]
        ++ [Subheader [Text "Reading Status"]; BarChart 1 1]).
Proof.
  split; [reflexivity|].
  apply (statistics_page_shows (idle "Statistics")
           (session_of [dune; hobbit]) [dune; hobbit] eq_refl eq_refl).
Defined.
